(** * Ingestion pipeline of the BlobIndexTrigger function

    A shallow embedding of [src/BlobIndexTrigger/__init__.py]: text
    extraction, sentence chunking, embedding generation under the tenacity
    retry decorator, and assembly of the documents sent to the search index.

    Python [str] values are lists of Unicode code points, [bytes] values are
    lists of [byte]; Python [int]s are [Z], list positions are [nat]. *)

From Stdlib Require Import ZArith NArith Lia Bool Ascii String.
From Stdlib.Strings Require Import Byte.
From stdpp Require Import base tactics option list numbers strings pretty gmap.

Local Open Scope Z_scope.
Local Open Scope nat_scope.

(** ** Python built-ins used by the program *)

Module Py.

(** A string literal of the source, as its list of code points. *)
Definition lit (s : string) : list N :=
  N_of_ascii <$> list_ascii_of_string s.

(** [str.isspace] on one code point, which is also the character class
    [\s] of [re] on [str] patterns and the separator set of [str.split()]
    and [str.strip()]. *)
Definition isspace (c : N) : bool :=
  ((0x09 <=? c) && (c <=? 0x0D) || (0x1C <=? c) && (c <=? 0x20)
   || (c =? 0x85) || (c =? 0xA0) || (c =? 0x1680)
   || (0x2000 <=? c) && (c <=? 0x200A)
   || (c =? 0x2028) || (c =? 0x2029) || (c =? 0x202F)
   || (c =? 0x205F) || (c =? 0x3000))%N.

(** [s.lstrip()]. *)
Fixpoint lstrip (s : list N) : list N :=
  match s with
  | [] => []
  | c :: s' => if isspace c then lstrip s' else s
  end.

(** Removal of the trailing characters that satisfy [p]: [s.rstrip()] for
    [p] the whitespace test, [s.rstrip(chars)] for [p] the membership in
    [chars]. *)
Fixpoint rstrip_by (p : N → bool) (s : list N) : list N :=
  match s with
  | [] => []
  | c :: s' =>
      match rstrip_by p s' with
      | [] => if p c then [] else [c]
      | r => c :: r
      end
  end.

Definition rstrip (s : list N) : list N := rstrip_by isspace s.

(** [s.strip()]. *)
Definition strip (s : list N) : list N := rstrip (lstrip s).

(** [sep.join(l)]. *)
Fixpoint join (sep : list N) (l : list (list N)) : list N :=
  match l with
  | [] => []
  | [x] => x
  | x :: l' => x ++ sep ++ join sep l'
  end.

(** [s.split()]: the maximal runs of non-whitespace characters.  [word]
    holds the characters of the run being read, last one first. *)
Fixpoint split_go (word : list N) (s : list N) : list (list N) :=
  match s with
  | [] => match word with [] => [] | _ => [rev word] end
  | c :: s' =>
      if isspace c then
        match word with
        | [] => split_go [] s'
        | _ => rev word :: split_go [] s'
        end
      else split_go (c :: word) s'
  end.

Definition split (s : list N) : list (list N) := split_go [] s.

(** [l[:n]]. *)
Definition slice_to {A} (n : Z) (l : list A) : list A :=
  if (n <? 0)%Z then take (length l - Z.to_nat (- n)) l
  else take (Z.to_nat n) l.

(** [s.replace(old, new)] for one-character [old] and [new]. *)
Definition replace (old new : N) (s : list N) : list N :=
  (λ c, if (c =? old)%N then new else c) <$> s.

(** [s.rfind(c)] for a one-character [c]: the last index of [c], or -1.
    [i] is the index of the head of [s], [found] the last hit so far. *)
Fixpoint rfind_go (c : N) (s : list N) (i found : Z) : Z :=
  match s with
  | [] => found
  | d :: s' => rfind_go c s' (i + 1)%Z (if (d =? c)%N then i else found)
  end.

Definition rfind (c : N) (s : list N) : Z := rfind_go c s 0%Z (-1)%Z.

(** [s.endswith(suffix)]. *)
Definition endswith (s suffix : list N) : bool :=
  bool_decide (drop (length s - length suffix) s = suffix).

(** [str(n)] for an [int]. *)
Definition str_of_int (n : Z) : list N := lit (pretty n).

(** [re.sub(r'\s+', ' ', s)]: every maximal whitespace run becomes one
    space.  [in_run] tells that the previous character was whitespace. *)
Fixpoint sub_ws_go (in_run : bool) (s : list N) : list N :=
  match s with
  | [] => []
  | c :: s' =>
      if isspace c then
        if in_run then sub_ws_go true s' else 0x20%N :: sub_ws_go true s'
      else c :: sub_ws_go false s'
  end.

Definition re_sub_ws (s : list N) : list N := sub_ws_go false s.

(** The character class [[.!?]]. *)
Definition sentence_end (c : N) : bool :=
  ((c =? 0x2E) || (c =? 0x21) || (c =? 0x3F))%N.

(** [re.split(r'(?<=[.!?])\s+', s)].  A match is a maximal whitespace run
    whose predecessor is one of [. ! ?]; the pieces between the matches are
    returned, the matches dropped.  [piece] holds the piece being read,
    last character first; [prev] tells that the previous character is in
    [[.!?]]; [delim] that the scan is inside a match. *)
Fixpoint re_split_go (s : list N) (piece : list N) (prev delim : bool)
  : list (list N) :=
  match s with
  | [] => [rev piece]
  | c :: s' =>
      if isspace c then
        if delim then re_split_go s' piece prev true
        else if prev then rev piece :: re_split_go s' [] false true
        else re_split_go s' (c :: piece) false false
      else re_split_go s' (c :: piece) (sentence_end c) false
  end.

Definition re_split_sentences (s : list N) : list (list N) :=
  re_split_go s [] false false.

(** [b.decode('latin-1')]: every byte is the code point of its value. *)
Definition decode_latin1 (b : list byte) : list N := Byte.to_N <$> b.

(** [b.decode('utf-8')], strict: [None] is [UnicodeDecodeError].
    Overlong forms, surrogates and values above U+10FFFF are refused. *)
Definition cont (x : N) : bool := ((0x80 <=? x) && (x <=? 0xBF))%N.

Fixpoint decode_utf8 (b : list byte) : option (list N) :=
  match b with
  | [] => Some []
  | b0 :: r0 =>
      let x0 := Byte.to_N b0 in
      if (x0 <? 0x80)%N then cons x0 <$> decode_utf8 r0
      else if ((0xC2 <=? x0) && (x0 <=? 0xDF))%N then
        match r0 with
        | b1 :: r1 =>
            let x1 := Byte.to_N b1 in
            if cont x1
            then cons ((x0 - 0xC0) * 64 + (x1 - 0x80))%N <$> decode_utf8 r1
            else None
        | _ => None
        end
      else if ((0xE0 <=? x0) && (x0 <=? 0xEF))%N then
        match r0 with
        | b1 :: b2 :: r2 =>
            let x1 := Byte.to_N b1 in
            let x2 := Byte.to_N b2 in
            if (cont x1 && cont x2
                && (negb (x0 =? 0xE0) || (0xA0 <=? x1))
                && (negb (x0 =? 0xED) || (x1 <=? 0x9F)))%N
            then cons ((x0 - 0xE0) * 4096 + (x1 - 0x80) * 64
                       + (x2 - 0x80))%N <$> decode_utf8 r2
            else None
        | _ => None
        end
      else if ((0xF0 <=? x0) && (x0 <=? 0xF4))%N then
        match r0 with
        | b1 :: b2 :: b3 :: r3 =>
            let x1 := Byte.to_N b1 in
            let x2 := Byte.to_N b2 in
            let x3 := Byte.to_N b3 in
            if (cont x1 && cont x2 && cont x3
                && (negb (x0 =? 0xF0) || (0x90 <=? x1))
                && (negb (x0 =? 0xF4) || (x1 <=? 0x8F)))%N
            then cons ((x0 - 0xF0) * 262144 + (x1 - 0x80) * 4096
                       + (x2 - 0x80) * 64 + (x3 - 0x80))%N
                   <$> decode_utf8 r3
            else None
        | _ => None
        end
      else None
  end.

(** [s.lower()].  The ASCII letters are mapped here; [table] is the
    lowercase mapping of the Unicode database for the other code points,
    which may give several code points for one. *)
Definition lower (table : N → list N) (s : list N) : list N :=
  c ← s;
  if ((0x41 <=? c) && (c <=? 0x5A))%N then [(c + 0x20)%N]
  else if (c <? 0x80)%N then [c]
  else table c.

(** [os.path.basename(p)] and [os.path.splitext(p)] of [posixpath]. *)
Definition basename (p : list N) : list N :=
  drop (Z.to_nat (rfind 0x2F p + 1)) p.

Definition splitext (p : list N) : list N * list N :=
  let sepIndex := rfind 0x2F p in
  let dotIndex := rfind 0x2E p in
  if (dotIndex >? sepIndex)%Z then
    let filenameIndex := (sepIndex + 1)%Z in
    let leading :=
      take (Z.to_nat (dotIndex - filenameIndex)) (drop (Z.to_nat filenameIndex) p) in
    if forallb (λ c, (c =? 0x2E)%N) leading then (p, [])
    else (take (Z.to_nat dotIndex) p, drop (Z.to_nat dotIndex) p)
  else (p, []).

End Py.

(** ** Data model *)

Record File := mkFile {
  name : list N;
  _content : list byte;
  content_type : list N
}.

Definition filename (self : File) : list N := name self.

Definition filename_to_id (self : File) : list N :=
  Py.replace 0x2E 0x5F (Py.replace 0x2F 0x5F (name self)).

Definition get_content (self : File) : list byte := _content self.

Record SplitPage := mkSplitPage {
  text : list N;
  page_num : nat
}.

Record Section := mkSection {
  split_page : SplitPage;
  content : File;
  category : option (list N);
  title : list N;
  urls : list (list N)
}.

(** ** TextSplitter.split_text *)

(** [len(s.split())], the word count that stands for the token count. *)
Definition token_count (s : list N) : Z := Z.of_nat (length (Py.split s)).

(** The variables of the loop of [split_text]. *)
Record split_state := mkSplitState {
  sections : list SplitPage;
  current_section : list (list N);
  current_length : Z;
  section_number : nat
}.

Definition split_init : split_state := mkSplitState [] [] 0 0.

(** The section made of the accumulated sentences. *)
Definition close_section (st : split_state) : SplitPage :=
  mkSplitPage (Py.join (Py.lit " ") (current_section st)) (section_number st).

(** One round of the loop, for one sentence. *)
Definition split_step (max_tokens : Z) (st : split_state) (sentence : list N)
  : split_state :=
  let sentence_length := token_count sentence in
  let st1 :=
    if (current_length st + sentence_length >? max_tokens)%Z then
      match current_section st with
      | [] => st
      | _ :: _ =>
          mkSplitState (sections st ++ [close_section st]) [] 0
                       (S (section_number st))
      end
    else st in
  mkSplitState (sections st1) (current_section st1 ++ [sentence])
               (current_length st1 + sentence_length) (section_number st1).

(** The text as the loop sees it, and its sentences. *)
Definition clean (txt : list N) : list N := Py.strip (Py.re_sub_ws txt).

Definition sentences_of (txt : list N) : list (list N) :=
  Py.re_split_sentences (clean txt).

(** The end of [split_text], after the loop: the accumulated sentences, if
    any, make the last section. *)
Definition finish (st : split_state) : list SplitPage :=
  match current_section st with
  | [] => sections st
  | _ :: _ => sections st ++ [close_section st]
  end.

Definition split_text (max_tokens : Z) (txt : list N) : list SplitPage :=
  finish (foldl (split_step max_tokens) split_init (sentences_of txt)).

(** ** Sourcepage *)

Section Sourcepage.

(** Lowercase mapping of the Unicode database outside ASCII. *)
Variable unicode_lower : N → list N.

Definition sourcepage_from_file_page (filename : list N) (page : Z)
  : list N :=
  if bool_decide (Py.lower unicode_lower (Py.splitext filename).2
                  = Py.lit ".pdf")
  then Py.basename filename ++ Py.lit "#page=" ++ Py.str_of_int (page + 1)
  else Py.basename filename.

End Sourcepage.

(** ** Collaborators and effects *)

Module OpenAIEmbeddings.
Record t := mk {
  endpoint : list N;
  deployment : list N;
  api_key : list N;
  model : list N;
  dimensions : Z;
  max_tokens : Z
}.

(** [__init__]. *)
Definition init (endpoint deployment api_key : list N) : t :=
  mk (Py.rstrip_by (λ c, (c =? 0x2F)%N) endpoint) deployment api_key
     (Py.lit "text-embedding-ada-002") 1536 8000.
End OpenAIEmbeddings.

Module SearchInfo.
Record t := mk {
  endpoint : list N;
  credential : list N;
  index_name : list N
}.
End SearchInfo.

(** The exceptions a run can end with. *)
Inductive exn :=
| PdfReadError              (* PyPDF2 cannot read the bytes *)
| KeyError (key : string)   (* [os.environ[key]] without that variable *)
| EmbeddingError            (* [client.embeddings.create] raises *)
| RetryError                (* tenacity: the attempts are used up *)
| UploadError.              (* [upload_documents] raises *)

(** What a call of the source returns: [process_file_and_update_index] has
    only bare [return]s and the end of its body. *)
Inductive pyvalue :=
| PyNone
| PyInt (n : Z).

(** The document shape sent to the index, a dict in the source; [E] is the
    type of the embedding vectors. *)
Record IndexDocument (E : Type) := mkIndexDocument {
  doc_id : list N;
  doc_content : list N;
  doc_embedding : E;
  doc_title : list N;
  doc_category : option (list N);
  doc_sourcefile : list N;
  doc_sourcepage : list N;
  doc_urls : list (list N);
  doc_storageUrl : list N
}.
Arguments mkIndexDocument {E}.
Arguments doc_id {E}.
Arguments doc_content {E}.
Arguments doc_embedding {E}.
Arguments doc_title {E}.
Arguments doc_category {E}.
Arguments doc_sourcefile {E}.
Arguments doc_sourcepage {E}.
Arguments doc_urls {E}.
Arguments doc_storageUrl {E}.

(** The calls a run makes to the outside, in the order it makes them, with
    the three log lines the statements below speak of. *)
Inductive event (E : Type) :=
| EmbeddingsCreate (input : list N)
| Sleep (seconds : Z)
| UploadDocuments (documents : list (IndexDocument E))
| LogEmptyContent
| LogNoText
| LogUploaded (n : nat).
Arguments EmbeddingsCreate {E}.
Arguments Sleep {E}.
Arguments UploadDocuments {E}.
Arguments LogEmptyContent {E}.
Arguments LogNoText {E}.
Arguments LogUploaded {E}.

(** tenacity's [wait_exponential(multiplier, min, max)], in seconds, after
    the attempt of the given number has failed. *)
Definition wait_exponential (multiplier min max : Z) (attempt_number : nat)
  : Z :=
  Z.max (Z.max 0 min) (Z.min (multiplier * 2 ^ (Z.of_nat attempt_number - 1)) max).

Section Effects.

(** The state of the services outside, and the vectors they return. *)
Variables World E : Type.

(** A computation: from the state of the outside to an exception or a
    value, the new state, and the events made. *)
Definition M (A : Type) : Type :=
  World → (exn + A) * World * list (event E).

Definition ret {A} (a : A) : M A := λ w, (inr a, w, []).

Definition raise {A} (e : exn) : M A := λ w, (inl e, w, []).

Definition bind {A B} (m : M A) (f : A → M B) : M B := λ w,
  match m w with
  | (inl e, w1, t1) => (inl e, w1, t1)
  | (inr a, w1, t1) =>
      match f a w1 with
      | (r, w2, t2) => (r, w2, t1 ++ t2)
      end
  end.

Definition emit (e : event E) : M unit := λ w, (inr (), w, [e]).

(** A call to a service: the event is recorded, [None] raises [e]. *)
Definition call {A} (ev : event E) (e : exn)
    (service : World → option A * World) : M A := λ w,
  match service w with
  | (Some a, w1) => (inr a, w1, [ev])
  | (None, w1) => (inl e, w1, [ev])
  end.

Fixpoint mapM {A B} (f : A → M B) (l : list A) : M (list B) :=
  match l with
  | [] => ret []
  | a :: l' =>
      bind (f a) (λ b, bind (mapM f l') (λ bs, ret (b :: bs)))
  end.

(** tenacity's [retry(stop=stop_after_attempt(n), wait=wait)]: the call is
    made again after every exception, with a sleep of [wait k] after the
    failure of attempt [k], until attempt [n] has failed; then
    [RetryError] is raised.  [more] is the number of attempts left after
    the current one. *)
Fixpoint retry_from {A} (wait : nat → Z) (more attempt_number : nat)
    (f : M A) : M A := λ w,
  match f w with
  | (inr a, w1, t1) => (inr a, w1, t1)
  | (inl e, w1, t1) =>
      match more with
      | 0 => (inl RetryError, w1, t1)
      | S more' =>
          match retry_from wait more' (S attempt_number) f w1 with
          | (r, w2, t2) => (r, w2, t1 ++ Sleep (wait attempt_number) :: t2)
          end
      end
  end.

Definition retry {A} (stop_after_attempt : nat) (wait : nat → Z) (f : M A)
  : M A :=
  retry_from wait (stop_after_attempt - 1) 1 f.

End Effects.

Arguments ret {World E A}.
Arguments raise {World E A}.
Arguments bind {World E A B}.
Arguments emit {World E}.
Arguments call {World E A}.
Arguments mapM {World E A B}.
Arguments retry_from {World E A}.
Arguments retry {World E A}.

Notation "'let*' x ':=' m 'in' k" := (bind m (λ x, k))
  (at level 10, x name, m at level 100, k at level 200).

(** ** Documents *)

(** The dict that the comprehension of [process_file_and_update_index]
    builds at position [i] for a section and its vector, [account] being
    [os.environ['AZURE_STORAGE_ACCOUNT_NAME']]. *)
Definition document_of {E} (unicode_lower : N → list N)
    (account file_name : list N) (i : nat) (section : Section)
    (embedding : E) : IndexDocument E :=
  {| doc_id := filename_to_id (content section) ++ Py.lit "-page-"
               ++ Py.str_of_int (Z.of_nat i);
     doc_content := text (split_page section);
     doc_embedding := embedding;
     doc_title := title section;
     doc_category := category section;
     doc_sourcefile := filename (content section);
     doc_sourcepage :=
       sourcepage_from_file_page unicode_lower (filename (content section))
         (Z.of_nat (page_num (split_page section)));
     doc_urls := urls section;
     doc_storageUrl :=
       Py.lit "https://" ++ account
       ++ Py.lit ".blob.core.windows.net/evidencefiles/" ++ file_name
  |}.

(** The documents of a batch, for sections and vectors paired by
    position. *)
Definition documents_of {E} (unicode_lower : N → list N)
    (account file_name : list N) (sections : list Section)
    (embeddings : list E) : list (IndexDocument E) :=
  imap (λ i p, document_of unicode_lower account file_name i p.1 p.2)
       (zip sections embeddings).

(** The sections that [process_file_and_update_index] makes of the pages
    of a file. *)
Definition sections_of (file : File) (file_name : list N)
    (split_pages : list SplitPage) : list Section :=
  (λ split_page, mkSection split_page file None (Py.basename file_name) [])
    <$> split_pages.

(** ** The pipeline *)

Section Pipeline.

(** Lowercase mapping of the Unicode database outside ASCII. *)
Variable unicode_lower : N → list N.

(** PyPDF2: the texts [page.extract_text()] of the pages of
    [PdfReader(io.BytesIO(content))], or [None] when it raises. *)
Variable pdf_page_texts : list byte → option (list (list N)).

(** [os.environ]. *)
Variable environ : gmap string (list N).

(** The state of the remote services, the embedding vectors and the
    per-document results of the index. *)
Variables World E IndexingResult : Type.

(** [client.embeddings.create(input=text, model=self.model)] followed by
    [response.data[0].embedding], for the client built from [self];
    [None] when either raises. *)
Variable embeddings_create :
  OpenAIEmbeddings.t → list N → World → option E * World.

(** [search_client.upload_documents(documents)] for the client that
    [search_info.create_search_client()] builds, a construction that calls
    no service; [None] when the upload raises. *)
Variable upload_documents :
  SearchInfo.t → list (IndexDocument E) → World
  → option (list IndexingResult) * World.

Local Abbreviation M := (M World E).

(** [TextSplitter.extract_text]; the handler around it logs and raises
    again. *)
Definition extract_text (file : File) : exn + list N :=
  let content := get_content file in
  if bool_decide (Py.lower unicode_lower (content_type file)
                  = Py.lit "application/pdf")
     || Py.endswith (Py.lower unicode_lower (name file)) (Py.lit ".pdf")
  then
    match pdf_page_texts content with
    | None => inl PdfReadError
    | Some pages =>
        inr (Py.strip
               (foldl (λ txt page, txt ++ page ++ [0x0A; 0x0A]%N) [] pages))
    end
  else
    match Py.decode_utf8 content with
    | Some txt => inr (Py.strip txt)
    | None => inr (Py.strip (Py.decode_latin1 content))
    end.

(** The text sent for one section: cut to its first [max_tokens] words
    when it has more. *)
Definition truncated (self : OpenAIEmbeddings.t) (txt : list N) : list N :=
  if (token_count txt >? OpenAIEmbeddings.max_tokens self)%Z then
    let words :=
      Py.slice_to (OpenAIEmbeddings.max_tokens self) (Py.split txt) in
    Py.join (Py.lit " ") words
  else txt.

(** The body of the loop of [create_embeddings], for one text. *)
Definition embed_text (self : OpenAIEmbeddings.t) (txt : list N) : M E :=
  let txt := truncated self txt in
  call (EmbeddingsCreate txt) EmbeddingError (embeddings_create self txt).

(** [create_embeddings] without its decorator. *)
Definition create_embeddings_wrapped (self : OpenAIEmbeddings.t)
    (texts : list (list N)) : M (list E) :=
  mapM (embed_text self) texts.

(** [create_embeddings], under
    [@retry(stop=stop_after_attempt(3),
            wait=wait_exponential(multiplier=1, min=4, max=10))]. *)
Definition create_embeddings (self : OpenAIEmbeddings.t)
    (texts : list (list N)) : M (list E) :=
  retry 3 (wait_exponential 1 4 10) (create_embeddings_wrapped self texts).

(** The retry policy as the specification words it: three attempts for
    the remote call of each section, the sections taken in order. *)
Definition create_embeddings_per_section (self : OpenAIEmbeddings.t)
    (texts : list (list N)) : M (list E) :=
  mapM (λ txt, retry 3 (wait_exponential 1 4 10) (embed_text self txt))
       texts.

Definition getenv (key : string) : M (list N) :=
  match environ !! key with
  | Some v => ret v
  | None => raise (KeyError key)
  end.

(** One element of the comprehension that builds [documents]. *)
Definition document (file_name : list N) (i : nat) (section : Section)
    (embedding : E) : M (IndexDocument E) :=
  let* account := getenv "AZURE_STORAGE_ACCOUNT_NAME" in
  ret (document_of unicode_lower account file_name i section embedding).

(** [enumerate(l)]. *)
Definition enumerate {A} (l : list A) : list (nat * A) := imap pair l.

(** The part of [process_file_and_update_index] after the split: sections,
    embeddings, documents, upload. *)
Definition index_split_pages (file : File) (file_name : list N)
    (search_info : SearchInfo.t) (split_pages : list SplitPage)
  : M pyvalue :=
  let sections := sections_of file file_name split_pages in
  let* endpoint := getenv "AZURE_OPENAI_ENDPOINT" in
  let* deployment := getenv "AZURE_OPENAI_DEPLOYMENT" in
  let* api_key := getenv "AZURE_OPENAI_KEY" in
  let embeddings_service :=
    OpenAIEmbeddings.init endpoint deployment api_key in
  let texts := (λ section, text (split_page section)) <$> sections in
  let* embeddings := create_embeddings embeddings_service texts in
  let* documents :=
    mapM (λ p, document file_name p.1 p.2.1 p.2.2)
         (enumerate (zip sections embeddings)) in
  let* result :=
    call (UploadDocuments documents) UploadError
         (upload_documents search_info documents) in
  let* _ := emit (LogUploaded (length result)) in
  ret PyNone.

(** The default [max_tokens] of [TextSplitter()]. *)
Definition default_max_tokens : Z := 2000.

Definition process_file_and_update_index (blob_content : list byte)
    (content_type : list N) (file_name : list N)
    (search_info : SearchInfo.t) : M pyvalue :=
  match blob_content with
  | [] => let* _ := emit LogEmptyContent in ret PyNone
  | _ :: _ =>
      let file := mkFile file_name blob_content content_type in
      match extract_text file with
      | inl e => raise e
      | inr [] => let* _ := emit LogNoText in ret PyNone
      | inr txt =>
          let split_pages := split_text default_max_tokens txt in
          index_split_pages file file_name search_info split_pages
      end
  end.

(** ** The outcomes of a run *)

(** The run has content, its extracted text is [txt], not empty, and the
    settings of the embedding service are there, making [self]. *)
Record chunked (blob_content : list byte) (content_type file_name : list N)
    (txt : list N) (self : OpenAIEmbeddings.t) : Prop := {
  chunked_content : blob_content ≠ [];
  chunked_text :
    extract_text (mkFile file_name blob_content content_type) = inr txt;
  chunked_text_nonempty : txt ≠ [];
  chunked_settings :
    ∃ endpoint deployment api_key,
      environ !! "AZURE_OPENAI_ENDPOINT" = Some endpoint
      ∧ environ !! "AZURE_OPENAI_DEPLOYMENT" = Some deployment
      ∧ environ !! "AZURE_OPENAI_KEY" = Some api_key
      ∧ self = OpenAIEmbeddings.init endpoint deployment api_key
}.

(** The ways a run can go, stage by stage, each with the result, the
    final state and the events of the run. *)
Inductive outcome (blob_content : list byte)
    (content_type file_name : list N) (search_info : SearchInfo.t)
    (w : World) : (exn + pyvalue) * World * list (event E) → Prop :=
| outcome_empty_content :
    blob_content = [] →
    outcome blob_content content_type file_name search_info w
      (inr PyNone, w, [LogEmptyContent])
| outcome_extraction_error e :
    blob_content ≠ [] →
    extract_text (mkFile file_name blob_content content_type) = inl e →
    outcome blob_content content_type file_name search_info w
      (inl e, w, [])
| outcome_no_text :
    blob_content ≠ [] →
    extract_text (mkFile file_name blob_content content_type) = inr [] →
    outcome blob_content content_type file_name search_info w
      (inr PyNone, w, [LogNoText])
| outcome_no_settings txt key :
    blob_content ≠ [] →
    extract_text (mkFile file_name blob_content content_type) = inr txt →
    txt ≠ [] →
    environ !! "AZURE_OPENAI_ENDPOINT" = None
    ∨ environ !! "AZURE_OPENAI_DEPLOYMENT" = None
    ∨ environ !! "AZURE_OPENAI_KEY" = None →
    outcome blob_content content_type file_name search_info w
      (inl (KeyError key), w, [])
| outcome_embedding_error txt self e w1 t1 :
    chunked blob_content content_type file_name txt self →
    create_embeddings self (text <$> split_text default_max_tokens txt) w
    = (inl e, w1, t1) →
    outcome blob_content content_type file_name search_info w
      (inl e, w1, t1)
| outcome_no_account txt self embeddings w1 t1 :
    chunked blob_content content_type file_name txt self →
    create_embeddings self (text <$> split_text default_max_tokens txt) w
    = (inr embeddings, w1, t1) →
    environ !! "AZURE_STORAGE_ACCOUNT_NAME" = None →
    outcome blob_content content_type file_name search_info w
      (inl (KeyError "AZURE_STORAGE_ACCOUNT_NAME"), w1, t1)
| outcome_upload_error txt self embeddings w1 t1 account w2 :
    chunked blob_content content_type file_name txt self →
    create_embeddings self (text <$> split_text default_max_tokens txt) w
    = (inr embeddings, w1, t1) →
    environ !! "AZURE_STORAGE_ACCOUNT_NAME" = Some account →
    let documents :=
      documents_of unicode_lower account file_name
        (sections_of (mkFile file_name blob_content content_type) file_name
           (split_text default_max_tokens txt))
        embeddings in
    upload_documents search_info documents w1 = (None, w2) →
    outcome blob_content content_type file_name search_info w
      (inl UploadError, w2, t1 ++ [UploadDocuments documents])
| outcome_uploaded txt self embeddings w1 t1 account result w2 :
    chunked blob_content content_type file_name txt self →
    create_embeddings self (text <$> split_text default_max_tokens txt) w
    = (inr embeddings, w1, t1) →
    environ !! "AZURE_STORAGE_ACCOUNT_NAME" = Some account →
    let documents :=
      documents_of unicode_lower account file_name
        (sections_of (mkFile file_name blob_content content_type) file_name
           (split_text default_max_tokens txt))
        embeddings in
    upload_documents search_info documents w1 = (Some result, w2) →
    outcome blob_content content_type file_name search_info w
      (inr PyNone, w2,
       t1 ++ [UploadDocuments documents; LogUploaded (length result)]).

End Pipeline.

Arguments truncated : clear implicits.
Arguments embed_text {World E}.
Arguments create_embeddings_wrapped {World E}.
Arguments create_embeddings {World E}.
Arguments create_embeddings_per_section {World E}.
Arguments getenv environ {World E}.
Arguments document unicode_lower environ {World E}.
Arguments index_split_pages unicode_lower environ {World E IndexingResult}.
Arguments process_file_and_update_index unicode_lower pdf_page_texts environ
  {World E IndexingResult}.
Arguments outcome unicode_lower pdf_page_texts environ
  {World E IndexingResult}.

(** ** A concrete deployment, for the examples *)

Module Sample.

(** No code point outside ASCII is changed. *)
Definition unicode_lower (c : N) : list N := [c].

(** A reader that takes every blob for one page holding "Page." *)
Definition pdf_page_texts (b : list byte) : option (list (list N)) :=
  Some [Py.lit "Page."].

Definition environ : gmap string (list N) :=
  list_to_map
    [("AZURE_OPENAI_ENDPOINT", Py.lit "https://openai.example/");
     ("AZURE_OPENAI_DEPLOYMENT", Py.lit "embed");
     ("AZURE_OPENAI_KEY", Py.lit "key");
     ("AZURE_STORAGE_ACCOUNT_NAME", Py.lit "acct")].

(** The state of the outside is the number of embedding calls made so
    far; a vector is a list of integers. *)

(** A service that answers call number [w] on a text with [w] and the
    length of the text. *)
Definition embeddings_create (self : OpenAIEmbeddings.t) (txt : list N)
    (w : nat) : option (list Z) * nat :=
  (Some [Z.of_nat w; Z.of_nat (length txt)], S w).

(** The same service, failing on its calls number 0, 2, 4, ... *)
Definition embeddings_create_flaky (self : OpenAIEmbeddings.t)
    (txt : list N) (w : nat) : option (list Z) * nat :=
  (if Nat.even w then None
   else Some [Z.of_nat w; Z.of_nat (length txt)], S w).

(** An index that accepts every batch, with one result per document. *)
Definition upload_documents (search_info : SearchInfo.t)
    (documents : list (IndexDocument (list Z))) (w : nat)
  : option (list bool) * nat :=
  (Some ((λ _, true) <$> documents), w).

Definition search_info : SearchInfo.t :=
  SearchInfo.mk (Py.lit "https://search.example") (Py.lit "admin")
                (Py.lit "docs").

Definition service : OpenAIEmbeddings.t :=
  OpenAIEmbeddings.init (Py.lit "https://openai.example/") (Py.lit "embed")
                        (Py.lit "key").

Definition file_name : list N := Py.lit "dir/notes.txt".

Definition content_type : list N := Py.lit "text/plain".

(** A run of the pipeline with the services above. *)
Abbreviation run blob w :=
  (process_file_and_update_index unicode_lower pdf_page_texts environ
     embeddings_create upload_documents blob content_type file_name
     search_info w).

(** The same with the service that fails on every other call. *)
Abbreviation run_flaky blob w :=
  (process_file_and_update_index unicode_lower pdf_page_texts environ
     embeddings_create_flaky upload_documents blob content_type file_name
     search_info w).

(** A short document: its text, which makes one section. *)
Definition blob : list byte := list_byte_of_string "One. Two three.".

Definition txt : list N := Py.lit "One. Two three.".

Definition documents (w : nat) : list (IndexDocument (list Z)) :=
  documents_of unicode_lower (Py.lit "acct") file_name
    (sections_of (mkFile file_name blob content_type) file_name
       (split_text 2000 txt))
    [[Z.of_nat w; 15%Z]].

(** A document of 2001 sentences of one word: its text, which makes two
    sections, and the batch of a run that starts in state [w]. *)
Definition long_blob : list byte := mjoin (replicate 2001 [x61; x2e; x20]).

Definition long_txt : list N :=
  Py.join (Py.lit " ") (replicate 2001 (Py.lit "a.")).

Definition long_documents (w : nat) : list (IndexDocument (list Z)) :=
  documents_of unicode_lower (Py.lit "acct") file_name
    (sections_of (mkFile file_name long_blob content_type) file_name
       (split_text 2000 long_txt))
    [[Z.of_nat w; 5999%Z]; [Z.of_nat (S w); 2%Z]].

End Sample.

(** ** Notions used in the statements *)

(** The sum of the token counts of some sentences. *)
Definition total_tokens (l : list (list N)) : Z :=
  foldr (λ s n, (token_count s + n)%Z) 0%Z l.

(** Every whitespace character of [s] is a space and no two are adjacent;
    [after_space] tells that a space comes just before [s]. *)
Fixpoint collapsed (after_space : bool) (s : list N) : bool :=
  match s with
  | [] => true
  | c :: s' =>
      if Py.isspace c
      then (c =? 0x20)%N && negb after_space && collapsed true s'
      else collapsed false s'
  end.

(** As [collapsed], and [s] does not end with a space either. *)
Fixpoint spaced (after_space : bool) (s : list N) : bool :=
  match s with
  | [] => negb after_space
  | c :: s' =>
      if Py.isspace c
      then (c =? 0x20)%N && negb after_space && spaced true s'
      else spaced false s'
  end.

(** The sections closed so far are numbered from 0, and [section_number] is
    the next number. *)
Definition numbered (st : split_state) : Prop :=
  page_num <$> sections st = seq 0 (length (sections st))
  ∧ section_number st = length (sections st).

(** The sentences read so far, those of a closed section joined. *)
Definition flat (st : split_state) : list (list N) :=
  (text <$> sections st) ++ current_section st.

(** A section is within the budget, or it is one sentence of [sents] that is
    over the budget by itself. *)
Definition within_budget (max_tokens : Z) (sents : list (list N))
    (sec : SplitPage) : Prop :=
  (token_count (text sec) ≤ max_tokens)%Z
  ∨ (text sec ∈ sents ∧ (max_tokens < token_count (text sec))%Z).

(** The invariant of the loop for the budget. *)
Record budgeted (max_tokens : Z) (sents : list (list N)) (st : split_state)
  : Prop := {
  budgeted_length : current_length st = total_tokens (current_section st);
  budgeted_current :
    current_section st = []
    ∨ (current_length st ≤ max_tokens)%Z
    ∨ ∃ s, current_section st = [s] ∧ (max_tokens < token_count s)%Z;
  budgeted_sections : Forall (within_budget max_tokens sents) (sections st);
  budgeted_sentences : Forall (λ s, s ∈ sents) (current_section st)
}.

(** No closed section and no accumulated sentence is empty. *)
Definition filled (st : split_state) : Prop :=
  Forall (λ sec, text sec ≠ []) (sections st)
  ∧ Forall (λ s, s ≠ []) (current_section st).

(** The events that are calls of [upload_documents]. *)
Definition is_upload {E} (ev : event E) : bool :=
  match ev with UploadDocuments _ => true | _ => false end.

(** ** More built-ins, for the trigger *)

Module Str.

(** [s.split(sep)] for a one-character [sep]: the pieces between the
    occurrences of [sep], the empty ones kept. *)
Fixpoint split_on (sep : N) (s : list N) : list (list N) :=
  match s with
  | [] => [[]]
  | c :: s' =>
      if (c =? sep)%N then [] :: split_on sep s'
      else match split_on sep s' with
           | piece :: pieces => (c :: piece) :: pieces
           | [] => [[c]]
           end
  end.

(** [s.startswith(prefix)]. *)
Definition startswith (s prefix : list N) : bool :=
  bool_decide (take (length prefix) s = prefix).

(** [s.replace(old, new)]: the occurrences of [old] are replaced from the
    left, without overlap.  [skip] counts the characters of an occurrence
    already replaced that are still to be passed. *)
Fixpoint replace_go (old new : list N) (skip : nat) (s : list N) : list N :=
  match s with
  | [] => []
  | c :: s' =>
      match skip with
      | S k => replace_go old new k s'
      | 0 =>
          if startswith s old
          then new ++ replace_go old new (length old - 1) s'
          else c :: replace_go old new 0 s'
      end
  end.

Definition replace (old new : list N) (s : list N) : list N :=
  match old with
  | [] => new ++ (c ← s; c :: new)
  | _ :: _ => replace_go old new 0 s
  end.

End Str.

(** ** The trigger: get_blob_content and main *)

(** The exceptions of the trigger. *)
Inductive trigger_exn :=
| ValueError                       (* a check of [get_blob_content], or the storage client *)
| EnvironKeyError (key : string)   (* [os.environ[key]] without that variable *)
| StorageError                     (* another exception of the storage client *)
| PipelineError (e : exn).         (* raised by [process_file_and_update_index] *)

(** The exceptions of the storage client, by what [main] makes of them. *)
Inductive storage_exn :=
| StorageValueError
| StorageOtherError.

Definition of_storage_exn (e : storage_exn) : trigger_exn :=
  match e with
  | StorageValueError => ValueError
  | StorageOtherError => StorageError
  end.

(** The events of the trigger: the download, and the events of the
    pipeline. *)
Inductive trigger_event (E : Type) :=
| DownloadBlob (container_name blob_name : list N)
| Pipeline (ev : event E).
Arguments DownloadBlob {E}.
Arguments Pipeline {E}.

(** The event of Event Grid: its type and the fields of its data that
    [main] reads, each of them absent or of its type in the schema. *)
Record EventGridEvent := mkEvent {
  event_type : list N;
  data_url : option (list N);
  data_contentLength : option Z;
  data_contentType : option (list N)
}.

(** The part of [parts] after its first element equal to [evidencefiles]:
    the loop of [get_blob_content]. *)
Fixpoint after_container (parts : list (list N)) : option (list (list N)) :=
  match parts with
  | [] => None
  | part :: parts' =>
      if bool_decide (part = Py.lit "evidencefiles") then Some parts'
      else after_container parts'
  end.

(** The path of a blob URL, without its scheme. *)
Definition url_path (blob_url : list N) : list N :=
  Str.replace (Py.lit "https://") [] blob_url.

(** The parsing of the URL in [get_blob_content]: the account, the
    container and the blob name, or [None] for [ValueError]. *)
Definition parse_blob_url (blob_url : list N)
  : option (list N * list N * list N) :=
  let parts := Str.split_on 0x2F (url_path blob_url) in
  if (length parts <? 2)%nat then None
  else
    let account := default [] (head (Str.split_on 0x2E (default [] (head parts)))) in
    match after_container parts with
    | None => None
    | Some rest =>
        let blob_name := Py.join (Py.lit "/") rest in
        match blob_name with
        | [] => None
        | _ :: _ => Some (account, Py.lit "evidencefiles", blob_name)
        end
    end.

Section Trigger.

Variable unicode_lower : N → list N.
Variable pdf_page_texts : list byte → option (list (list N)).
Variable environ : gmap string (list N).
Variables World E IndexingResult : Type.
Variable embeddings_create :
  OpenAIEmbeddings.t → list N → World → option E * World.
Variable upload_documents :
  SearchInfo.t → list (IndexDocument E) → World
  → option (list IndexingResult) * World.

(** The storage client, made from the connection string: the download of a
    blob of a container gives its bytes and, if it has one, its content
    type, or raises. *)
Variable download_blob :
  list N → list N → list N → World
  → (storage_exn + list byte * option (list N)) * World.

(** [get_blob_content]; its handlers log and raise again. *)
Definition get_blob_content (blob_url : list N) (w : World)
  : (trigger_exn + list byte * list N * list N) * World
    * list (trigger_event E) :=
  match parse_blob_url blob_url with
  | None => (inl ValueError, w, [])
  | Some (account, container_name, blob_name) =>
      match environ !! "AzureWebJobsStorage" with
      | None => (inl (EnvironKeyError "AzureWebJobsStorage"), w, [])
      | Some connection_string =>
          match download_blob connection_string container_name blob_name w with
          | (inl e, w1) =>
              (inl (of_storage_exn e), w1,
               [DownloadBlob container_name blob_name])
          | (inr (content, content_type), w1) =>
              let content_type :=
                match content_type with
                | Some (c :: r) => c :: r
                | _ => Py.lit "application/octet-stream"
                end in
              (inr (content, content_type, blob_name), w1,
               [DownloadBlob container_name blob_name])
          end
      end
  end.

(** The three settings of [SearchInfo] in [main]. *)
Definition search_info_of_environ : trigger_exn + SearchInfo.t :=
  match environ !! "AZURE_SEARCH_SERVICE_ENDPOINT" with
  | None => inl (EnvironKeyError "AZURE_SEARCH_SERVICE_ENDPOINT")
  | Some endpoint =>
      match environ !! "AZURE_SEARCH_ADMIN_KEY" with
      | None => inl (EnvironKeyError "AZURE_SEARCH_ADMIN_KEY")
      | Some credential =>
          match environ !! "AZURE_SEARCH_INDEX_NAME" with
          | None => inl (EnvironKeyError "AZURE_SEARCH_INDEX_NAME")
          | Some index_name =>
              inr (SearchInfo.mk endpoint credential index_name)
          end
      end
  end.

(** [main]; its last handler logs and raises again. *)
Definition main (event : EventGridEvent) (w : World)
  : (trigger_exn + pyvalue) * World * list (trigger_event E) :=
  if negb (bool_decide (event_type event
                        = Py.lit "Microsoft.Storage.BlobCreated"))
  then (inr PyNone, w, [])
  else
    let blob_url := default [] (data_url event) in
    let content_length := default 0%Z (data_contentLength event) in
    let event_content_type :=
      default (Py.lit "application/octet-stream") (data_contentType event) in
    match blob_url with
    | [] => (inr PyNone, w, [])
    | _ :: _ =>
        if (content_length =? 0)%Z then (inr PyNone, w, [])
        else
          match get_blob_content blob_url w with
          | (inl ValueError, w1, t1) => (inr PyNone, w1, t1)
          | (inl e, w1, t1) => (inl e, w1, t1)
          | (inr (blob_content, content_type, file_name), w1, t1) =>
              let content_type :=
                match event_content_type with
                | [] => content_type
                | _ :: _ => event_content_type
                end in
              match blob_content with
              | [] => (inr PyNone, w1, t1)
              | _ :: _ =>
                  match search_info_of_environ with
                  | inl e => (inl e, w1, t1)
                  | inr search_info =>
                      match
                        process_file_and_update_index unicode_lower
                          pdf_page_texts environ embeddings_create
                          upload_documents blob_content content_type
                          file_name search_info w1
                      with
                      | (inl e, w2, t2) =>
                          (inl (PipelineError e), w2, t1 ++ (Pipeline <$> t2))
                      | (inr v, w2, t2) =>
                          (inr PyNone, w2, t1 ++ (Pipeline <$> t2))
                      end
                  end
              end
          end
    end.

End Trigger.

Arguments get_blob_content environ {World E}.
Arguments main unicode_lower pdf_page_texts environ {World E IndexingResult}.

(** ** More notions used in the statements *)

(** [old] occurs in [s]. *)
Definition occurs (old s : list N) : Prop :=
  ∃ pre post, s = pre ++ old ++ post.

(** The URL that the pipeline writes as [storageUrl]. *)
Definition storage_url (account file_name : list N) : list N :=
  Py.lit "https://" ++ account
  ++ Py.lit ".blob.core.windows.net/evidencefiles/" ++ file_name.

(** A word: not empty, and without whitespace. *)
Definition is_word (w : list N) : Prop :=
  w ≠ [] ∧ Forall (λ c, Py.isspace c = false) w.

(** The loop of [split_text] closes a section only when it must: the last
    closed section and the accumulated sentences are over the budget
    together, and so are every two neighbours among the closed sections. *)
Record greedy (max_tokens : Z) (st : split_state) : Prop := {
  greedy_length : current_length st = total_tokens (current_section st);
  greedy_current : sections st ≠ [] → current_section st ≠ [];
  greedy_last :
    ∀ sec, last (sections st) = Some sec →
      (max_tokens < token_count (text sec) + current_length st)%Z;
  greedy_sections :
    ∀ i a b, sections st !! i = Some a → sections st !! S i = Some b →
      (max_tokens < token_count (text a) + token_count (text b))%Z
}.

(** The events that are calls of the embedding service. *)
Definition is_embedding_call {E} (ev : event E) : bool :=
  match ev with EmbeddingsCreate _ => true | _ => false end.

(** A storage client for the examples: one blob, [Sample.blob], under any
    name. *)
Definition sample_download_blob (connection_string container_name
    blob_name : list N) (w : nat)
  : (storage_exn + list byte * option (list N)) * nat :=
  (inr (Sample.blob, None), w).

(** A reader for a scanned document: two pages, without text. *)
Definition sample_scanned_pages (b : list byte) : option (list (list N)) :=
  Some [[]; Py.lit " "].

(** Another name for the sample file, with the same id, and the batch of a
    run on it that starts in state [w]. *)
Definition sample_other_name : list N := Py.lit "dir_notes.txt".

Definition sample_other_documents (w : nat) : list (IndexDocument (list Z)) :=
  documents_of Sample.unicode_lower (Py.lit "acct") sample_other_name
    (sections_of (mkFile sample_other_name Sample.blob Sample.content_type)
       sample_other_name (split_text 2000 Sample.txt))
    [[Z.of_nat w; 15%Z]].

(** The one document of [Sample.documents] and of
    [sample_other_documents]. *)
Definition sample_document (file_name : list N) (w : nat)
  : IndexDocument (list Z) :=
  document_of Sample.unicode_lower (Py.lit "acct") file_name 0
    (mkSection (mkSplitPage Sample.txt 0)
       (mkFile file_name Sample.blob Sample.content_type) None
       (Py.basename file_name) [])
    [Z.of_nat w; 15%Z].

(** The settings of the trigger: those of the pipeline, the connection
    string of the storage and the three settings of the index. *)
Definition sample_trigger_environ : gmap string (list N) :=
  <["AzureWebJobsStorage" := Py.lit "UseDevelopmentStorage=true"]>
    (<["AZURE_SEARCH_SERVICE_ENDPOINT" := Py.lit "https://search.example"]>
       (<["AZURE_SEARCH_ADMIN_KEY" := Py.lit "admin"]>
          (<["AZURE_SEARCH_INDEX_NAME" := Py.lit "docs"]> Sample.environ))).

(** The event of the creation of the sample file, with its URL, and the
    trigger run on it with the sample services. *)
Definition sample_url : list N :=
  Py.lit "https://acct.blob.core.windows.net/evidencefiles/dir/notes.txt".

Definition sample_event : EventGridEvent :=
  mkEvent (Py.lit "Microsoft.Storage.BlobCreated") (Some sample_url)
          (Some 15%Z) (Some (Py.lit "text/plain")).

Definition sample_main (event : EventGridEvent) (w : nat)
  : (trigger_exn + pyvalue) * nat * list (trigger_event (list Z)) :=
  main Sample.unicode_lower Sample.pdf_page_texts sample_trigger_environ
    Sample.embeddings_create Sample.upload_documents sample_download_blob
    event w.

(** * Facts about the built-ins *)

Section JoinFacts.

Variable sep : list N.

Lemma join_cons x l :
  l ≠ [] → Py.join sep (x :: l) = x ++ sep ++ Py.join sep l.
Proof. by destruct l. Qed.

Lemma join_app l1 l2 :
  l1 ≠ [] → l2 ≠ [] →
  Py.join sep (l1 ++ l2) = Py.join sep l1 ++ sep ++ Py.join sep l2.
Proof.
  induction l1 as [|x l1 IH]; [done|]. intros _ H2.
  destruct l1 as [|y l1].
  - simpl app. by rewrite join_cons.
  - rewrite <-app_comm_cons, (join_cons x (_ ++ _)) by done.
    rewrite IH, (join_cons x (y :: l1)) by done.
    by rewrite <-!app_assoc.
Qed.

Lemma join_singleton_app g r :
  g ≠ [] → Py.join sep (Py.join sep g :: r) = Py.join sep (g ++ r).
Proof.
  intros Hg. destruct r as [|y r].
  - by rewrite app_nil_r.
  - rewrite join_cons by done. by rewrite join_app.
Qed.

Lemma join_flatten l g r :
  g ≠ [] →
  Py.join sep (l ++ Py.join sep g :: r) = Py.join sep (l ++ g ++ r).
Proof.
  intros Hg. destruct l as [|x l]; [by apply (join_singleton_app g r)|].
  rewrite !(join_app (x :: l)) by (done || by destruct g).
  by rewrite join_singleton_app.
Qed.

Lemma join_nonempty x l : x ≠ [] → Py.join sep (x :: l) ≠ [].
Proof. destruct l; [done|]. rewrite join_cons by done. by destruct x. Qed.

End JoinFacts.

Lemma split_go_space w a c b :
  Py.isspace c = true →
  Py.split_go w (a ++ c :: b) = Py.split_go w a ++ Py.split_go [] b.
Proof.
  intros Hc. revert w. induction a as [|d a IH]; intros w; simpl.
  - rewrite Hc. by destruct w.
  - destruct (Py.isspace d); [destruct w|]; by rewrite IH.
Qed.

Lemma token_count_space x y :
  token_count (x ++ Py.lit " " ++ y) = (token_count x + token_count y)%Z.
Proof.
  unfold token_count, Py.split. change (Py.lit " " ++ y) with (0x20%N :: y).
  rewrite split_go_space by done. rewrite length_app. lia.
Qed.

Lemma token_count_join l :
  token_count (Py.join (Py.lit " ") l) = total_tokens l.
Proof.
  induction l as [|x l IH]; [done|]. destruct l as [|y l].
  - simpl. unfold token_count. lia.
  - rewrite join_cons by done. rewrite token_count_space, IH. done.
Qed.

(** ** Normalisation of whitespace *)

Lemma collapsed_sub_ws in_run s : collapsed in_run (Py.sub_ws_go in_run s) = true.
Proof.
  revert in_run. induction s as [|c s IH]; intros in_run; [done|]. simpl.
  destruct (Py.isspace c) eqn:Hc.
  - destruct in_run; [apply IH|]. simpl. by rewrite IH.
  - simpl. by rewrite Hc, IH.
Qed.

Lemma collapsed_lstrip b s : collapsed b s = true → collapsed true (Py.lstrip s) = true.
Proof.
  revert b. induction s as [|c s IH]; intros b; [done|]. simpl.
  destruct (Py.isspace c) eqn:Hc.
  - rewrite !andb_true_iff. intros [_ H]. by eapply IH.
  - simpl. by rewrite Hc.
Qed.

Lemma spaced_cons b c s :
  spaced b (c :: s)
  = if Py.isspace c then (c =? 0x20)%N && negb b && spaced true s
    else spaced false s.
Proof. done. Qed.

Lemma spaced_rstrip b s :
  collapsed b s = true →
  Py.rstrip s = [] ∨ spaced b (Py.rstrip s) = true.
Proof.
  unfold Py.rstrip. revert b. induction s as [|c s IH]; intros b; [by left|].
  simpl. destruct (Py.isspace c) eqn:Hc.
  - rewrite !andb_true_iff. intros [[Hc32 Hb] H].
    destruct (IH _ H) as [->|Hs]; [by left|].
    destruct (Py.rstrip_by Py.isspace s) as [|d r] eqn:Hr; [by left|].
    right. by rewrite spaced_cons, Hc, Hc32, Hb, Hs.
  - intros H. right. destruct (IH _ H) as [->|Hs].
    + by rewrite spaced_cons, Hc.
    + destruct (Py.rstrip_by Py.isspace s) as [|d r] eqn:Hr.
      * by rewrite spaced_cons, Hc.
      * by rewrite spaced_cons, Hc.
Qed.

Lemma clean_spaced txt : clean txt = [] ∨ spaced true (clean txt) = true.
Proof.
  apply spaced_rstrip. eapply collapsed_lstrip, collapsed_sub_ws.
Qed.

Lemma spaced_true_cons c s :
  spaced true (c :: s) = true → Py.isspace c = false ∧ spaced false s = true.
Proof.
  rewrite spaced_cons. destruct (Py.isspace c); [|done].
  rewrite !andb_true_iff. by intros [[_ ?] _].
Qed.

(** ** The sentences of a normalised text *)

Lemma re_split_go_nonempty s piece prev delim :
  Py.re_split_go s piece prev delim ≠ [].
Proof.
  revert piece prev delim. induction s as [|c s IH]; intros; simpl; [done|].
  destruct (Py.isspace c); [destruct delim; [|destruct prev]|]; done.
Qed.

Lemma re_split_go_join s : ∀ b piece prev delim,
  spaced b s = true → (b = false → delim = false) →
  Py.join (Py.lit " ") (Py.re_split_go s piece prev delim) = rev piece ++ s.
Proof.
  induction s as [|c s IH]; intros b piece prev delim Hs Hd.
  - simpl. by rewrite app_nil_r.
  - rewrite spaced_cons in Hs. simpl. destruct (Py.isspace c) eqn:Hc.
    + apply andb_true_iff in Hs as [Hs Hs']. apply andb_true_iff in Hs as [Hc32 Hb].
      apply N.eqb_eq in Hc32 as ->. apply negb_true_iff in Hb.
      rewrite (Hd Hb). destruct prev.
      * rewrite join_cons by apply re_split_go_nonempty.
        by rewrite (IH true).
      * rewrite (IH true) by done. simpl. by rewrite <-app_assoc.
    + rewrite (IH false) by done. simpl. by rewrite <-app_assoc.
Qed.

Lemma re_split_go_pieces s : ∀ b piece prev delim,
  spaced b s = true → (b = false → piece ≠ [] ∧ delim = false) →
  Forall (λ x, x ≠ []) (Py.re_split_go s piece prev delim).
Proof.
  induction s as [|c s IH]; intros b piece prev delim Hs Hd.
  - simpl in *. apply negb_true_iff in Hs. destruct (Hd Hs) as [Hp _].
    constructor; [|done]. by destruct piece using rev_ind; [|rewrite rev_unit].
  - rewrite spaced_cons in Hs. simpl. destruct (Py.isspace c) eqn:Hc.
    + apply andb_true_iff in Hs as [Hs Hs']. apply andb_true_iff in Hs as [_ Hb].
      apply negb_true_iff in Hb. destruct (Hd Hb) as [Hp ->]. destruct prev.
      * constructor; [|by apply (IH true)].
        by destruct piece using rev_ind; [|rewrite rev_unit].
      * by apply (IH true).
    + by apply (IH false).
Qed.

Lemma sentences_of_join txt :
  Py.join (Py.lit " ") (sentences_of txt) = clean txt.
Proof.
  unfold sentences_of, Py.re_split_sentences.
  destruct (clean_spaced txt) as [->|Hs]; [done|].
  by rewrite (re_split_go_join _ true).
Qed.

Lemma sentences_of_nonempty txt : sentences_of txt ≠ [].
Proof. apply re_split_go_nonempty. Qed.

Lemma sentences_of_pieces txt :
  clean txt ≠ [] → Forall (λ x, x ≠ []) (sentences_of txt).
Proof.
  intros Hne. destruct (clean_spaced txt) as [?|Hs]; [done|].
  by apply (re_split_go_pieces _ true).
Qed.

(** ** Texts with a character that is not whitespace *)

Lemma elem_of_sub_ws c b s :
  c ∈ s → Py.isspace c = false → c ∈ Py.sub_ws_go b s.
Proof.
  intros Hin Hc. revert b. induction s as [|d s IH]; intros b.
  { by apply elem_of_nil in Hin. }
  simpl. apply elem_of_cons in Hin as [<-|Hin].
  - rewrite Hc. left.
  - destruct (Py.isspace d); [destruct b|]; auto using list_elem_of_further.
Qed.

Lemma elem_of_lstrip c s :
  c ∈ s → Py.isspace c = false → c ∈ Py.lstrip s.
Proof.
  intros Hin Hc. induction s as [|d s IH].
  { by apply elem_of_nil in Hin. }
  simpl. apply elem_of_cons in Hin as [<-|Hin].
  - rewrite Hc. left.
  - destruct (Py.isspace d); auto using list_elem_of_further.
Qed.

Lemma elem_of_rstrip c s :
  c ∈ s → Py.isspace c = false → c ∈ Py.rstrip s.
Proof.
  unfold Py.rstrip. intros Hin Hc. induction s as [|d s IH].
  { by apply elem_of_nil in Hin. }
  simpl. apply elem_of_cons in Hin as [<-|Hin].
  - destruct (Py.rstrip_by Py.isspace s); [rewrite Hc|]; left.
  - specialize (IH Hin).
    destruct (Py.rstrip_by Py.isspace s); [by apply elem_of_nil in IH|].
    by right.
Qed.

Lemma clean_nonempty txt c :
  c ∈ txt → Py.isspace c = false → clean txt ≠ [].
Proof.
  intros Hin Hc Hnil.
  assert (c ∈ clean txt) as H.
  { apply elem_of_rstrip; [|done]. apply elem_of_lstrip; [|done].
    by apply elem_of_sub_ws. }
  rewrite Hnil in H. by apply elem_of_nil in H.
Qed.

Lemma lstrip_head c s : Py.lstrip s !! 0 = Some c → Py.isspace c = false.
Proof.
  induction s as [|d s IH]; [done|]. simpl.
  destruct (Py.isspace d) eqn:Hd; [done|]. by intros [= <-].
Qed.

Lemma rstrip_head c s r : Py.rstrip s = c :: r → s !! 0 = Some c.
Proof.
  unfold Py.rstrip. destruct s as [|d s]; [done|]. simpl.
  destruct (Py.rstrip_by Py.isspace s); [destruct (Py.isspace d)|];
    by intros [= ->].
Qed.

Lemma strip_head c r s : Py.strip s = c :: r → Py.isspace c = false.
Proof. intros H%rstrip_head. by eapply lstrip_head. Qed.

Lemma clean_strip_nonempty s : Py.strip s ≠ [] → clean (Py.strip s) ≠ [].
Proof.
  destruct (Py.strip s) as [|c r] eqn:H; [done|]. intros _.
  apply (clean_nonempty _ c); [left|by eapply strip_head].
Qed.

(** * The chunker *)

Lemma foldl_invariant {A B} (P : A → Prop) (Q : B → Prop) (f : A → B → A) :
  (∀ a b, P a → Q b → P (f a b)) →
  ∀ l a, P a → Forall Q l → P (foldl f a l).
Proof.
  intros Hstep. induction l as [|b l IH]; intros a Ha Hl; [done|].
  apply Forall_cons in Hl as [Hb Hl]. simpl. auto.
Qed.

Lemma split_text_unfold max_tokens txt :
  split_text max_tokens txt
  = finish (foldl (split_step max_tokens) split_init (sentences_of txt)).
Proof. done. Qed.

(** ** Sequence numbers *)

Lemma numbered_close st :
  numbered st →
  page_num <$> (sections st ++ [close_section st])
  = seq 0 (length (sections st ++ [close_section st])).
Proof.
  intros [Hp Hn]. rewrite fmap_app, length_app, Hp. simpl.
  rewrite Nat.add_1_r, seq_S. simpl. by rewrite Hn.
Qed.

Lemma numbered_step max_tokens st sentence :
  numbered st → numbered (split_step max_tokens st sentence).
Proof.
  intros Hst. unfold split_step.
  destruct (_ >? _)%Z; [|done].
  destruct (current_section st); [done|].
  split; simpl; [by apply numbered_close|].
  rewrite length_app. simpl. destruct Hst as [_ ->]. lia.
Qed.

Lemma numbered_finish st :
  numbered st → page_num <$> finish st = seq 0 (length (finish st)).
Proof.
  intros Hst. unfold finish. destruct (current_section st).
  - apply Hst.
  - by apply numbered_close.
Qed.

(** ** The texts of the sections *)

Lemma flat_step max_tokens st sentence r :
  Py.join (Py.lit " ") (flat (split_step max_tokens st sentence) ++ r)
  = Py.join (Py.lit " ") (flat st ++ sentence :: r).
Proof.
  unfold split_step, flat.
  destruct (_ >? _)%Z; [destruct (current_section st) as [|x xs] eqn:Hcs|];
    simpl; rewrite ?Hcs, <-?app_assoc; try done.
  rewrite fmap_app, <-app_assoc. simpl.
  unfold close_section. simpl. rewrite Hcs.
  by rewrite join_flatten.
Qed.

Lemma flat_foldl max_tokens l : ∀ st r,
  Py.join (Py.lit " ") (flat (foldl (split_step max_tokens) st l) ++ r)
  = Py.join (Py.lit " ") (flat st ++ l ++ r).
Proof.
  induction l as [|s l IH]; intros st r; [done|].
  simpl. by rewrite IH, flat_step.
Qed.

Lemma flat_finish st :
  Py.join (Py.lit " ") (text <$> finish st) = Py.join (Py.lit " ") (flat st).
Proof.
  unfold finish, flat. destruct (current_section st) as [|x xs] eqn:Hcs.
  - by rewrite app_nil_r.
  - rewrite fmap_app. simpl. unfold close_section. simpl. rewrite Hcs.
    rewrite join_flatten by done. by rewrite app_nil_r.
Qed.

Lemma split_text_join max_tokens txt :
  Py.join (Py.lit " ") (text <$> split_text max_tokens txt) = clean txt.
Proof.
  rewrite split_text_unfold, flat_finish.
  rewrite <-(app_nil_r (flat _)), flat_foldl. simpl.
  rewrite app_nil_r. apply sentences_of_join.
Qed.

(** ** The token budget *)

Lemma total_tokens_app l1 l2 :
  total_tokens (l1 ++ l2) = (total_tokens l1 + total_tokens l2)%Z.
Proof. induction l1 as [|x l1 IH]; simpl; lia. Qed.

Lemma budgeted_close max_tokens sents st :
  budgeted max_tokens sents st → current_section st ≠ [] →
  within_budget max_tokens sents (close_section st).
Proof.
  intros [Hlen Hcur _ Hin] Hne. unfold within_budget, close_section. simpl.
  rewrite token_count_join, <-Hlen.
  destruct Hcur as [?|[?|[s [Hs ?]]]]; [done|by left|right].
  rewrite Hs in *. rewrite Forall_singleton in Hin. simpl in *.
  split; [done|lia].
Qed.

Lemma budgeted_step max_tokens sents st sentence :
  budgeted max_tokens sents st → sentence ∈ sents →
  budgeted max_tokens sents (split_step max_tokens st sentence).
Proof.
  intros Hst Hs. pose proof Hst as [Hlen Hcur Hsec Hin].
  unfold split_step.
  destruct (Z.gtb_spec (current_length st + token_count sentence) max_tokens)
    as [Hgt|Hle].
  - destruct (current_section st) as [|x xs] eqn:Hcs.
    + simpl in Hlen. split; simpl; rewrite ?Hcs; simpl.
      * lia.
      * right; right. exists sentence. split; [done|lia].
      * done.
      * by apply Forall_singleton.
    + split; simpl.
      * lia.
      * destruct (Z.le_gt_cases (token_count sentence) max_tokens).
        -- right; left. lia.
        -- right; right. by exists sentence.
      * apply Forall_app. split; [done|]. apply Forall_singleton.
        apply budgeted_close; [done|by rewrite Hcs].
      * by apply Forall_singleton.
  - split; simpl.
    + rewrite total_tokens_app, Hlen. simpl. lia.
    + right; left. lia.
    + done.
    + apply Forall_app. split; [done|by apply Forall_singleton].
Qed.

Lemma budgeted_finish max_tokens sents st :
  budgeted max_tokens sents st → Forall (within_budget max_tokens sents) (finish st).
Proof.
  intros Hst. unfold finish.
  destruct (current_section st) as [|x xs] eqn:Hcs; [apply Hst|].
  apply Forall_app. split; [apply Hst|]. apply Forall_singleton.
  apply budgeted_close; [done|by rewrite Hcs].
Qed.

Lemma split_text_budget max_tokens txt :
  Forall (within_budget max_tokens (sentences_of txt))
         (split_text max_tokens txt).
Proof.
  rewrite split_text_unfold. apply budgeted_finish.
  apply (foldl_invariant _ (λ s, s ∈ sentences_of txt)).
  - intros. by apply budgeted_step.
  - by split; simpl; [|left| |].
  - by apply Forall_forall.
Qed.

(** ** Sections that are not empty *)

Lemma filled_close st :
  filled st → current_section st ≠ [] → text (close_section st) ≠ [].
Proof.
  intros [_ Hcur] Hne. unfold close_section. simpl.
  destruct (current_section st) as [|x xs]; [done|].
  apply Forall_cons in Hcur as [Hx _]. by apply join_nonempty.
Qed.

Lemma filled_step max_tokens st sentence :
  filled st → sentence ≠ [] → filled (split_step max_tokens st sentence).
Proof.
  intros Hst Hs. pose proof Hst as [Hsec Hcur]. unfold split_step.
  destruct (_ >? _)%Z; [destruct (current_section st) as [|x xs] eqn:Hcs|].
  - split; simpl; [done|]. rewrite Hcs. by apply Forall_singleton.
  - split; simpl; [|by apply Forall_singleton].
    apply Forall_app. split; [done|]. apply Forall_singleton.
    apply filled_close; [done|by rewrite Hcs].
  - split; simpl; [done|].
    apply Forall_app. split; [done|by apply Forall_singleton].
Qed.

Lemma filled_finish st : filled st → Forall (λ sec, text sec ≠ []) (finish st).
Proof.
  intros Hst. unfold finish.
  destruct (current_section st) as [|x xs] eqn:Hcs; [apply Hst|].
  apply Forall_app. split; [apply Hst|]. apply Forall_singleton.
  apply filled_close; [done|by rewrite Hcs].
Qed.

Lemma split_text_filled max_tokens txt :
  clean txt ≠ [] →
  Forall (λ sec, text sec ≠ []) (split_text max_tokens txt).
Proof.
  intros Hne. rewrite split_text_unfold. apply filled_finish.
  apply (foldl_invariant _ (λ s, s ≠ [])).
  - intros. by apply filled_step.
  - by split.
  - by apply sentences_of_pieces.
Qed.

(** ** At least one section *)

Lemma split_step_current max_tokens st sentence :
  current_section (split_step max_tokens st sentence) ≠ [].
Proof.
  unfold split_step. simpl. intros H. by apply app_eq_nil in H as [_ ?].
Qed.

Lemma split_text_nonempty max_tokens txt : split_text max_tokens txt ≠ [].
Proof.
  rewrite split_text_unfold. unfold finish.
  destruct (sentences_of txt) as [|s l _] eqn:Hl using rev_ind.
  { by destruct (sentences_of_nonempty txt). }
  rewrite foldl_app. cbn [foldl].
  set (st := foldl _ _ l).
  pose proof (split_step_current max_tokens st s) as Hne.
  destruct (current_section (split_step max_tokens st s)); [done|].
  intros H. by apply app_eq_nil in H as [_ ?].
Qed.

(** * Computations *)

Section EffectFacts.

Context {World E : Type}.

Local Abbreviation M := (M World E).

Lemma bind_inr {A B} (m : M A) (f : A → M B) w a w1 t1 :
  m w = (inr a, w1, t1) →
  bind m f w = (let '(r, w2, t2) := f a w1 in (r, w2, t1 ++ t2)).
Proof. unfold bind. by intros ->. Qed.

Lemma bind_inl {A B} (m : M A) (f : A → M B) w e w1 t1 :
  m w = (inl e, w1, t1) → bind m f w = (inl e, w1, t1).
Proof. unfold bind. by intros ->. Qed.

Lemma bind_pure {A B} (m : M A) (f : A → M B) w a :
  m w = (inr a, w, []) → bind m f w = f a w.
Proof. unfold bind. intros ->. by destruct (f a w) as [[??]?]. Qed.

(** ** [mapM] *)

Lemma mapM_cons_inr {A B} (f : A → M B) a l w b w1 t1 :
  f a w = (inr b, w1, t1) →
  mapM f (a :: l) w
  = (let '(r, w2, t2) := mapM f l w1 in
     (match r with inl e => inl e | inr bs => inr (b :: bs) end, w2, t1 ++ t2)).
Proof.
  intros Hf. cbn [mapM]. rewrite (bind_inr _ _ _ _ _ _ Hf).
  unfold bind at 1. destruct (mapM f l w1) as [[[e|bs] w2] t2]; [done|].
  unfold ret. by rewrite app_nil_r.
Qed.

Lemma mapM_cons_inl {A B} (f : A → M B) a l w e w1 t1 :
  f a w = (inl e, w1, t1) → mapM f (a :: l) w = (inl e, w1, t1).
Proof. intros Hf. cbn [mapM]. by rewrite (bind_inl _ _ _ _ _ _ Hf). Qed.

(** A successful [mapM] has one result for each element, each of them a
    result of [f] on its element. *)
Lemma mapM_inr {A B} (f : A → M B) l : ∀ w bs w' t,
  mapM f l w = (inr bs, w', t) →
  Forall2 (λ a b, ∃ w1 w2 t1, f a w1 = (inr b, w2, t1)) l bs.
Proof.
  induction l as [|a l IH]; intros w bs w' t.
  - intros [= <- _ _]. constructor.
  - destruct (f a w) as [[[e|b] w1] t1] eqn:Hf.
    + by rewrite (mapM_cons_inl _ _ _ _ _ _ _ Hf).
    + rewrite (mapM_cons_inr _ _ _ _ _ _ _ Hf).
      destruct (mapM f l w1) as [[[e|bs'] w2] t2] eqn:Hl; [done|].
      intros [= <- _ _]. constructor; eauto.
Qed.

Lemma mapM_length {A B} (f : A → M B) l w bs w' t :
  mapM f l w = (inr bs, w', t) → length bs = length l.
Proof. intros H%mapM_inr. symmetry. by eapply Forall2_length. Qed.

(** The events of [mapM f l] are events of [f] on elements of a prefix of
    [l], the whole of [l] when it succeeds. *)
Lemma mapM_events {A B} (f : A → M B) (g : A → event E) l :
  (∀ a w, (f a w).2 = [g a]) →
  ∀ w, ∃ k, (mapM f l w).2 = g <$> take k l
            ∧ (∀ bs, (mapM f l w).1.1 = inr bs → k = length l).
Proof.
  intros Hf. induction l as [|a l IH]; intros w.
  - by exists 0.
  - specialize (Hf a w). destruct (f a w) as [[[e|b] w1] t1] eqn:Hfa.
    + rewrite (mapM_cons_inl _ _ _ _ _ _ _ Hfa). simpl in *.
      exists 1. split; [by subst|]. by intros ? [=].
    + rewrite (mapM_cons_inr _ _ _ _ _ _ _ Hfa).
      destruct (IH w1) as (k & Hk & Hlen).
      destruct (mapM f l w1) as [[r w2] t2]. simpl in *. subst.
      exists (S k). split; [done|].
      intros bs Hr. f_equal. destruct r as [|bs']; [done|]. by eapply Hlen.
Qed.

Lemma mapM_pure {A B} (f : A → M B) (g : A → B) l w :
  (∀ a, a ∈ l → f a w = (inr (g a), w, [])) →
  mapM f l w = (inr (g <$> l), w, []).
Proof.
  induction l as [|a l IH]; intros Hf; [done|].
  rewrite (mapM_cons_inr _ _ _ _ _ _ _ (Hf a ltac:(left))).
  rewrite IH; [done|]. intros. apply Hf. by right.
Qed.

(** ** [retry] *)

Lemma retry_from_inl {A} wait more n (f : M A) w e w' t :
  retry_from wait more n f w = (inl e, w', t) → e = RetryError.
Proof.
  revert n w t. induction more as [|more IH]; intros n w t; simpl.
  - destruct (f w) as [[[e1|a] w1] t1]; intros ?; by simplify_eq.
  - destruct (f w) as [[[e1|a] w1] t1]; [|done].
    destruct (retry_from wait more (S n) f w1) as [[r w2] t2] eqn:Hr.
    intros ?; simplify_eq. by eapply IH.
Qed.

(** A retried call that succeeds returns what its last attempt returns. *)
Lemma retry_from_inr {A} wait more n (f : M A) w a w' t :
  retry_from wait more n f w = (inr a, w', t) →
  ∃ w0 t0 t1, f w0 = (inr a, w', t1) ∧ t = t0 ++ t1.
Proof.
  revert n w t. induction more as [|more IH]; intros n w t; simpl.
  - destruct (f w) as [[[e1|a1] w1] t1] eqn:Hf; [done|].
    intros ?; simplify_eq. by eexists w, [], _.
  - destruct (f w) as [[[e1|a1] w1] t1] eqn:Hf.
    + destruct (retry_from wait more (S n) f w1) as [[r w2] t2] eqn:Hr.
      intros ?; simplify_eq.
      destruct (IH _ _ _ Hr) as (w0 & t0 & t3 & ? & ->).
      eexists w0, (_ ++ Sleep (wait n) :: t0), t3.
      split; [done|]. by rewrite <-app_assoc.
    + intros ?; simplify_eq. by eexists w, [], _.
Qed.

End EffectFacts.

(** * The pipeline *)

Section PipelineFacts.

Context (unicode_lower : N → list N).
Context (pdf_page_texts : list byte → option (list (list N))).
Context (environ : gmap string (list N)).
Context {World E IndexingResult : Type}.
Context (embeddings_create :
           OpenAIEmbeddings.t → list N → World → option E * World).
Context (upload_documents :
           SearchInfo.t → list (IndexDocument E) → World
           → option (list IndexingResult) * World).

Local Abbreviation run :=
  (process_file_and_update_index unicode_lower pdf_page_texts environ
     embeddings_create upload_documents).
Local Abbreviation index_pages :=
  (index_split_pages unicode_lower environ embeddings_create
     upload_documents).
Local Abbreviation embed := (create_embeddings embeddings_create).
Local Abbreviation embed_once :=
  (create_embeddings_wrapped embeddings_create).
Local Abbreviation extract := (extract_text unicode_lower pdf_page_texts).

(** ** Embedding generation *)

Lemma embed_text_events self txt (w : World) :
  (embed_text embeddings_create self txt w).2
  = [EmbeddingsCreate (truncated self txt)].
Proof.
  unfold embed_text, call.
  by destruct (embeddings_create _ _ _) as [[?|] ?].
Qed.

Lemma embed_once_no_upload self texts (w : World) :
  Forall (λ ev, is_upload ev = false) (embed_once self texts w).2.
Proof.
  unfold create_embeddings_wrapped.
  destruct (mapM_events (embed_text embeddings_create self)
              (λ txt, EmbeddingsCreate (truncated self txt)) texts
              (embed_text_events self) w) as (k & -> & _).
  apply Forall_fmap, Forall_true. done.
Qed.

Lemma retry_from_no_upload {A} wait more n (f : M World E A) :
  (∀ w, Forall (λ ev, is_upload ev = false) (f w).2) →
  ∀ w, Forall (λ ev, is_upload ev = false) (retry_from wait more n f w).2.
Proof.
  intros Hf. revert n. induction more as [|more IH]; intros n w; simpl.
  - specialize (Hf w). by destruct (f w) as [[[?|?] ?] ?].
  - specialize (Hf w). destruct (f w) as [[[?|?] w1] t1]; [|done].
    specialize (IH (S n) w1).
    destruct (retry_from wait more (S n) f w1) as [[r w2] t2]. simpl in *.
    apply Forall_app. split; [done|]. by constructor.
Qed.

Lemma embed_no_upload self texts (w : World) :
  Forall (λ ev, is_upload ev = false) (embed self texts w).2.
Proof. apply retry_from_no_upload, embed_once_no_upload. Qed.

Lemma embed_length self texts (w : World) embs w' t :
  embed self texts w = (inr embs, w', t) → length embs = length texts.
Proof.
  intros (w0 & t0 & t1 & H & _)%retry_from_inr. by eapply mapM_length.
Qed.

(** ** Assembly *)

Lemma getenv_eq key (w : World) :
  getenv (E:=E) environ key w
  = match environ !! key with
    | Some v => (inr v, w, [])
    | None => (inl (KeyError key), w, [])
    end.
Proof. unfold getenv. by destruct (environ !! key). Qed.

Lemma documents_eq file_name sections (embeddings : list E) (w : World) :
  mapM (λ p, document unicode_lower environ file_name p.1 p.2.1 p.2.2)
       (enumerate (zip sections embeddings)) w
  = match zip sections embeddings,
          environ !! "AZURE_STORAGE_ACCOUNT_NAME" with
    | _ :: _, None => (inl (KeyError "AZURE_STORAGE_ACCOUNT_NAME"), w, [])
    | _, Some account =>
        (inr (documents_of unicode_lower account file_name sections
                embeddings), w, [])
    | [], None => (inr [], w, [])
    end.
Proof.
  unfold documents_of, enumerate.
  destruct (environ !! "AZURE_STORAGE_ACCOUNT_NAME") as [account|] eqn:Henv.
  - rewrite (mapM_pure _ (λ p, document_of unicode_lower account file_name
                                 p.1 p.2.1 p.2.2)).
    + rewrite fmap_imap. by destruct (zip sections embeddings).
    + intros [i [s e]] _. unfold document.
      by rewrite (bind_pure _ _ _ account) by by rewrite getenv_eq, Henv.
  - destruct (zip sections embeddings) as [|[s e] l]; [done|].
    rewrite imap_cons. apply mapM_cons_inl. unfold document.
    apply bind_inl. by rewrite getenv_eq, Henv.
Qed.

(** ** The stages after the split *)

(** With the three settings of the embedding service present, the part
    after the split is the embedding stage, the assembly and the upload,
    each ending the run when it raises. *)
Lemma index_pages_eq file file_name si pages (w : World)
    endpoint deployment api_key :
  environ !! "AZURE_OPENAI_ENDPOINT" = Some endpoint →
  environ !! "AZURE_OPENAI_DEPLOYMENT" = Some deployment →
  environ !! "AZURE_OPENAI_KEY" = Some api_key →
  index_pages file file_name si pages w
  = match embed (OpenAIEmbeddings.init endpoint deployment api_key)
            (text <$> pages) w with
    | (inl e, w1, t1) => (inl e, w1, t1)
    | (inr embs, w1, t1) =>
        match zip (sections_of file file_name pages) embs,
              environ !! "AZURE_STORAGE_ACCOUNT_NAME" with
        | _ :: _, None =>
            (inl (KeyError "AZURE_STORAGE_ACCOUNT_NAME"), w1, t1)
        | _, account =>
            let docs :=
              documents_of unicode_lower (default [] account) file_name
                (sections_of file file_name pages) embs in
            match upload_documents si docs w1 with
            | (Some res, w2) =>
                (inr PyNone, w2,
                 t1 ++ [UploadDocuments docs; LogUploaded (length res)])
            | (None, w2) =>
                (inl UploadError, w2, t1 ++ [UploadDocuments docs])
            end
        end
    end.
Proof.
  intros He Hd Hk. unfold index_split_pages.
  rewrite (bind_pure _ _ _ endpoint) by by rewrite getenv_eq, He.
  rewrite (bind_pure _ _ _ deployment) by by rewrite getenv_eq, Hd.
  rewrite (bind_pure _ _ _ api_key) by by rewrite getenv_eq, Hk.
  unfold sections_of at 1. rewrite <-list_fmap_compose.
  change ((λ section, text (split_page section))
          ∘ (λ split_page, mkSection split_page file None
                             (Py.basename file_name) []))
    with text.
  unfold bind at 1.
  destruct (embed _ _ w) as [[[e|embs] w1] t1]; [done|].
  unfold bind at 1. rewrite documents_eq.
  assert (∀ account, zip (sections_of file file_name pages) embs = [] →
    documents_of unicode_lower account file_name
      (sections_of file file_name pages) embs = []) as Hnil.
  { intros account Hz. unfold documents_of. by rewrite Hz. }
  destruct (zip (sections_of file file_name pages) embs) as [|p l] eqn:Hz,
    (environ !! "AZURE_STORAGE_ACCOUNT_NAME") as [account|]; simpl;
    rewrite ?Hnil by done; try (by rewrite app_nil_r);
    unfold bind, call, emit, ret;
    by destruct (upload_documents _ _ _) as [[res|] w2].
Qed.

(** Without one of them the run ends at once. *)
Lemma index_pages_no_settings file file_name si pages (w : World) :
  environ !! "AZURE_OPENAI_ENDPOINT" = None
  ∨ environ !! "AZURE_OPENAI_DEPLOYMENT" = None
  ∨ environ !! "AZURE_OPENAI_KEY" = None →
  ∃ key, index_pages file file_name si pages w = (inl (KeyError key), w, []).
Proof.
  intros Hnone. unfold index_split_pages.
  destruct (environ !! "AZURE_OPENAI_ENDPOINT") as [endpoint|] eqn:He.
  2:{ eexists. apply bind_inl. by rewrite getenv_eq, He. }
  rewrite (bind_pure _ _ _ endpoint) by by rewrite getenv_eq, He.
  destruct (environ !! "AZURE_OPENAI_DEPLOYMENT") as [deployment|] eqn:Hd.
  2:{ eexists. apply bind_inl. by rewrite getenv_eq, Hd. }
  rewrite (bind_pure _ _ _ deployment) by by rewrite getenv_eq, Hd.
  destruct (environ !! "AZURE_OPENAI_KEY") as [api_key|] eqn:Hk.
  2:{ eexists. apply bind_inl. by rewrite getenv_eq, Hk. }
  by destruct Hnone as [?|[?|?]].
Qed.

(** ** Runs that reach the upload *)

Lemma no_upload_elem (t : list (event E)) docs :
  Forall (λ ev, is_upload ev = false) t → UploadDocuments docs ∉ t.
Proof. intros Ht Hin. rewrite Forall_forall in Ht. by apply Ht in Hin. Qed.

Lemma sections_of_length file file_name pages :
  length (sections_of file file_name pages) = length pages.
Proof. apply length_fmap. Qed.

Lemma zip_sections_nonempty file file_name txt (embs : list E) :
  length embs = length (split_text default_max_tokens txt) →
  zip (sections_of file file_name (split_text default_max_tokens txt)) embs
  ≠ [].
Proof.
  intros Hlen Hz. apply (f_equal length) in Hz.
  rewrite length_zip, sections_of_length, Hlen in Hz.
  pose proof (split_text_nonempty default_max_tokens txt).
  destruct (split_text default_max_tokens txt); [done|]. simpl in Hz. lia.
Qed.

(** Every run is one of the outcomes. *)
Lemma run_outcome blob ct file_name si (w : World) :
  outcome unicode_lower pdf_page_texts environ embeddings_create
    upload_documents blob ct file_name si w (run blob ct file_name si w).
Proof.
  unfold process_file_and_update_index.
  destruct blob as [|b blob]; [by constructor|].
  set (file := mkFile file_name (b :: blob) ct).
  destruct (extract file) as [e|txt] eqn:Htxt; [by constructor|].
  destruct txt as [|c txt]; [by constructor|].
  set (pages := split_text default_max_tokens (c :: txt)).
  destruct (environ !! "AZURE_OPENAI_ENDPOINT") as [endpoint|] eqn:He.
  2:{ destruct (index_pages_no_settings file file_name si pages w)
        as [key ->]; [by left|].
      by eapply outcome_no_settings; [..|left]. }
  destruct (environ !! "AZURE_OPENAI_DEPLOYMENT") as [deployment|] eqn:Hd.
  2:{ destruct (index_pages_no_settings file file_name si pages w)
        as [key ->]; [by right; left|].
      by eapply outcome_no_settings; [..|right; left]. }
  destruct (environ !! "AZURE_OPENAI_KEY") as [api_key|] eqn:Hk.
  2:{ destruct (index_pages_no_settings file file_name si pages w)
        as [key ->]; [by right; right|].
      by eapply outcome_no_settings; [..|right; right]. }
  rewrite (index_pages_eq _ _ _ _ _ _ _ _ He Hd Hk).
  assert (chunked unicode_lower pdf_page_texts environ (b :: blob) ct
            file_name (c :: txt)
            (OpenAIEmbeddings.init endpoint deployment api_key)) as Hch.
  { split; eauto 10. }
  destruct (embed _ _ w) as [[[e|embs] w1] t1] eqn:Hembed.
  { by eapply outcome_embedding_error. }
  pose proof (embed_length _ _ _ _ _ _ Hembed) as Hlen.
  rewrite length_fmap in Hlen.
  pose proof (zip_sections_nonempty file file_name _ _ Hlen) as Hz.
  fold pages in Hz.
  destruct (zip (sections_of file file_name pages) embs) as [|p l];
    [done|].
  destruct (environ !! "AZURE_STORAGE_ACCOUNT_NAME") as [account|] eqn:Ha.
  2:{ by eapply outcome_no_account. }
  cbv zeta. simpl default.
  destruct (upload_documents _ _ _) as [[res|] w2] eqn:Hup.
  - by eapply outcome_uploaded.
  - by eapply outcome_upload_error.
Qed.

Lemma chunked_inj blob ct file_name txt1 self1 txt2 self2 :
  chunked unicode_lower pdf_page_texts environ blob ct file_name txt1 self1 →
  chunked unicode_lower pdf_page_texts environ blob ct file_name txt2 self2 →
  txt1 = txt2 ∧ self1 = self2.
Proof.
  intros [_ H1 _ (e1 & d1 & k1 & He1 & Hd1 & Hk1 & ->)]
         [_ H2 _ (e2 & d2 & k2 & He2 & Hd2 & Hk2 & ->)].
  rewrite H1 in H2. rewrite He1 in He2. rewrite Hd1 in Hd2.
  rewrite Hk1 in Hk2. by simplify_eq.
Qed.

(** A run that has called [upload_documents] has had its embeddings, one
    for each section, and has sent the documents made of them. *)
Lemma run_upload_inv blob ct file_name si (w : World) docs :
  UploadDocuments docs ∈ (run blob ct file_name si w).2 →
  ∃ txt self embs w1 t1 account,
    chunked unicode_lower pdf_page_texts environ blob ct file_name txt self
    ∧ embed self (text <$> split_text default_max_tokens txt) w
      = (inr embs, w1, t1)
    ∧ length embs = length (split_text default_max_tokens txt)
    ∧ docs = documents_of unicode_lower account file_name
               (sections_of (mkFile file_name blob ct) file_name
                  (split_text default_max_tokens txt)) embs.
Proof.
  pose proof (run_outcome blob ct file_name si w) as Hrun. revert Hrun.
  generalize (run blob ct file_name si w). intros out Hrun Hin.
  destruct Hrun as
    [ ? | ? ? ? | ? ? | ? ? ? ? ? ?
    | txt self e w1 t1 Hch Hembed
    | txt self embs w1 t1 Hch Hembed Ha
    | txt self embs w1 t1 account w2 Hch Hembed Ha documents Hup
    | txt self embs w1 t1 account res w2 Hch Hembed Ha documents Hup ];
    simpl in Hin;
    try (by apply elem_of_nil in Hin);
    try (by apply list_elem_of_singleton in Hin);
    pose proof (embed_no_upload self
                  (text <$> split_text default_max_tokens txt) w) as Hno;
    rewrite Hembed in Hno; simpl in Hno;
    try (by destruct (no_upload_elem _ _ Hno Hin));
    pose proof (embed_length _ _ _ _ _ _ Hembed) as Hlen;
    rewrite length_fmap in Hlen;
    (apply elem_of_app in Hin as [Hin|Hin];
     [by destruct (no_upload_elem _ _ Hno Hin)|]);
    apply elem_of_cons in Hin as [[= ->]|Hin];
    try (by apply elem_of_nil in Hin);
    try (by apply list_elem_of_singleton in Hin);
    by exists txt, self, embs, w1, t1, account.
Qed.

(** ** The texts that reach the chunker *)

Lemma extract_stripped file txt :
  extract file = inr txt → ∃ s, txt = Py.strip s.
Proof.
  unfold extract_text. destruct (_ || _).
  - destruct (pdf_page_texts _); [|done]. intros [= <-]. eauto.
  - destruct (Py.decode_utf8 _); intros [= <-]; eauto.
Qed.

(** The text of a run has a character that is not whitespace, so none of
    its sections is empty. *)
Lemma chunked_sections_filled blob ct file_name txt self :
  chunked unicode_lower pdf_page_texts environ blob ct file_name txt self →
  Forall (λ sec, text sec ≠ []) (split_text default_max_tokens txt).
Proof.
  intros [_ [s ->]%extract_stripped Hne _].
  by apply split_text_filled, clean_strip_nonempty.
Qed.

Lemma run_chunked blob ct file_name si (w : World) txt self :
  chunked unicode_lower pdf_page_texts environ blob ct file_name txt self →
  run blob ct file_name si w
  = index_pages (mkFile file_name blob ct) file_name si
      (split_text default_max_tokens txt) w.
Proof.
  intros [Hblob Htxt Hne _]. unfold process_file_and_update_index.
  destruct blob; [done|]. rewrite Htxt. by destruct txt.
Qed.

(** When the embedding stage raises, the run ends there. *)
Lemma run_embedding_error blob ct file_name si (w : World) txt self e w1 t1 :
  chunked unicode_lower pdf_page_texts environ blob ct file_name txt self →
  embed self (text <$> split_text default_max_tokens txt) w = (inl e, w1, t1) →
  run blob ct file_name si w = (inl e, w1, t1).
Proof.
  intros Hch Hembed. rewrite (run_chunked _ _ _ _ _ _ _ Hch).
  destruct Hch as [_ _ _ (ep & dp & k & He & Hd & Hk & ->)].
  by rewrite (index_pages_eq _ _ _ _ _ _ _ _ He Hd Hk), Hembed.
Qed.

(** Three attempts at most, each of them a call of the undecorated
    function on all the texts, with sleeps of 4 seconds between them. *)
Lemma create_embeddings_attempts self texts (w : World) :
  embed self texts w
  = match embed_once self texts w with
    | (inr embs, w1, t1) => (inr embs, w1, t1)
    | (inl _, w1, t1) =>
        match embed_once self texts w1 with
        | (inr embs, w2, t2) => (inr embs, w2, t1 ++ Sleep 4 :: t2)
        | (inl _, w2, t2) =>
            match embed_once self texts w2 with
            | (inr embs, w3, t3) =>
                (inr embs, w3, t1 ++ Sleep 4 :: t2 ++ Sleep 4 :: t3)
            | (inl _, w3, t3) =>
                (inl RetryError, w3,
                 t1 ++ Sleep 4 :: t2 ++ Sleep 4 :: t3)
            end
        end
    end.
Proof.
  unfold create_embeddings, retry. simpl.
  destruct (embed_once self texts w) as [[[e1|embs1] w1] t1]; [|done].
  destruct (embed_once self texts w1) as [[[e2|embs2] w2] t2]; [|done].
  by destruct (embed_once self texts w2) as [[[e3|embs3] w3] t3].
Qed.

Lemma wait_exponential_bounds k :
  (4 ≤ wait_exponential 1 4 10 k ≤ 10)%Z.
Proof. unfold wait_exponential. lia. Qed.

End PipelineFacts.

(** * Document ids *)

Lemma lit_inj s1 s2 : Py.lit s1 = Py.lit s2 → s1 = s2.
Proof.
  unfold Py.lit. intros H.
  rewrite <-(string_of_list_ascii_of_string s1),
          <-(string_of_list_ascii_of_string s2).
  f_equal. revert H.
  generalize (list_ascii_of_string s1) (list_ascii_of_string s2).
  induction l as [|a l IH]; intros [|a' l']; simpl; try done.
  intros [= Ha Hl]. f_equal; [|by apply IH].
  by rewrite <-(ascii_N_embedding a), <-(ascii_N_embedding a'), Ha.
Qed.

Lemma str_of_int_inj n1 n2 : Py.str_of_int n1 = Py.str_of_int n2 → n1 = n2.
Proof. intros H%lit_inj. by apply (inj pretty). Qed.

Section DocumentFacts.

Context {E : Type} (unicode_lower : N → list N).
Context (account file_name : list N).

Lemma documents_of_lookup sections (embs : list E) i d :
  documents_of unicode_lower account file_name sections embs !! i = Some d
  ↔ ∃ s e, sections !! i = Some s ∧ embs !! i = Some e
           ∧ d = document_of unicode_lower account file_name i s e.
Proof.
  unfold documents_of. rewrite list_lookup_imap_Some. split.
  - intros ([s e] & H & ->). apply lookup_zip_with_Some in H
      as (s' & e' & [= -> ->] & ? & ?). exists s', e'. auto.
  - intros (s & e & Hs & He & ->). exists (s, e). split; [|done].
    apply lookup_zip_with_Some. by exists s, e.
Qed.

Lemma documents_of_length sections (embs : list E) :
  length embs = length sections →
  length (documents_of unicode_lower account file_name sections embs)
  = length sections.
Proof. intros H. unfold documents_of. rewrite length_imap, length_zip. lia. Qed.

(** The ids of a batch are those of the positions [0], [1], ... *)
Lemma documents_of_ids file pages (embs : list E) :
  length embs = length pages →
  doc_id <$> documents_of unicode_lower account file_name
               (sections_of file file_name pages) embs
  = (λ i, filename_to_id file ++ Py.lit "-page-"
          ++ Py.str_of_int (Z.of_nat i)) <$> seq 0 (length pages).
Proof.
  intros Hlen. apply list_eq. intros i. rewrite !list_lookup_fmap.
  destruct (pages !! i) as [page|] eqn:Hp.
  - assert (i < length embs) as [e He]%lookup_lt_is_Some
      by (rewrite Hlen; by eapply lookup_lt_Some).
    rewrite lookup_seq_lt by by eapply lookup_lt_Some. simpl.
    assert (documents_of unicode_lower account file_name
              (sections_of file file_name pages) embs !! i
            = Some (document_of unicode_lower account file_name i
                      (mkSection page file None (Py.basename file_name) [])
                      e)) as ->; [|done].
    apply documents_of_lookup. eexists _, e. split; [|done].
    unfold sections_of. by rewrite list_lookup_fmap, Hp.
  - rewrite lookup_seq_ge by by apply lookup_ge_None.
    destruct (documents_of _ _ _ _ _ !! i) as [d|] eqn:Hd; [|done].
    apply documents_of_lookup in Hd as (s & e & Hs & _).
    unfold sections_of in Hs. by rewrite list_lookup_fmap, Hp in Hs.
Qed.

Lemma ids_distinct prefix n :
  NoDup ((λ i, prefix ++ Py.lit "-page-" ++ Py.str_of_int (Z.of_nat i))
           <$> seq 0 n).
Proof.
  apply NoDup_fmap_2_strong; [|apply NoDup_seq].
  intros i j _ _ H. do 2 apply app_inv_head in H.
  apply str_of_int_inj in H. lia.
Qed.

End DocumentFacts.

(** * The claims on the chunker and on the sourcepage *)

(** C3. For every text that is not empty, the sections of [split_text] carry
    the sequence numbers 0, 1, ..., k-1 in this order, and their texts joined
    by single spaces are the input with its whitespace normalised. *)
Theorem split_text_numbers_and_text (max_tokens : Z) (txt : list N) :
  txt ≠ [] →
  page_num <$> split_text max_tokens txt
  = seq 0 (length (split_text max_tokens txt))
  ∧ Py.join (Py.lit " ") (text <$> split_text max_tokens txt) = clean txt.
Proof.
  intros _. split; [|apply split_text_join].
  rewrite split_text_unfold. apply numbered_finish.
  apply (foldl_invariant _ (λ _, True)).
  - intros. by apply numbered_step.
  - done.
  - by apply Forall_true.
Qed.

Lemma split_text_numbers_and_text_witness :
  Py.lit " One.  Two three. Four! " ≠ []
  ∧ page_num <$> split_text 2 (Py.lit " One.  Two three. Four! ")
    = seq 0 (length (split_text 2 (Py.lit " One.  Two three. Four! ")))
  ∧ Py.join (Py.lit " ")
      (text <$> split_text 2 (Py.lit " One.  Two three. Four! "))
    = clean (Py.lit " One.  Two three. Four! ").
Proof.
  split; [done|].
  apply (split_text_numbers_and_text 2 (Py.lit " One.  Two three. Four! ")).
  done.
Defined.

(** C4, as the code has it.  For every text with a character that is not
    whitespace, no section of [split_text] has an empty text; and for every
    text, a section has at most [max_tokens] words unless it is one single
    sentence that has more than [max_tokens] words by itself. *)
Theorem split_text_sections (max_tokens : Z) (txt : list N)
    (sec : SplitPage) :
  sec ∈ split_text max_tokens txt →
  ((∃ c, c ∈ txt ∧ Py.isspace c = false) → text sec ≠ [])
  ∧ ((token_count (text sec) ≤ max_tokens)%Z
     ∨ (text sec ∈ sentences_of txt
        ∧ (max_tokens < token_count (text sec))%Z)).
Proof.
  intros Hsec. split.
  - intros (c & Hc & Hns).
    pose proof (split_text_filled max_tokens txt
                  (clean_nonempty txt c Hc Hns)) as Hall.
    rewrite Forall_forall in Hall. by apply Hall.
  - pose proof (split_text_budget max_tokens txt) as Hall.
    rewrite Forall_forall in Hall. by apply Hall.
Qed.

Lemma split_text_sections_witness :
  mkSplitPage (Py.lit "Two three.") 1
    ∈ split_text 1 (Py.lit "One. Two three.")
  ∧ ((∃ c, c ∈ Py.lit "One. Two three." ∧ Py.isspace c = false) →
     Py.lit "Two three." ≠ [])
  ∧ ((token_count (Py.lit "Two three.") ≤ 1)%Z
     ∨ (Py.lit "Two three." ∈ sentences_of (Py.lit "One. Two three.")
        ∧ (1 < token_count (Py.lit "Two three."))%Z)).
Proof.
  assert (mkSplitPage (Py.lit "Two three.") 1
            ∈ split_text 1 (Py.lit "One. Two three.")) as Hin.
  { vm_compute. right. left. }
  split; [exact Hin|].
  exact (split_text_sections 1 (Py.lit "One. Two three.") _ Hin).
Defined.

(** C4 as stated fails on the empty text: its one section is empty. *)
Lemma split_text_empty_section :
  ¬ ∀ sec, sec ∈ split_text default_max_tokens [] → text sec ≠ [].
Proof. intros H. apply (H (mkSplitPage [] 0)); [left|done]. Qed.

(** C5, as the code has it.  On the empty text [split_text] returns one
    section, with the empty text and the sequence number 0. *)
Theorem split_text_empty (max_tokens : Z) :
  split_text max_tokens [] = [mkSplitPage [] 0].
Proof.
  unfold split_text, sentences_of. simpl. unfold split_step. simpl.
  by destruct (_ >? _)%Z.
Qed.

(** C5 as stated fails: the sequence returned for the empty text is not
    empty. *)
Lemma split_text_empty_not_nil : split_text default_max_tokens [] ≠ [].
Proof. done. Qed.

(** C6. [sourcepage_from_file_page] returns the basename followed by
    [#page=] and the page number plus one when the extension of the file
    name, in lower case, is [.pdf], and the basename alone otherwise; so it
    does on [report.pdf] and on [notes.txt]. *)
Theorem sourcepage_from_file_page_spec (unicode_lower : N → list N)
    (filename : list N) (page : Z) :
  (Py.lower unicode_lower (Py.splitext filename).2 = Py.lit ".pdf" →
   sourcepage_from_file_page unicode_lower filename page
   = Py.basename filename ++ Py.lit "#page=" ++ Py.str_of_int (page + 1))
  ∧ (Py.lower unicode_lower (Py.splitext filename).2 ≠ Py.lit ".pdf" →
     sourcepage_from_file_page unicode_lower filename page
     = Py.basename filename)
  ∧ sourcepage_from_file_page unicode_lower (Py.lit "report.pdf") 2
    = Py.lit "report.pdf#page=3"
  ∧ sourcepage_from_file_page unicode_lower (Py.lit "notes.txt") 0
    = Py.lit "notes.txt".
Proof.
  split; [|split; [|split]].
  - intros H. unfold sourcepage_from_file_page.
    by rewrite bool_decide_eq_true_2.
  - intros H. unfold sourcepage_from_file_page.
    by rewrite bool_decide_eq_false_2.
  - reflexivity.
  - reflexivity.
Qed.

(** The extension is compared without regard to case, and a name that is
    a dot and [pdf] has no extension. *)
Lemma sourcepage_from_file_page_examples (unicode_lower : N → list N) :
  sourcepage_from_file_page unicode_lower (Py.lit "a/b/Report.PDF") 0
  = Py.lit "Report.PDF#page=1"
  ∧ sourcepage_from_file_page unicode_lower (Py.lit "a.pdf/notes") 4
    = Py.lit "notes"
  ∧ sourcepage_from_file_page unicode_lower (Py.lit ".pdf") 0
    = Py.lit ".pdf".
Proof. by repeat split. Qed.

(** * The claims on the pipeline *)

Section PipelineClaims.

Context (unicode_lower : N → list N).
Context (pdf_page_texts : list byte → option (list (list N))).
Context (environ : gmap string (list N)).
Context {World E IndexingResult : Type}.
Context (embeddings_create :
           OpenAIEmbeddings.t → list N → World → option E * World).
Context (upload_documents :
           SearchInfo.t → list (IndexDocument E) → World
           → option (list IndexingResult) * World).

Local Abbreviation run :=
  (process_file_and_update_index unicode_lower pdf_page_texts environ
     embeddings_create upload_documents).
Local Abbreviation embed := (create_embeddings embeddings_create).
Local Abbreviation embed_once :=
  (create_embeddings_wrapped embeddings_create).
Local Abbreviation extract := (extract_text unicode_lower pdf_page_texts).
Local Abbreviation chunked :=
  (chunked unicode_lower pdf_page_texts environ).

(** C1. Two runs on the same bytes and the same name, from any states of
    the services, send batches with the same ids, position by position:
    the id at position [i] is the name with [/] and [.] replaced by [_],
    followed by [-page-] and [i]. *)
Theorem reprocessing_keeps_ids blob ct file_name si1 si2 (w1 w2 : World)
    docs1 docs2 :
  UploadDocuments docs1 ∈ (run blob ct file_name si1 w1).2 →
  UploadDocuments docs2 ∈ (run blob ct file_name si2 w2).2 →
  doc_id <$> docs1 = doc_id <$> docs2
  ∧ ∀ i d, docs1 !! i = Some d ∨ docs2 !! i = Some d →
      doc_id d
      = Py.replace 0x2E 0x5F (Py.replace 0x2F 0x5F file_name)
        ++ Py.lit "-page-" ++ Py.str_of_int (Z.of_nat i).
Proof.
  intros (txt1 & s1 & embs1 & ? & ? & a1 & Hch1 & _ & Hlen1 & ->)%run_upload_inv
         (txt2 & s2 & embs2 & ? & ? & a2 & Hch2 & _ & Hlen2 & ->)%run_upload_inv.
  destruct (chunked_inj _ _ _ _ _ _ _ _ _ _ Hch1 Hch2) as [<- _].
  rewrite !documents_of_ids by done. split; [done|].
  intros i d [Hd|Hd];
    apply documents_of_lookup in Hd as (s & e & Hs & _ & ->);
    unfold sections_of in Hs; rewrite list_lookup_fmap in Hs;
    (destruct (split_text _ _ !! i) as [page|]; simpl in Hs; [|done]);
    by injection Hs as <-.
Qed.

(** C10. The ids of the documents of an uploaded batch are pairwise
    distinct. *)
Theorem batch_ids_distinct blob ct file_name si (w : World) docs :
  UploadDocuments docs ∈ (run blob ct file_name si w).2 →
  NoDup (doc_id <$> docs).
Proof.
  intros (txt & s & embs & ? & ? & a & _ & _ & Hlen & ->)%run_upload_inv.
  rewrite documents_of_ids by done. apply ids_distinct.
Qed.

(** C2. In a run that has reached the embedding stage: when
    [create_embeddings] returns, it returns as many vectors as there are
    sections, and every batch the run uploads has one document for each
    section, the document at position [i] holding the text of section [i]
    and vector [i]; when [create_embeddings] raises, the run ends with that
    exception, in that state and with those events, none of which is an
    upload. *)
Theorem embedding_count_invariant blob ct file_name si (w : World)
    txt self :
  chunked blob ct file_name txt self →
  match embed self (text <$> split_text default_max_tokens txt) w with
  | (inr embs, _, _) =>
      length embs = length (split_text default_max_tokens txt)
      ∧ ∀ docs, UploadDocuments docs ∈ (run blob ct file_name si w).2 →
          length docs = length (split_text default_max_tokens txt)
          ∧ ∀ i d, docs !! i = Some d →
              ∃ page, split_text default_max_tokens txt !! i = Some page
                      ∧ doc_content d = text page
                      ∧ embs !! i = Some (doc_embedding d)
  | (inl e, w1, t1) =>
      run blob ct file_name si w = (inl e, w1, t1)
      ∧ ∀ docs, UploadDocuments docs ∉ t1
  end.
Proof.
  intros Hch.
  pose proof (embed_no_upload embeddings_create self
                (text <$> split_text default_max_tokens txt) w) as Hno.
  destruct (embed _ _ w) as [[[e|embs] w1] t1] eqn:Hembed.
  - split; [|intros docs; by apply no_upload_elem].
    by eapply run_embedding_error.
  - pose proof (embed_length _ _ _ _ _ _ _ Hembed) as Hlen.
    rewrite length_fmap in Hlen. split; [done|].
    intros docs
      (txt' & s' & embs' & ? & ? & a & Hch' & Hembed' & _ & ->)%run_upload_inv.
    destruct (chunked_inj _ _ _ _ _ _ _ _ _ _ Hch Hch') as [<- <-].
    rewrite Hembed in Hembed'. injection Hembed' as <- _ _.
    split.
    { by rewrite documents_of_length, sections_of_length
        by by rewrite sections_of_length. }
    intros i d (s & e & Hs & He & ->)%documents_of_lookup.
    unfold sections_of in Hs. rewrite list_lookup_fmap in Hs.
    destruct (split_text _ _ !! i) as [page|]; simpl in Hs; [|done].
    exists page. by injection Hs as <-.
Qed.

(** C7, as the code has it.  The decorator retries the call of
    [create_embeddings] as a whole: at most three attempts, each of them
    embedding all the sections again from the first, on the one split of
    the one extracted text, with a sleep of 4 seconds after the first and
    after the second failure, the waits of the policy lying between 4 and
    10 seconds; and when the third attempt has failed, the run ends with
    [RetryError] and has uploaded nothing. *)
Theorem retry_wraps_all_sections blob ct file_name si (w : World)
    txt self :
  chunked blob ct file_name txt self →
  let texts := text <$> split_text default_max_tokens txt in
  (∀ k, (4 ≤ wait_exponential 1 4 10 k ≤ 10)%Z)
  ∧ embed self texts w
    = match embed_once self texts w with
      | (inr embs, w1, t1) => (inr embs, w1, t1)
      | (inl _, w1, t1) =>
          match embed_once self texts w1 with
          | (inr embs, w2, t2) => (inr embs, w2, t1 ++ Sleep 4 :: t2)
          | (inl _, w2, t2) =>
              match embed_once self texts w2 with
              | (inr embs, w3, t3) =>
                  (inr embs, w3, t1 ++ Sleep 4 :: t2 ++ Sleep 4 :: t3)
              | (inl _, w3, t3) =>
                  (inl RetryError, w3,
                   t1 ++ Sleep 4 :: t2 ++ Sleep 4 :: t3)
              end
          end
      end
  ∧ ∀ e w1 t1,
      embed self texts w = (inl e, w1, t1) →
      e = RetryError
      ∧ run blob ct file_name si w = (inl RetryError, w1, t1)
      ∧ ∀ docs, UploadDocuments docs ∉ t1.
Proof.
  intros Hch texts. split; [apply wait_exponential_bounds|].
  split; [apply create_embeddings_attempts|].
  intros e w1 t1 Hembed.
  assert (e = RetryError) as -> by by eapply retry_from_inl.
  split; [done|]. split; [by eapply run_embedding_error|].
  intros docs. apply no_upload_elem.
  pose proof (embed_no_upload embeddings_create self texts w) as Hno.
  by rewrite Hembed in Hno.
Qed.

(** C8.  A run on empty content, or whose extracted text is empty, or
    whose text gives no section, returns [None] with the services
    untouched and one log line as its only event: it makes no embedding
    call and no upload, so it sends no document.  The third case is that of
    no run: [split_text] returns at least one section. *)
Theorem empty_input_is_noop blob ct file_name si (w : World) :
  blob = []
  ∨ extract (mkFile file_name blob ct) = inr []
  ∨ (∃ txt, extract (mkFile file_name blob ct) = inr txt
            ∧ split_text default_max_tokens txt = []) →
  run blob ct file_name si w
  = (inr PyNone, w,
     [match blob with [] => LogEmptyContent | _ :: _ => LogNoText end])
  ∧ Forall (λ ev, is_embedding_call ev = false ∧ is_upload ev = false)
      (run blob ct file_name si w).2.
Proof.
  intros H.
  assert (run blob ct file_name si w
          = (inr PyNone, w,
             [match blob with
              | [] => LogEmptyContent
              | _ :: _ => LogNoText
              end])) as Hrun.
  { unfold process_file_and_update_index.
    destruct blob as [|b blob]; [done|].
    destruct H as [?|[H|(txt & _ & H)]]; [done|by rewrite H|].
    by destruct (split_text_nonempty _ _ H). }
  split; [done|]. rewrite Hrun. simpl.
  apply Forall_singleton. by destruct blob.
Qed.

(** C9, as the code has it.  A run that does not raise returns [None];
    when it has uploaded a batch, the number of results of the upload is
    written to the log, and the run still returns [None]. *)
Theorem run_returns_none blob ct file_name si (w : World) r w' t :
  run blob ct file_name si w = (inr r, w', t) →
  r = PyNone
  ∧ ∀ docs, UploadDocuments docs ∈ t →
      ∃ result w1,
        upload_documents si docs w1 = (Some result, w')
        ∧ LogUploaded (length result) ∈ t.
Proof.
  pose proof (run_outcome unicode_lower pdf_page_texts environ
                embeddings_create upload_documents blob ct file_name si w)
    as Hrun. revert Hrun.
  generalize (run blob ct file_name si w). intros out Hrun Hout.
  destruct Hrun as
    [ ? | ? ? ? | ? ? | ? ? ? ? ? ?
    | txt self e w1 t1 Hch Hembed
    | txt self embs w1 t1 Hch Hembed Ha
    | txt self embs w1 t1 account w2 Hch Hembed Ha documents Hup
    | txt self embs w1 t1 account res w2 Hch Hembed Ha documents Hup ];
    try done; injection Hout as <- <- <-; (split; [done|]); intros docs Hin.
  - by apply list_elem_of_singleton in Hin.
  - by apply list_elem_of_singleton in Hin.
  - pose proof (embed_no_upload embeddings_create self
                  (text <$> split_text default_max_tokens txt) w) as Hno.
    rewrite Hembed in Hno. simpl in Hno.
    apply elem_of_app in Hin as [Hin|Hin].
    { by destruct (no_upload_elem _ _ Hno Hin). }
    apply elem_of_cons in Hin as [[= ->]|Hin].
    2:{ by apply list_elem_of_singleton in Hin. }
    exists res, w1. split; [done|].
    apply elem_of_app. right. right. left.
Qed.

End PipelineClaims.

(** * Examples of the claims on the pipeline *)

Lemma reprocessing_keeps_ids_witness :
  UploadDocuments (Sample.long_documents 0) ∈ (Sample.run Sample.long_blob 0).2
  ∧ UploadDocuments (Sample.long_documents 7)
      ∈ (Sample.run Sample.long_blob 7).2
  ∧ doc_id <$> Sample.long_documents 0 = doc_id <$> Sample.long_documents 7
  ∧ ∀ i d,
      Sample.long_documents 0 !! i = Some d
      ∨ Sample.long_documents 7 !! i = Some d →
      doc_id d
      = Py.replace 0x2E 0x5F (Py.replace 0x2F 0x5F Sample.file_name)
        ++ Py.lit "-page-" ++ Py.str_of_int (Z.of_nat i).
Proof.
  assert (UploadDocuments (Sample.long_documents 0)
            ∈ (Sample.run Sample.long_blob 0).2) as H0.
  { vm_compute. right. right. left. }
  assert (UploadDocuments (Sample.long_documents 7)
            ∈ (Sample.run Sample.long_blob 7).2) as H7.
  { vm_compute. right. right. left. }
  split; [exact H0|]. split; [exact H7|].
  exact (reprocessing_keeps_ids Sample.unicode_lower Sample.pdf_page_texts
           Sample.environ Sample.embeddings_create Sample.upload_documents
           Sample.long_blob Sample.content_type Sample.file_name
           Sample.search_info Sample.search_info 0 7 _ _ H0 H7).
Defined.

Lemma batch_ids_distinct_witness :
  UploadDocuments (Sample.long_documents 0) ∈ (Sample.run Sample.long_blob 0).2
  ∧ NoDup (doc_id <$> Sample.long_documents 0).
Proof.
  assert (UploadDocuments (Sample.long_documents 0)
            ∈ (Sample.run Sample.long_blob 0).2) as H0.
  { vm_compute. right. right. left. }
  split; [exact H0|].
  exact (batch_ids_distinct Sample.unicode_lower Sample.pdf_page_texts
           Sample.environ Sample.embeddings_create Sample.upload_documents
           Sample.long_blob Sample.content_type Sample.file_name
           Sample.search_info 0 _ H0).
Defined.

Lemma sample_chunked :
  chunked Sample.unicode_lower Sample.pdf_page_texts Sample.environ
    Sample.blob Sample.content_type Sample.file_name Sample.txt
    Sample.service.
Proof.
  split; [done|by vm_compute|done|].
  exists (Py.lit "https://openai.example/"), (Py.lit "embed"), (Py.lit "key").
  repeat split; by vm_compute.
Defined.

Lemma sample_long_chunked :
  chunked Sample.unicode_lower Sample.pdf_page_texts Sample.environ
    Sample.long_blob Sample.content_type Sample.file_name Sample.long_txt
    Sample.service.
Proof.
  split; [done|by vm_compute|done|].
  exists (Py.lit "https://openai.example/"), (Py.lit "embed"), (Py.lit "key").
  repeat split; by vm_compute.
Defined.

Lemma embedding_count_invariant_witness :
  chunked Sample.unicode_lower Sample.pdf_page_texts Sample.environ
    Sample.blob Sample.content_type Sample.file_name Sample.txt
    Sample.service
  ∧ match create_embeddings Sample.embeddings_create Sample.service
            (text <$> split_text default_max_tokens Sample.txt) 0 with
    | (inr embs, _, _) =>
        length embs = length (split_text default_max_tokens Sample.txt)
        ∧ ∀ docs,
            UploadDocuments docs ∈ (Sample.run Sample.blob 0).2 →
            length docs = length (split_text default_max_tokens Sample.txt)
            ∧ ∀ i d, docs !! i = Some d →
                ∃ page,
                  split_text default_max_tokens Sample.txt !! i = Some page
                  ∧ doc_content d = text page
                  ∧ embs !! i = Some (doc_embedding d)
    | (inl e, w1, t1) =>
        Sample.run Sample.blob 0 = (inl e, w1, t1)
        ∧ ∀ docs, UploadDocuments docs ∉ t1
    end.
Proof.
  split; [exact sample_chunked|].
  exact (embedding_count_invariant Sample.unicode_lower Sample.pdf_page_texts
           Sample.environ Sample.embeddings_create Sample.upload_documents
           Sample.blob Sample.content_type Sample.file_name
           Sample.search_info 0 Sample.txt Sample.service sample_chunked).
Defined.

Lemma retry_wraps_all_sections_witness :
  chunked Sample.unicode_lower Sample.pdf_page_texts Sample.environ
    Sample.long_blob Sample.content_type Sample.file_name Sample.long_txt
    Sample.service
  ∧ Sample.run_flaky Sample.long_blob 0
    = (inl RetryError, 5,
       [EmbeddingsCreate
          (Py.join (Py.lit " ") (replicate 2000 (Py.lit "a.")));
        Sleep 4;
        EmbeddingsCreate
          (Py.join (Py.lit " ") (replicate 2000 (Py.lit "a.")));
        EmbeddingsCreate (Py.lit "a.");
        Sleep 4;
        EmbeddingsCreate
          (Py.join (Py.lit " ") (replicate 2000 (Py.lit "a.")));
        EmbeddingsCreate (Py.lit "a.")]).
Proof.
  split; [exact sample_long_chunked|].
  pose proof (retry_wraps_all_sections Sample.unicode_lower
                Sample.pdf_page_texts Sample.environ
                Sample.embeddings_create_flaky Sample.upload_documents
                Sample.long_blob Sample.content_type Sample.file_name
                Sample.search_info 0 Sample.long_txt Sample.service
                sample_long_chunked) as (_ & _ & Habort).
  refine (proj1 (proj2 (Habort RetryError 5 _ _))). by vm_compute.
Defined.

Lemma empty_input_is_noop_witness :
  ([x20; x0a] = []
   ∨ extract_text Sample.unicode_lower Sample.pdf_page_texts
       (mkFile Sample.file_name [x20; x0a] Sample.content_type) = inr []
   ∨ (∃ txt,
        extract_text Sample.unicode_lower Sample.pdf_page_texts
          (mkFile Sample.file_name [x20; x0a] Sample.content_type) = inr txt
        ∧ split_text default_max_tokens txt = []))
  ∧ Sample.run [x20; x0a] 0 = (inr PyNone, 0, [LogNoText])
  ∧ Forall (λ ev, is_embedding_call ev = false ∧ is_upload ev = false)
      (Sample.run [x20; x0a] 0).2.
Proof.
  assert ([x20; x0a] = []
          ∨ extract_text Sample.unicode_lower Sample.pdf_page_texts
              (mkFile Sample.file_name [x20; x0a] Sample.content_type)
            = inr []
          ∨ (∃ txt,
               extract_text Sample.unicode_lower Sample.pdf_page_texts
                 (mkFile Sample.file_name [x20; x0a] Sample.content_type)
               = inr txt
               ∧ split_text default_max_tokens txt = [])) as H
    by (right; left; by vm_compute).
  split; [exact H|].
  exact (empty_input_is_noop Sample.unicode_lower Sample.pdf_page_texts
           Sample.environ Sample.embeddings_create Sample.upload_documents
           [x20; x0a] Sample.content_type Sample.file_name
           Sample.search_info 0 H).
Defined.

Lemma run_returns_none_witness :
  Sample.run Sample.blob 0
  = (inr PyNone, 1,
     [EmbeddingsCreate Sample.txt; UploadDocuments (Sample.documents 0);
      LogUploaded 1])
  ∧ PyNone = PyNone
  ∧ ∀ docs,
      UploadDocuments docs
        ∈ [EmbeddingsCreate Sample.txt; UploadDocuments (Sample.documents 0);
           LogUploaded 1] →
      ∃ result w1,
        Sample.upload_documents Sample.search_info docs w1 = (Some result, 1)
        ∧ LogUploaded (length result)
            ∈ [EmbeddingsCreate Sample.txt;
               UploadDocuments (Sample.documents 0); LogUploaded 1].
Proof.
  assert (Sample.run Sample.blob 0
          = (inr PyNone, 1,
             [EmbeddingsCreate Sample.txt;
              UploadDocuments (Sample.documents 0); LogUploaded 1])) as H
    by by vm_compute.
  split; [exact H|].
  exact (run_returns_none Sample.unicode_lower Sample.pdf_page_texts
           Sample.environ Sample.embeddings_create Sample.upload_documents
           Sample.blob Sample.content_type Sample.file_name
           Sample.search_info 0 _ _ _ H).
Defined.

(** * Where the claims as stated fail *)

(** C7 as stated fails.  With two sections and a service that fails on every
    other call, no section has its call fail three times, and three attempts
    for each section end well after four calls; [create_embeddings] gives
    up after its third attempt on the whole list, at the fifth call. *)
Lemma retry_is_not_per_section :
  create_embeddings Sample.embeddings_create_flaky Sample.service
    [Py.lit "a"; Py.lit "b"] 0
  = (inl RetryError, 5,
     [EmbeddingsCreate (Py.lit "a"); Sleep 4;
      EmbeddingsCreate (Py.lit "a"); EmbeddingsCreate (Py.lit "b"); Sleep 4;
      EmbeddingsCreate (Py.lit "a"); EmbeddingsCreate (Py.lit "b")])
  ∧ create_embeddings_per_section Sample.embeddings_create_flaky
      Sample.service [Py.lit "a"; Py.lit "b"] 0
    = (inr [[1; 1]; [3; 1]]%Z, 4,
       [EmbeddingsCreate (Py.lit "a"); Sleep 4;
        EmbeddingsCreate (Py.lit "a");
        EmbeddingsCreate (Py.lit "b"); Sleep 4;
        EmbeddingsCreate (Py.lit "b")]).
Proof. split; by vm_compute. Qed.

(** C9 as stated fails.  The run on the short document uploads one document
    and returns [None], not 1. *)
Lemma run_does_not_return_count :
  ¬ ∀ r w' t docs,
      Sample.run Sample.blob 0 = (inr r, w', t) →
      UploadDocuments docs ∈ t →
      r = PyInt (Z.of_nat (length docs)).
Proof.
  intros H.
  specialize (H PyNone 1
                [EmbeddingsCreate Sample.txt;
                 UploadDocuments (Sample.documents 0); LogUploaded 1]
                (Sample.documents 0)).
  discriminate H; [by vm_compute|right; left].
Qed.

(** * More on the chunker *)

(** ** Words *)

Lemma split_go_nonempty acc s : acc ≠ [] → Py.split_go acc s ≠ [].
Proof.
  revert acc. induction s as [|c s IH]; intros acc Hacc; simpl.
  - by destruct acc.
  - destruct (Py.isspace c); [by destruct acc|]. by apply IH.
Qed.

Lemma split_go_words s : ∀ acc,
  Forall (λ c, Py.isspace c = false) acc → Forall is_word (Py.split_go acc s).
Proof.
  assert (∀ acc, acc ≠ [] → Forall (λ c, Py.isspace c = false) acc →
                 is_word (rev acc)) as Hrev.
  { intros acc Hne Hacc. split.
    - intros H%(f_equal (@rev N)). rewrite rev_involutive in H. done.
    - rewrite rev_alt. by apply Forall_reverse. }
  induction s as [|c s IH]; intros acc Hacc; simpl.
  - destruct acc; [done|]. apply Forall_singleton. by apply Hrev.
  - destruct (Py.isspace c) eqn:Hc.
    + destruct acc as [|d acc]; [by apply IH|].
      constructor; [by apply Hrev|by apply IH].
    + apply IH. by constructor.
Qed.

Lemma split_words s : Forall is_word (Py.split s).
Proof. by apply split_go_words. Qed.

Lemma split_go_word w : ∀ acc s,
  Forall (λ c, Py.isspace c = false) w →
  Py.split_go acc (w ++ s) = Py.split_go (rev w ++ acc) s.
Proof.
  induction w as [|c w IH]; intros acc s Hw; [done|].
  apply Forall_cons in Hw as [Hc Hw]. simpl. rewrite Hc, IH by done.
  by rewrite <-app_assoc.
Qed.

Lemma split_word w : is_word w → Py.split w = [w].
Proof.
  intros [Hne Hw]. unfold Py.split.
  rewrite <-(app_nil_r w) at 1. rewrite split_go_word by done.
  rewrite app_nil_r. simpl.
  destruct (rev w) eqn:Hr; [|by rewrite <-Hr, rev_involutive].
  apply (f_equal (@rev N)) in Hr. by rewrite rev_involutive in Hr.
Qed.

(** The words of texts joined by spaces are the words of the texts. *)
Lemma split_join l :
  Py.split (Py.join (Py.lit " ") l) = mjoin (Py.split <$> l).
Proof.
  induction l as [|x l IH]; [done|]. destruct l as [|y l].
  - simpl. by rewrite app_nil_r.
  - rewrite join_cons by done. change (Py.lit " " ++ ?r) with (0x20%N :: r).
    unfold Py.split at 1. rewrite split_go_space by done.
    fold (Py.split x) (Py.split (Py.join (Py.lit " ") (y :: l))).
    by rewrite IH.
Qed.

(** Words joined by spaces and split again are the same words. *)
Lemma split_join_words ws :
  Forall is_word ws → Py.split (Py.join (Py.lit " ") ws) = ws.
Proof.
  intros Hws. rewrite split_join.
  induction Hws as [|w ws Hw Hws IH]; [done|].
  change (Py.split w ++ mjoin (Py.split <$> ws) = w :: ws).
  by rewrite split_word, IH.
Qed.

(** ** The words of the normalised text *)

Lemma split_go_sub_ws s : ∀ b acc,
  (b = true → acc = []) →
  Py.split_go acc (Py.sub_ws_go b s) = Py.split_go acc s.
Proof.
  induction s as [|c s IH]; intros b acc Hb; [done|]. simpl.
  destruct (Py.isspace c) eqn:Hc.
  - destruct b.
    + rewrite (Hb eq_refl). by apply IH.
    + simpl. destruct acc; by rewrite (IH true []).
  - simpl. rewrite Hc. apply IH. by intros [=].
Qed.

Lemma split_lstrip s : Py.split (Py.lstrip s) = Py.split s.
Proof.
  unfold Py.split. induction s as [|c s IH]; [done|]. simpl.
  destruct (Py.isspace c) eqn:Hc; [done|]. simpl. by rewrite Hc.
Qed.

Lemma split_go_rstrip s : ∀ acc,
  Py.split_go acc (Py.rstrip s) = Py.split_go acc s.
Proof.
  unfold Py.rstrip. induction s as [|c s IH]; intros acc; [done|]. simpl.
  destruct (Py.rstrip_by Py.isspace s) as [|d r] eqn:Hr.
  - destruct (Py.isspace c) eqn:Hc; simpl; rewrite ?Hc.
    + rewrite <-(IH []). by destruct acc.
    + by rewrite <-IH.
  - simpl. destruct (Py.isspace c); [destruct acc|]; by rewrite <-IH.
Qed.

Lemma split_clean txt : Py.split (clean txt) = Py.split txt.
Proof.
  unfold clean, Py.strip, Py.split.
  rewrite split_go_rstrip. fold (Py.split (Py.lstrip (Py.re_sub_ws txt))).
  rewrite split_lstrip. by apply split_go_sub_ws.
Qed.

Lemma token_count_clean txt : token_count (clean txt) = token_count txt.
Proof. unfold token_count. by rewrite split_clean. Qed.

(** ** Normalised texts are their words joined by spaces *)

Lemma spaced_app_space b x y :
  spaced b (x ++ 0x20%N :: y) = true →
  spaced b x = true ∧ spaced true y = true.
Proof.
  revert b. induction x as [|c x IH]; intros b.
  - simpl app. rewrite spaced_cons. simpl.
    rewrite andb_true_iff. intros [Hb ?]. by destruct b.
  - simpl app. rewrite !spaced_cons. destruct (Py.isspace c).
    + rewrite !andb_true_iff. intros [[-> ->] H].
      by destruct (IH _ H) as [-> ->].
    + apply IH.
Qed.

Lemma spaced_join l :
  spaced true (Py.join (Py.lit " ") l) = true →
  Forall (λ x, spaced true x = true) l.
Proof.
  induction l as [|x l IH]; [done|]. destruct l as [|y l].
  - simpl. by constructor.
  - rewrite join_cons by done. change (Py.lit " " ++ ?r) with (0x20%N :: r).
    intros [??]%spaced_app_space. constructor; auto.
Qed.

Lemma spaced_split_go s : ∀ b acc,
  spaced b s = true → (b = true → acc = []) → (b = false → acc ≠ []) →
  Py.join (Py.lit " ") (Py.split_go acc s) = rev acc ++ s.
Proof.
  induction s as [|c s IH]; intros b acc Hs Hb Hb'.
  - simpl in *. apply negb_true_iff in Hs. specialize (Hb' Hs).
    destruct acc; [done|]. simpl. by rewrite app_nil_r.
  - rewrite spaced_cons in Hs. simpl. destruct (Py.isspace c) eqn:Hc.
    + apply andb_true_iff in Hs as [Hs Hs'].
      apply andb_true_iff in Hs as [->%N.eqb_eq Hbf%negb_true_iff].
      specialize (Hb' Hbf). destruct acc as [|d acc]; [done|].
      destruct s as [|e s]; [done|].
      pose proof Hs' as [He _]%spaced_true_cons.
      rewrite join_cons.
      * by rewrite (IH true [] Hs').
      * simpl. rewrite He. by apply split_go_nonempty.
    + rewrite (IH false (c :: acc)) by done. simpl. by rewrite <-app_assoc.
Qed.

Lemma spaced_normal s :
  spaced true s = true → Py.join (Py.lit " ") (Py.split s) = s.
Proof. intros Hs. unfold Py.split. by rewrite (spaced_split_go s true []). Qed.

(** ** Every section is in normal form *)

Lemma split_text_blank max_tokens txt :
  clean txt = [] → split_text max_tokens txt = [mkSplitPage [] 0].
Proof.
  intros H. unfold split_text, sentences_of. rewrite H.
  change (Py.re_split_sentences []) with [[] : list N].
  cbn [foldl]. unfold split_step. simpl. by destruct (_ >? _)%Z.
Qed.

(** X1. The text of every section is its words joined by single spaces: no
    whitespace other than the space, no space at its ends, no two spaces
    in a row. *)
Theorem split_text_normal_form max_tokens txt :
  Forall (λ sec, Py.join (Py.lit " ") (Py.split (text sec)) = text sec)
         (split_text max_tokens txt).
Proof.
  destruct (clean_spaced txt) as [Hnil|Hs].
  { rewrite split_text_blank by done. by apply Forall_singleton. }
  rewrite <-split_text_join with (max_tokens := max_tokens) in Hs.
  apply spaced_join in Hs. apply Forall_fmap in Hs.
  eapply Forall_impl; [exact Hs|]. intros sec. apply spaced_normal.
Qed.

(** ** The words are kept *)

(** X2. The words of the sections, in their order, are the words of the text:
    nothing is dropped or repeated, and no word is cut. *)
Theorem split_text_words max_tokens txt :
  mjoin ((λ sec, Py.split (text sec)) <$> split_text max_tokens txt)
  = Py.split txt.
Proof.
  rewrite <-split_clean, <-(split_text_join max_tokens), split_join.
  by rewrite <-list_fmap_compose.
Qed.

(** ** A text within the budget *)

Lemma split_foldl_within max_tokens l : ∀ st,
  sections st = [] →
  (0 ≤ current_length st)%Z →
  (current_length st + total_tokens l ≤ max_tokens)%Z →
  foldl (split_step max_tokens) st l
  = mkSplitState [] (current_section st ++ l)
                 (current_length st + total_tokens l) (section_number st).
Proof.
  assert (∀ s, 0 ≤ token_count s)%Z as Hpos by (unfold token_count; lia).
  assert (∀ l, 0 ≤ total_tokens l)%Z as Htot.
  { intros l'. induction l' as [|x l' IH]; simpl; [lia|]. specialize (Hpos x). lia. }
  induction l as [|s l IH]; intros st Hsec Hlen Hle.
  - simpl in *. rewrite app_nil_r, Z.add_0_r, <-Hsec. by destruct st.
  - simpl in Hle. specialize (Hpos s). specialize (Htot l).
    cbn [foldl]. unfold split_step.
    destruct (Z.gtb_spec (current_length st + token_count s) max_tokens);
      [lia|].
    rewrite IH; simpl; [|done|lia|lia].
    rewrite <-app_assoc. f_equal. lia.
Qed.

(** X3. A text of at most [max_tokens] words makes one section, numbered 0: the
    normalised text. *)
Theorem split_text_single max_tokens txt :
  (token_count txt ≤ max_tokens)%Z →
  split_text max_tokens txt = [mkSplitPage (clean txt) 0].
Proof.
  intros Hle. rewrite split_text_unfold.
  rewrite <-token_count_clean, <-sentences_of_join, token_count_join in Hle.
  rewrite split_foldl_within by (simpl; done || lia).
  unfold finish, close_section, split_init.
  cbn [current_section sections section_number app].
  destruct (sentences_of txt) eqn:Hs.
  { by destruct (sentences_of_nonempty txt). }
  by rewrite <-Hs, sentences_of_join.
Qed.

Lemma split_text_single_witness :
  (token_count (Py.lit "One. Two  three. ") ≤ 3)%Z
  ∧ split_text 3 (Py.lit "One. Two  three. ")
    = [mkSplitPage (clean (Py.lit "One. Two  three. ")) 0].
Proof.
  assert (token_count (Py.lit "One. Two  three. ") ≤ 3)%Z as H
    by (vm_compute; discriminate).
  split; [exact H|]. exact (split_text_single 3 _ H).
Defined.

(** ** No section is closed early *)

Lemma adjacent_snoc {A} (R : A → A → Prop) (l : list A) (x : A) :
  (∀ i a b, l !! i = Some a → l !! S i = Some b → R a b) →
  (∀ a, last l = Some a → R a x) →
  ∀ i a b, (l ++ [x]) !! i = Some a → (l ++ [x]) !! S i = Some b → R a b.
Proof.
  intros Hl Hx i a b Ha Hb.
  destruct (decide (S i < length l)) as [Hlt|Hge].
  - rewrite lookup_app_l in Ha by lia. rewrite lookup_app_l in Hb by lia.
    eauto.
  - pose proof (lookup_lt_Some _ _ _ Hb) as Hi.
    rewrite length_app in Hi. simpl in Hi.
    assert (S i = length l) as Hi' by lia.
    rewrite lookup_app_l in Ha by lia.
    rewrite lookup_app_r, Hi', Nat.sub_diag in Hb by lia.
    injection Hb as <-. apply Hx.
    rewrite last_lookup, <-Hi'. done.
Qed.

Lemma token_count_nonneg s : (0 ≤ token_count s)%Z.
Proof. unfold token_count. lia. Qed.

Lemma greedy_close max_tokens st (n : Z) :
  greedy max_tokens st →
  (max_tokens < current_length st + n)%Z →
  ∀ sec, last (sections st ++ [close_section st]) = Some sec →
    (max_tokens < token_count (text sec) + (0 + n))%Z.
Proof.
  intros [Hlen _ _ _] Hgt sec. rewrite last_snoc. intros [= <-].
  unfold close_section. simpl. rewrite token_count_join, <-Hlen. lia.
Qed.

Lemma greedy_closed max_tokens st :
  greedy max_tokens st →
  ∀ i a b,
    (sections st ++ [close_section st]) !! i = Some a →
    (sections st ++ [close_section st]) !! S i = Some b →
    (max_tokens < token_count (text a) + token_count (text b))%Z.
Proof.
  intros [Hlen _ Hlast Hsec].
  apply (adjacent_snoc
           (λ a b, max_tokens < token_count (text a) + token_count (text b))%Z);
    [done|].
  intros a Ha. unfold close_section. simpl.
  rewrite token_count_join, <-Hlen. by apply Hlast.
Qed.

Lemma greedy_step max_tokens st sentence :
  greedy max_tokens st → greedy max_tokens (split_step max_tokens st sentence).
Proof.
  intros Hst. pose proof Hst as [Hlen Hcur Hlast Hsec].
  pose proof (token_count_nonneg sentence) as Hpos.
  assert (greedy max_tokens
            (mkSplitState (sections st) (current_section st ++ [sentence])
               (current_length st + token_count sentence)
               (section_number st))) as Hkeep.
  { split; simpl.
    - rewrite total_tokens_app, Hlen. simpl. lia.
    - intros _ H. by apply app_eq_nil in H as [_ ?].
    - intros sec Hsec'. specialize (Hlast sec Hsec'). lia.
    - done. }
  unfold split_step.
  destruct (Z.gtb_spec (current_length st + token_count sentence) max_tokens)
    as [Hgt|Hle]; [|done].
  destruct (current_section st) as [|x xs] eqn:Hcs; [by rewrite Hcs|].
  split; simpl.
  - lia.
  - done.
  - by apply greedy_close.
  - by apply greedy_closed.
Qed.

Lemma greedy_finish max_tokens st :
  greedy max_tokens st →
  ∀ i a b, finish st !! i = Some a → finish st !! S i = Some b →
    (max_tokens < token_count (text a) + token_count (text b))%Z.
Proof.
  intros Hst. unfold finish. destruct (current_section st).
  - apply Hst.
  - by apply greedy_closed.
Qed.

(** X4. Two sections that follow each other hold more than [max_tokens] words
    together: a section is closed only when the next sentence does not
    fit. *)
Theorem split_text_greedy max_tokens txt i a b :
  split_text max_tokens txt !! i = Some a →
  split_text max_tokens txt !! S i = Some b →
  (max_tokens < token_count (text a) + token_count (text b))%Z.
Proof.
  rewrite split_text_unfold. apply greedy_finish.
  apply (foldl_invariant _ (λ _, True)).
  - intros. by apply greedy_step.
  - by split.
  - by apply Forall_forall.
Qed.

Lemma split_text_greedy_witness :
  split_text 3 (Py.lit "a b. c d. e") !! 0
  = Some (mkSplitPage (Py.lit "a b.") 0)
  ∧ split_text 3 (Py.lit "a b. c d. e") !! 1
    = Some (mkSplitPage (Py.lit "c d. e") 1)
  ∧ (3 < token_count (Py.lit "a b.") + token_count (Py.lit "c d. e"))%Z.
Proof.
  assert (split_text 3 (Py.lit "a b. c d. e") !! 0
          = Some (mkSplitPage (Py.lit "a b.") 0)) as H0 by (by vm_compute).
  assert (split_text 3 (Py.lit "a b. c d. e") !! 1
          = Some (mkSplitPage (Py.lit "c d. e") 1)) as H1 by (by vm_compute).
  split; [exact H0|]. split; [exact H1|].
  exact (split_text_greedy 3 _ 0 _ _ H0 H1).
Defined.

(** ** Sentences are kept whole *)

Lemma split_step_groups max_tokens st sentence read groups :
  Forall (λ g, g ≠ []) groups →
  text <$> sections st = Py.join (Py.lit " ") <$> groups →
  mjoin groups ++ current_section st = read →
  ∃ groups',
    Forall (λ g, g ≠ []) groups'
    ∧ text <$> sections (split_step max_tokens st sentence)
      = Py.join (Py.lit " ") <$> groups'
    ∧ mjoin groups' ++ current_section (split_step max_tokens st sentence)
      = read ++ [sentence].
Proof.
  intros Hne Htext <-. unfold split_step.
  destruct (_ >? _)%Z; [destruct (current_section st) as [|x xs] eqn:Hcs|].
  - exists groups. simpl. by rewrite Hcs, <-app_assoc.
  - exists (groups ++ [x :: xs]). simpl. split; [|split].
    + apply Forall_app. by repeat constructor.
    + rewrite !fmap_app, Htext. unfold close_section. simpl.
      by rewrite Hcs.
    + rewrite list.join_app. simpl. by rewrite app_nil_r.
  - exists groups. simpl. by rewrite <-app_assoc.
Qed.

Lemma split_foldl_groups max_tokens l : ∀ st read groups,
  Forall (λ g, g ≠ []) groups →
  text <$> sections st = Py.join (Py.lit " ") <$> groups →
  mjoin groups ++ current_section st = read →
  ∃ groups',
    Forall (λ g, g ≠ []) groups'
    ∧ text <$> sections (foldl (split_step max_tokens) st l)
      = Py.join (Py.lit " ") <$> groups'
    ∧ mjoin groups' ++ current_section (foldl (split_step max_tokens) st l)
      = read ++ l.
Proof.
  induction l as [|s l IH]; intros st read groups Hne Htext Hread.
  - exists groups. by rewrite app_nil_r.
  - destruct (split_step_groups max_tokens st s read groups Hne Htext Hread)
      as (groups1 & Hne1 & Htext1 & Hread1).
    destruct (IH _ _ _ Hne1 Htext1 Hread1) as (groups2 & ? & ? & Hread2).
    exists groups2. by rewrite <-app_assoc in Hread2.
Qed.

(** X5. The sections are made of whole sentences: the sentences of the text,
    in their order, cut into groups that are not empty, each section being
    the sentences of its group joined by single spaces. *)
Theorem split_text_sentences max_tokens txt :
  ∃ groups,
    Forall (λ g, g ≠ []) groups
    ∧ mjoin groups = sentences_of txt
    ∧ text <$> split_text max_tokens txt
      = Py.join (Py.lit " ") <$> groups.
Proof.
  rewrite split_text_unfold.
  destruct (split_foldl_groups max_tokens (sentences_of txt) split_init [] [])
    as (groups & Hne & Htext & Hread); [done..|].
  simpl in Hread. unfold finish.
  destruct (current_section _) as [|x xs] eqn:Hcs.
  - exists groups. by rewrite app_nil_r in Hread.
  - exists (groups ++ [x :: xs]). split; [|split].
    + apply Forall_app. by repeat constructor.
    + rewrite list.join_app. simpl. by rewrite app_nil_r.
    + rewrite !fmap_app, Htext. unfold close_section. simpl.
      by rewrite Hcs.
Qed.

(** * More on the embedding service *)

(** ** The endpoint *)

Lemma rstrip_by_spec p s :
  ∃ tail, s = Py.rstrip_by p s ++ tail
          ∧ Forall (λ c, p c = true) tail
          ∧ ∀ c, last (Py.rstrip_by p s) = Some c → p c = false.
Proof.
  induction s as [|c s (tail & Hs & Htail & Hlast)]; [by exists []|].
  simpl. destruct (Py.rstrip_by p s) as [|d r] eqn:Hr.
  - destruct (p c) eqn:Hc.
    + exists (c :: tail). simpl in *. subst. by repeat constructor.
    + exists tail. simpl in *. subst. split; [done|]. split; [done|].
      by intros ? [= <-].
  - exists tail. split; [by rewrite Hs|]. split; [done|]. exact Hlast.
Qed.

(** X6. The endpoint that the service keeps is the given one without its
    trailing slashes, all of them: it does not end with a slash. *)
Theorem init_endpoint endpoint deployment api_key :
  let self := OpenAIEmbeddings.init endpoint deployment api_key in
  (∃ n, endpoint = OpenAIEmbeddings.endpoint self ++ replicate n 0x2F%N)
  ∧ last (OpenAIEmbeddings.endpoint self) ≠ Some 0x2F%N.
Proof.
  simpl.
  destruct (rstrip_by_spec (λ c, (c =? 0x2F)%N) endpoint)
    as (tail & Hs & Htail & Hlast).
  split.
  - exists (length tail). rewrite Hs at 1. f_equal.
    clear Hs. induction Htail as [|c tail ->%N.eqb_eq _ IH]; [done|].
    simpl. by rewrite <-IH.
  - intros H. by apply Hlast in H.
Qed.

(** ** Truncation *)

Section Truncation.

Context (self : OpenAIEmbeddings.t).

(** X7. The words of the text sent for a section are the first [max_tokens]
    words of the section. *)
Theorem truncated_words txt :
  (0 ≤ OpenAIEmbeddings.max_tokens self)%Z →
  Py.split (truncated self txt)
  = take (Z.to_nat (OpenAIEmbeddings.max_tokens self)) (Py.split txt).
Proof.
  intros Hmax. unfold truncated, token_count, Py.slice_to.
  destruct (Z.gtb_spec (Z.of_nat (length (Py.split txt)))
              (OpenAIEmbeddings.max_tokens self)) as [Hgt|Hle].
  - destruct (Z.ltb_spec (OpenAIEmbeddings.max_tokens self) 0); [lia|].
    apply split_join_words, Forall_take, split_words.
  - rewrite take_ge by lia. done.
Qed.

End Truncation.

Lemma truncated_words_witness :
  (0 ≤ OpenAIEmbeddings.max_tokens
         (OpenAIEmbeddings.mk [] [] [] [] 0 2))%Z
  ∧ Py.split (truncated (OpenAIEmbeddings.mk [] [] [] [] 0 2)
                (Py.lit "a  b c"))
    = take (Z.to_nat 2) (Py.split (Py.lit "a  b c")).
Proof.
  assert (0 ≤ OpenAIEmbeddings.max_tokens
                (OpenAIEmbeddings.mk [] [] [] [] 0 2))%Z as H
    by (simpl; lia).
  split; [exact H|]. exact (truncated_words _ (Py.lit "a  b c") H).
Defined.

(** X8. With the limits of the source, 2000 words for a section and 8000 for
    an embedding, the text sent for a section is the text of the section,
    the one stored in the index, unless the section is a single sentence of
    more than 8000 words. *)
Theorem truncation_only_of_long_sentences txt endpoint deployment api_key :
  Forall (λ sec,
            truncated (OpenAIEmbeddings.init endpoint deployment api_key)
              (text sec) = text sec
            ∨ (text sec ∈ sentences_of txt
               ∧ (8000 < token_count (text sec))%Z))
         (split_text default_max_tokens txt).
Proof.
  eapply Forall_impl; [apply split_text_budget|].
  intros sec Hsec. unfold truncated. simpl.
  destruct (Z.gtb_spec (token_count (text sec)) 8000) as [Hgt|Hle];
    [|by left].
  destruct Hsec as [Hle|[Hin _]]; [|by right].
  unfold default_max_tokens in Hle. lia.
Qed.

(** ** The calls of create_embeddings *)

Section EmbeddingCalls.

Context {World E : Type}.
Context (embeddings_create :
           OpenAIEmbeddings.t → list N → World → option E * World).

Local Abbreviation embed := (create_embeddings embeddings_create).
Local Abbreviation embed_once :=
  (create_embeddings_wrapped embeddings_create).

Lemma embed_once_events self texts (w : World) :
  ∃ k, (embed_once self texts w).2
       = (λ txt, EmbeddingsCreate (truncated self txt)) <$> take k texts
       ∧ ∀ embs, (embed_once self texts w).1.1 = inr embs → k = length texts.
Proof.
  apply (mapM_events (embed_text embeddings_create self)
           (λ txt, EmbeddingsCreate (truncated self txt))).
  intros txt w'. apply embed_text_events.
Qed.

Lemma embed_once_count self texts (w : World) :
  length (List.filter is_embedding_call (embed_once self texts w).2)
  ≤ length texts.
Proof.
  destruct (embed_once_events self texts w) as (k & -> & _).
  etrans; [apply List.filter_length_le|].
  rewrite length_fmap, length_take. lia.
Qed.

(** X9. A call of [create_embeddings] asks the service for at most three
    embeddings for each text. *)
Theorem create_embeddings_calls self texts (w : World) :
  length (List.filter is_embedding_call (embed self texts w).2)
  ≤ 3 * length texts.
Proof.
  rewrite create_embeddings_attempts.
  pose proof (embed_once_count self texts w) as H1.
  destruct (embed_once self texts w) as [[[e1|embs1] w1] t1]; simpl in *;
    [|lia].
  pose proof (embed_once_count self texts w1) as H2.
  destruct (embed_once self texts w1) as [[[e2|embs2] w2] t2]; simpl in *.
  2:{ rewrite List.filter_app, length_app. simpl. lia. }
  pose proof (embed_once_count self texts w2) as H3.
  destruct (embed_once self texts w2) as [[[e3|embs3] w3] t3]; simpl in *;
    rewrite List.filter_app, length_app; simpl;
    rewrite List.filter_app, length_app; simpl; lia.
Qed.

(** X10. The vectors that [create_embeddings] returns are those of one attempt,
    the last one: it has asked for the embedding of every text once, in the
    order of the texts, as the last calls of the whole, and vector [i] is
    the answer of the service to text [i], truncated. *)
Theorem create_embeddings_result self texts (w : World) embs w' t :
  embed self texts w = (inr embs, w', t) →
  (∃ t0, t = t0 ++ ((λ txt, EmbeddingsCreate (truncated self txt)) <$> texts))
  ∧ Forall2 (λ txt emb, ∃ w1 w2,
               embeddings_create self (truncated self txt) w1
               = (Some emb, w2))
            texts embs.
Proof.
  intros (w0 & t0 & t1 & Honce & ->)%retry_from_inr. split.
  - exists t0. f_equal.
    destruct (embed_once_events self texts w0) as (k & Ht & Hk).
    rewrite Honce in Ht, Hk. simpl in *. rewrite Ht, (Hk embs eq_refl).
    by rewrite firstn_all.
  - apply mapM_inr in Honce. eapply Forall2_impl; [exact Honce|].
    intros txt emb (w1 & w2 & t2 & H). exists w1, w2.
    unfold embed_text, call in H.
    destruct (embeddings_create _ _ w1) as [[emb'|] w2']; by simplify_eq.
Qed.

End EmbeddingCalls.

Lemma create_embeddings_result_witness :
  create_embeddings Sample.embeddings_create Sample.service [Sample.txt] 1
  = (inr [[1; 15]%Z], 2,
     [EmbeddingsCreate (E:=list Z) (truncated Sample.service Sample.txt)])
  ∧ (∃ t0, [EmbeddingsCreate (E:=list Z) (truncated Sample.service Sample.txt)]
           = t0 ++ ((λ txt, EmbeddingsCreate (E:=list Z) (truncated Sample.service txt))
                      <$> [Sample.txt]))
  ∧ Forall2 (λ txt emb, ∃ w1 w2,
               Sample.embeddings_create Sample.service
                 (truncated Sample.service txt) w1 = (Some emb, w2))
            [Sample.txt] [[1; 15]%Z].
Proof.
  assert (create_embeddings Sample.embeddings_create Sample.service
            [Sample.txt] 1
          = (inr [[1; 15]%Z], 2,
             [EmbeddingsCreate (E:=list Z) (truncated Sample.service Sample.txt)])) as H
    by (by vm_compute).
  split; [exact H|].
  exact (create_embeddings_result Sample.embeddings_create Sample.service
           [Sample.txt] 1 _ _ _ H).
Defined.

(** * More on the pipeline *)

Lemma split_text_numbers max_tokens txt :
  page_num <$> split_text max_tokens txt
  = seq 0 (length (split_text max_tokens txt)).
Proof.
  rewrite split_text_unfold. apply numbered_finish.
  apply (foldl_invariant _ (λ _, True)).
  - intros. by apply numbered_step.
  - done.
  - by apply Forall_true.
Qed.

Lemma split_text_page_num max_tokens txt i page :
  split_text max_tokens txt !! i = Some page → page_num page = i.
Proof.
  intros Hi. pose proof (split_text_numbers max_tokens txt) as Hn.
  apply (f_equal (λ l, l !! i)) in Hn.
  rewrite list_lookup_fmap, Hi in Hn. simpl in Hn.
  apply lookup_lt_Some in Hi. rewrite lookup_seq_lt in Hn by done.
  by injection Hn.
Qed.

Lemma strip_blank s :
  Forall (λ c, Py.isspace c = true) s → Py.strip s = [].
Proof.
  intros Hs. unfold Py.strip.
  assert (Py.lstrip s = []) as ->; [|done].
  induction Hs as [|c s Hc _ IH]; [done|]. simpl. by rewrite Hc.
Qed.

Lemma pages_blank pages : ∀ acc,
  Forall (Forall (λ c, Py.isspace c = true)) pages →
  Forall (λ c, Py.isspace c = true) acc →
  Forall (λ c, Py.isspace c = true)
    (foldl (λ txt page, txt ++ page ++ [0x0A; 0x0A]%N) acc pages).
Proof.
  induction pages as [|page pages IH]; intros acc Hpages Hacc; [done|].
  apply Forall_cons in Hpages as [Hpage Hpages].
  simpl. apply IH; [done|]. rewrite !Forall_app. by repeat constructor.
Qed.

Section MorePipelineFacts.

Context (unicode_lower : N → list N).
Context (pdf_page_texts : list byte → option (list (list N))).
Context (environ : gmap string (list N)).
Context {World E IndexingResult : Type}.
Context (embeddings_create :
           OpenAIEmbeddings.t → list N → World → option E * World).
Context (upload_documents :
           SearchInfo.t → list (IndexDocument E) → World
           → option (list IndexingResult) * World).

Local Abbreviation run :=
  (process_file_and_update_index unicode_lower pdf_page_texts environ
     embeddings_create upload_documents).
Local Abbreviation embed := (create_embeddings embeddings_create).
Local Abbreviation extract := (extract_text unicode_lower pdf_page_texts).
Local Abbreviation chunked :=
  (chunked unicode_lower pdf_page_texts environ).

(** The events of a run: no upload, or the events of the embedding stage,
    then the upload of the documents, then at most its log line. *)
Lemma run_trace_shape blob ct file_name si (w : World) :
  Forall (λ ev, is_upload ev = false) (run blob ct file_name si w).2
  ∨ ∃ txt self embs w1 t1 account tail,
      chunked blob ct file_name txt self
      ∧ embed self (text <$> split_text default_max_tokens txt) w
        = (inr embs, w1, t1)
      ∧ environ !! "AZURE_STORAGE_ACCOUNT_NAME" = Some account
      ∧ (run blob ct file_name si w).2
        = t1 ++ UploadDocuments
                  (documents_of unicode_lower account file_name
                     (sections_of (mkFile file_name blob ct) file_name
                        (split_text default_max_tokens txt)) embs)
             :: tail
      ∧ (tail = [] ∨ ∃ n, tail = [LogUploaded n]).
Proof.
  pose proof (run_outcome unicode_lower pdf_page_texts environ
                embeddings_create upload_documents blob ct file_name si w)
    as Hrun. revert Hrun.
  generalize (run blob ct file_name si w). intros out Hrun.
  destruct Hrun as
    [ ? | ? ? ? | ? ? | ? ? ? ? ? ?
    | txt self e w1 t1 Hch Hembed
    | txt self embs w1 t1 Hch Hembed Ha
    | txt self embs w1 t1 account w2 Hch Hembed Ha documents Hup
    | txt self embs w1 t1 account res w2 Hch Hembed Ha documents Hup ];
    simpl;
    try (left; by repeat constructor);
    pose proof (embed_no_upload embeddings_create self
                  (text <$> split_text default_max_tokens txt) w) as Hno;
    rewrite Hembed in Hno; simpl in Hno;
    try (by left);
    right; exists txt, self, embs, w1, t1, account.
  - exists []. eauto 10.
  - exists [LogUploaded (length res)]. eauto 10.
Qed.

Lemma split_at_upload (t1 t1' t2 t2' : list (event E)) docs docs' :
  Forall (λ ev, is_upload ev = false) t1' →
  Forall (λ ev, is_upload ev = false) t2' →
  t1 ++ UploadDocuments docs :: t2 = t1' ++ UploadDocuments docs' :: t2' →
  t1 = t1' ∧ docs = docs' ∧ t2 = t2'.
Proof.
  intros H1 H2. revert t1.
  induction H1 as [|a t1' Ha _ IH]; intros [|b t1]; simpl; intros Heq.
  - by simplify_eq.
  - injection Heq as -> Heq. rewrite <-Heq in H2.
    apply Forall_app in H2 as [_ H2]. by apply Forall_cons in H2 as [? _].
  - injection Heq as <- _. done.
  - injection Heq as <- Heq. by destruct (IH _ Heq) as (-> & -> & ->).
Qed.

(** X11. A run uploads at most once, and after its last embedding call: before
    an upload there is none, and after it nothing but the log line of its
    success. *)
Theorem upload_is_last_call blob ct file_name si (w : World) t1 docs t2 :
  (run blob ct file_name si w).2 = t1 ++ UploadDocuments docs :: t2 →
  Forall (λ ev, is_upload ev = false) t1
  ∧ Forall (λ ev, is_upload ev = false ∧ is_embedding_call ev = false) t2.
Proof.
  intros Ht.
  destruct (run_trace_shape blob ct file_name si w)
    as [Hno|(txt & self & embs & w1 & t1' & account & tail
             & _ & Hembed & _ & Ht' & Htail)].
  { rewrite Ht in Hno. apply Forall_app in Hno as [_ Hno].
    by apply Forall_cons in Hno as [? _]. }
  pose proof (embed_no_upload embeddings_create self
                (text <$> split_text default_max_tokens txt) w) as Hno.
  rewrite Hembed in Hno. simpl in Hno.
  rewrite Ht in Ht'. apply split_at_upload in Ht' as (-> & _ & ->);
    [|done|by destruct Htail as [->|[n ->]]; repeat constructor].
  split; [done|].
  destruct Htail as [->|[n ->]]; by repeat constructor.
Qed.

(** X12. The fields of an uploaded document that do not come from the section:
    the title is the base name of the file, the source file its name, the
    source page the one of the file for the position of the document in the
    batch, the storage URL the one of the file in the container
    [evidencefiles] of the configured account; there is no category and no
    URL. *)
Theorem uploaded_document_fields blob ct file_name si (w : World) docs i d :
  UploadDocuments docs ∈ (run blob ct file_name si w).2 →
  docs !! i = Some d →
  doc_title d = Py.basename file_name
  ∧ doc_category d = None
  ∧ doc_sourcefile d = file_name
  ∧ doc_sourcepage d
    = sourcepage_from_file_page unicode_lower file_name (Z.of_nat i)
  ∧ doc_urls d = []
  ∧ ∃ account,
      environ !! "AZURE_STORAGE_ACCOUNT_NAME" = Some account
      ∧ doc_storageUrl d = storage_url account file_name.
Proof.
  intros Hin Hd.
  destruct (run_trace_shape blob ct file_name si w)
    as [Hno|(txt & self & embs & w1 & t1 & account & tail
             & _ & Hembed & Ha & Ht & Htail)].
  { by destruct (no_upload_elem _ _ Hno Hin). }
  pose proof (embed_no_upload embeddings_create self
                (text <$> split_text default_max_tokens txt) w) as Hno.
  rewrite Hembed in Hno. simpl in Hno.
  apply list_elem_of_split in Hin as (l1 & l2 & Hin).
  rewrite Hin in Ht.
  apply split_at_upload in Ht as (_ & -> & _);
    [|done|by destruct Htail as [->|[n ->]]; repeat constructor].
  apply documents_of_lookup in Hd as (s & e & Hs & _ & ->).
  unfold sections_of in Hs. rewrite list_lookup_fmap in Hs.
  destruct (split_text _ _ !! i) as [page|] eqn:Hp; simpl in Hs; [|done].
  injection Hs as <-. simpl.
  rewrite (split_text_page_num _ _ _ _ Hp). eauto 10.
Qed.

(** X13. Names that differ only in [/], [.] and [_] share their ids: the
    documents of two files with such names have the same id, position by
    position, whatever the files hold. *)
Theorem colliding_names_share_ids blob1 ct1 name1 si1 (w1 : World) docs1
    blob2 ct2 name2 si2 (w2 : World) docs2 i d1 d2 :
  Py.replace 0x2E 0x5F (Py.replace 0x2F 0x5F name1)
  = Py.replace 0x2E 0x5F (Py.replace 0x2F 0x5F name2) →
  UploadDocuments docs1 ∈ (run blob1 ct1 name1 si1 w1).2 →
  UploadDocuments docs2 ∈ (run blob2 ct2 name2 si2 w2).2 →
  docs1 !! i = Some d1 → docs2 !! i = Some d2 →
  doc_id d1 = doc_id d2.
Proof.
  intros Hname
    (txt1 & s1 & embs1 & ? & ? & a1 & _ & _ & _ & ->)%run_upload_inv
    (txt2 & s2 & embs2 & ? & ? & a2 & _ & _ & _ & ->)%run_upload_inv
    (p1 & e1 & Hp1 & _ & ->)%documents_of_lookup
    (p2 & e2 & Hp2 & _ & ->)%documents_of_lookup.
  unfold sections_of in Hp1, Hp2.
  rewrite list_lookup_fmap in Hp1. rewrite list_lookup_fmap in Hp2.
  destruct (split_text _ txt1 !! i); simpl in Hp1; [|done].
  destruct (split_text _ txt2 !! i); simpl in Hp2; [|done].
  injection Hp1 as <-. injection Hp2 as <-. simpl.
  unfold filename_to_id. simpl. by rewrite Hname.
Qed.

(** X14. A PDF whose pages hold no text, or only whitespace, is skipped: the
    run logs that there is no text and calls no service. *)
Theorem pdf_without_text_is_skipped blob ct file_name si (w : World) pages :
  blob ≠ [] →
  bool_decide (Py.lower unicode_lower ct = Py.lit "application/pdf")
  || Py.endswith (Py.lower unicode_lower file_name) (Py.lit ".pdf") = true →
  pdf_page_texts blob = Some pages →
  Forall (Forall (λ c, Py.isspace c = true)) pages →
  run blob ct file_name si w = (inr PyNone, w, [LogNoText]).
Proof.
  intros Hblob Hpdf Hpages Hblank.
  unfold process_file_and_update_index, extract_text. simpl.
  destruct blob as [|b blob]; [done|].
  rewrite Hpdf, Hpages. rewrite strip_blank; [done|].
  by apply pages_blank.
Qed.

Lemma index_pages_missing file file_name si pages (w : World) :
  environ !! "AZURE_OPENAI_ENDPOINT" = None
  ∨ environ !! "AZURE_OPENAI_DEPLOYMENT" = None
  ∨ environ !! "AZURE_OPENAI_KEY" = None →
  ∃ key,
    index_split_pages unicode_lower environ embeddings_create
      upload_documents file file_name si pages w
    = (inl (KeyError key), w, [])
    ∧ environ !! key = None
    ∧ key ∈ ["AZURE_OPENAI_ENDPOINT"; "AZURE_OPENAI_DEPLOYMENT";
             "AZURE_OPENAI_KEY"].
Proof.
  intros Hnone. unfold index_split_pages.
  destruct (environ !! "AZURE_OPENAI_ENDPOINT") as [endpoint|] eqn:He.
  2:{ eexists. split; [apply bind_inl; by rewrite getenv_eq, He|].
      split; [done|left]. }
  rewrite (bind_pure _ _ _ endpoint) by by rewrite getenv_eq, He.
  destruct (environ !! "AZURE_OPENAI_DEPLOYMENT") as [deployment|] eqn:Hd.
  2:{ eexists. split; [apply bind_inl; by rewrite getenv_eq, Hd|].
      split; [done|right; left]. }
  rewrite (bind_pure _ _ _ deployment) by by rewrite getenv_eq, Hd.
  destruct (environ !! "AZURE_OPENAI_KEY") as [api_key|] eqn:Hk.
  2:{ eexists. split; [apply bind_inl; by rewrite getenv_eq, Hk|].
      split; [done|right; right; left]. }
  by destruct Hnone as [?|[?|?]].
Qed.

(** X22. The ways a run fails.  PyPDF2 cannot read a PDF: nothing has been
    called.  One of the four settings is missing: nothing has been
    uploaded.  The embeddings have failed three times: the error is
    [RetryError] and nothing has been uploaded.  Or the upload itself has
    failed, as the last call of the run. *)
Theorem run_failures blob ct file_name si (w : World) e w' t :
  run blob ct file_name si w = (inl e, w', t) →
  (e = PdfReadError
   ∧ bool_decide (Py.lower unicode_lower ct = Py.lit "application/pdf")
     || Py.endswith (Py.lower unicode_lower file_name) (Py.lit ".pdf")
     = true
   ∧ pdf_page_texts blob = None
   ∧ w' = w ∧ t = [])
  ∨ (∃ key,
       e = KeyError key
       ∧ environ !! key = None
       ∧ key ∈ ["AZURE_OPENAI_ENDPOINT"; "AZURE_OPENAI_DEPLOYMENT";
                "AZURE_OPENAI_KEY"; "AZURE_STORAGE_ACCOUNT_NAME"]
       ∧ Forall (λ ev, is_upload ev = false) t)
  ∨ (e = RetryError ∧ Forall (λ ev, is_upload ev = false) t)
  ∨ (e = UploadError
     ∧ ∃ t1 docs w1,
         t = t1 ++ [UploadDocuments docs]
         ∧ upload_documents si docs w1 = (None, w')).
Proof.
  unfold process_file_and_update_index.
  destruct blob as [|b blob]; [done|].
  set (file := mkFile file_name (b :: blob) ct).
  destruct (extract file) as [e'|txt] eqn:Htxt.
  { intros [= <- <- <-]. left. revert Htxt.
    unfold extract_text, get_content, file. cbn [_content content_type name].
    destruct (_ || _); [|by destruct (Py.decode_utf8 _)].
    destruct (pdf_page_texts _); [done|]. by intros [= <-]. }
  destruct txt as [|c txt]; [done|].
  set (pages := split_text default_max_tokens (c :: txt)).
  destruct (environ !! "AZURE_OPENAI_ENDPOINT") as [endpoint|] eqn:He.
  2:{ destruct (index_pages_missing file file_name si pages w)
        as (key & -> & Hkey & Hin); [by left|].
      intros [= <- <- <-]. right; left. exists key.
      split; [done|]. split; [done|]. split; [|done].
      revert Hin. rewrite !elem_of_cons. tauto. }
  destruct (environ !! "AZURE_OPENAI_DEPLOYMENT") as [deployment|] eqn:Hd.
  2:{ destruct (index_pages_missing file file_name si pages w)
        as (key & -> & Hkey & Hin); [by right; left|].
      intros [= <- <- <-]. right; left. exists key.
      split; [done|]. split; [done|]. split; [|done].
      revert Hin. rewrite !elem_of_cons. tauto. }
  destruct (environ !! "AZURE_OPENAI_KEY") as [api_key|] eqn:Hk.
  2:{ destruct (index_pages_missing file file_name si pages w)
        as (key & -> & Hkey & Hin); [by right; right|].
      intros [= <- <- <-]. right; left. exists key.
      split; [done|]. split; [done|]. split; [|done].
      revert Hin. rewrite !elem_of_cons. tauto. }
  rewrite (index_pages_eq _ _ _ _ _ _ _ _ _ _ _ _ He Hd Hk).
  pose proof (embed_no_upload embeddings_create
                (OpenAIEmbeddings.init endpoint deployment api_key)
                (text <$> pages) w) as Hno.
  destruct (embed _ _ w) as [[[e'|embs] w1] t1] eqn:Hembed.
  { intros [= <- <- <-]. right; right; left.
    split; [by eapply retry_from_inl|done]. }
  pose proof (embed_length _ _ _ _ _ _ _ Hembed) as Hlen.
  rewrite length_fmap in Hlen.
  pose proof (zip_sections_nonempty file file_name _ _ Hlen) as Hz.
  fold pages in Hz.
  destruct (zip (sections_of file file_name pages) embs) as [|p l];
    [done|].
  destruct (environ !! "AZURE_STORAGE_ACCOUNT_NAME") as [account|] eqn:Ha.
  2:{ intros [= <- <- <-]. right; left. eexists.
      split; [done|]. split; [done|]. split; [|done].
      do 3 right. left. }
  cbv zeta. simpl default.
  destruct (upload_documents _ _ _) as [[res|] w2] eqn:Hup; [done|].
  intros [= <- <- <-]. do 3 right. split; [done|]. eauto.
Qed.

End MorePipelineFacts.

(** ** Examples *)

Lemma upload_is_last_call_witness :
  (Sample.run Sample.blob 0).2
  = [EmbeddingsCreate Sample.txt]
    ++ UploadDocuments (Sample.documents 0) :: [LogUploaded 1]
  ∧ Forall (λ ev : event (list Z), is_upload ev = false)
      [EmbeddingsCreate Sample.txt]
  ∧ Forall (λ ev : event (list Z),
              is_upload ev = false ∧ is_embedding_call ev = false)
      [LogUploaded 1].
Proof.
  assert ((Sample.run Sample.blob 0).2
          = [EmbeddingsCreate Sample.txt]
            ++ UploadDocuments (Sample.documents 0) :: [LogUploaded 1]) as H
    by (by vm_compute).
  split; [exact H|].
  exact (upload_is_last_call Sample.unicode_lower Sample.pdf_page_texts
           Sample.environ Sample.embeddings_create Sample.upload_documents
           Sample.blob Sample.content_type Sample.file_name
           Sample.search_info 0 _ _ _ H).
Defined.

Lemma uploaded_document_fields_witness :
  UploadDocuments (Sample.documents 0) ∈ (Sample.run Sample.blob 0).2
  ∧ Sample.documents 0 !! 0 = Some (sample_document Sample.file_name 0)
  ∧ doc_title (sample_document Sample.file_name 0)
    = Py.basename Sample.file_name
  ∧ doc_category (sample_document Sample.file_name 0) = None
  ∧ doc_sourcefile (sample_document Sample.file_name 0) = Sample.file_name
  ∧ doc_sourcepage (sample_document Sample.file_name 0)
    = sourcepage_from_file_page Sample.unicode_lower Sample.file_name
        (Z.of_nat 0)
  ∧ doc_urls (sample_document Sample.file_name 0) = []
  ∧ ∃ account,
      Sample.environ !! "AZURE_STORAGE_ACCOUNT_NAME" = Some account
      ∧ doc_storageUrl (sample_document Sample.file_name 0)
        = storage_url account Sample.file_name.
Proof.
  assert (UploadDocuments (Sample.documents 0)
            ∈ (Sample.run Sample.blob 0).2) as H.
  { vm_compute. right. left. }
  assert (Sample.documents 0 !! 0
          = Some (sample_document Sample.file_name 0)) as H0
    by (by vm_compute).
  split; [exact H|]. split; [exact H0|].
  exact (uploaded_document_fields Sample.unicode_lower Sample.pdf_page_texts
           Sample.environ Sample.embeddings_create Sample.upload_documents
           Sample.blob Sample.content_type Sample.file_name
           Sample.search_info 0 _ 0 _ H H0).
Defined.

Lemma colliding_names_share_ids_witness :
  Py.replace 0x2E 0x5F (Py.replace 0x2F 0x5F Sample.file_name)
  = Py.replace 0x2E 0x5F (Py.replace 0x2F 0x5F sample_other_name)
  ∧ UploadDocuments (Sample.documents 0) ∈ (Sample.run Sample.blob 0).2
  ∧ UploadDocuments (sample_other_documents 3)
      ∈ (process_file_and_update_index Sample.unicode_lower
           Sample.pdf_page_texts Sample.environ Sample.embeddings_create
           Sample.upload_documents Sample.blob Sample.content_type
           sample_other_name Sample.search_info 3).2
  ∧ Sample.documents 0 !! 0 = Some (sample_document Sample.file_name 0)
  ∧ sample_other_documents 3 !! 0
    = Some (sample_document sample_other_name 3)
  ∧ doc_id (sample_document Sample.file_name 0)
    = doc_id (sample_document sample_other_name 3).
Proof.
  assert (Py.replace 0x2E 0x5F (Py.replace 0x2F 0x5F Sample.file_name)
          = Py.replace 0x2E 0x5F (Py.replace 0x2F 0x5F sample_other_name))
    as Hname by (by vm_compute).
  assert (UploadDocuments (Sample.documents 0)
            ∈ (Sample.run Sample.blob 0).2) as H1.
  { vm_compute. right. left. }
  assert (UploadDocuments (sample_other_documents 3)
            ∈ (process_file_and_update_index Sample.unicode_lower
                 Sample.pdf_page_texts Sample.environ
                 Sample.embeddings_create Sample.upload_documents
                 Sample.blob Sample.content_type sample_other_name
                 Sample.search_info 3).2) as H2.
  { vm_compute. right. left. }
  assert (Sample.documents 0 !! 0
          = Some (sample_document Sample.file_name 0)) as Hd1
    by (by vm_compute).
  assert (sample_other_documents 3 !! 0
          = Some (sample_document sample_other_name 3)) as Hd2
    by (by vm_compute).
  split; [exact Hname|]. split; [exact H1|]. split; [exact H2|].
  split; [exact Hd1|]. split; [exact Hd2|].
  exact (colliding_names_share_ids Sample.unicode_lower Sample.pdf_page_texts
           Sample.environ Sample.embeddings_create Sample.upload_documents
           _ _ _ _ _ _ _ _ _ _ _ _ 0 _ _ Hname H1 H2 Hd1 Hd2).
Defined.

Lemma pdf_without_text_is_skipped_witness :
  Sample.blob ≠ []
  ∧ bool_decide (Py.lower Sample.unicode_lower (Py.lit "Application/PDF")
                 = Py.lit "application/pdf")
    || Py.endswith (Py.lower Sample.unicode_lower Sample.file_name)
         (Py.lit ".pdf") = true
  ∧ sample_scanned_pages Sample.blob = Some [[]; Py.lit " "]
  ∧ Forall (Forall (λ c, Py.isspace c = true)) [[]; Py.lit " "]
  ∧ process_file_and_update_index Sample.unicode_lower sample_scanned_pages
      Sample.environ Sample.embeddings_create Sample.upload_documents
      Sample.blob (Py.lit "Application/PDF") Sample.file_name
      Sample.search_info 0
    = (inr PyNone, 0, [LogNoText]).
Proof.
  assert (Sample.blob ≠ []) as H1 by done.
  assert (bool_decide (Py.lower Sample.unicode_lower
                         (Py.lit "Application/PDF")
                       = Py.lit "application/pdf")
          || Py.endswith (Py.lower Sample.unicode_lower Sample.file_name)
               (Py.lit ".pdf") = true) as H2 by (by vm_compute).
  assert (sample_scanned_pages Sample.blob = Some [[]; Py.lit " "]) as H3
    by done.
  assert (Forall (Forall (λ c, Py.isspace c = true)) [[]; Py.lit " "]) as H4
    by (by repeat constructor).
  split; [exact H1|]. split; [exact H2|]. split; [exact H3|].
  split; [exact H4|].
  exact (pdf_without_text_is_skipped Sample.unicode_lower
           sample_scanned_pages Sample.environ Sample.embeddings_create
           Sample.upload_documents Sample.blob (Py.lit "Application/PDF")
           Sample.file_name Sample.search_info 0 _ H1 H2 H3 H4).
Defined.

Lemma run_failures_witness :
  process_file_and_update_index Sample.unicode_lower Sample.pdf_page_texts
    ∅ Sample.embeddings_create Sample.upload_documents Sample.blob
    Sample.content_type Sample.file_name Sample.search_info 0
  = (inl (KeyError "AZURE_OPENAI_ENDPOINT"), 0, [])
  ∧ ((KeyError "AZURE_OPENAI_ENDPOINT" = PdfReadError
      ∧ bool_decide (Py.lower Sample.unicode_lower Sample.content_type
                     = Py.lit "application/pdf")
        || Py.endswith (Py.lower Sample.unicode_lower Sample.file_name)
             (Py.lit ".pdf") = true
      ∧ Sample.pdf_page_texts Sample.blob = None
      ∧ 0 = 0 ∧ ([] : list (event (list Z))) = [])
     ∨ (∃ key,
          KeyError "AZURE_OPENAI_ENDPOINT" = KeyError key
          ∧ (∅ : gmap string (list N)) !! key = None
          ∧ key ∈ ["AZURE_OPENAI_ENDPOINT"; "AZURE_OPENAI_DEPLOYMENT";
                   "AZURE_OPENAI_KEY"; "AZURE_STORAGE_ACCOUNT_NAME"]
          ∧ Forall (λ ev : event (list Z), is_upload ev = false) [])
     ∨ (KeyError "AZURE_OPENAI_ENDPOINT" = RetryError
        ∧ Forall (λ ev : event (list Z), is_upload ev = false) [])
     ∨ (KeyError "AZURE_OPENAI_ENDPOINT" = UploadError
        ∧ ∃ t1 docs w1,
            ([] : list (event (list Z))) = t1 ++ [UploadDocuments docs]
            ∧ Sample.upload_documents Sample.search_info docs w1
              = (None, 0))).
Proof.
  assert (process_file_and_update_index Sample.unicode_lower
            Sample.pdf_page_texts ∅ Sample.embeddings_create
            Sample.upload_documents Sample.blob Sample.content_type
            Sample.file_name Sample.search_info 0
          = (inl (KeyError "AZURE_OPENAI_ENDPOINT"), 0, [])) as H
    by (by vm_compute).
  split; [exact H|].
  exact (run_failures Sample.unicode_lower Sample.pdf_page_texts ∅
           Sample.embeddings_create Sample.upload_documents Sample.blob
           Sample.content_type Sample.file_name Sample.search_info 0
           _ _ _ H).
Defined.

(** * The trigger *)

(** ** Splitting at a character *)

Lemma split_on_nonempty sep s : Str.split_on sep s ≠ [].
Proof.
  destruct s as [|c s]; [done|]. simpl.
  destruct (c =? sep)%N; [done|]. by destruct (Str.split_on sep s).
Qed.

Lemma split_on_app sep a s :
  sep ∉ a → Str.split_on sep (a ++ sep :: s) = a :: Str.split_on sep s.
Proof.
  induction a as [|c a IH]; intros Ha; simpl.
  - by rewrite N.eqb_refl.
  - apply not_elem_of_cons in Ha as [Hc Ha].
    destruct (N.eqb_spec c sep) as [?|_]; [done|]. by rewrite IH.
Qed.

Lemma split_on_none sep a : sep ∉ a → Str.split_on sep a = [a].
Proof.
  induction a as [|c a IH]; intros Ha; [done|]. simpl.
  apply not_elem_of_cons in Ha as [Hc Ha].
  destruct (N.eqb_spec c sep) as [?|_]; [done|]. by rewrite IH.
Qed.

Lemma split_on_pieces sep s : Forall (λ p, sep ∉ p) (Str.split_on sep s).
Proof.
  induction s as [|c s IH]; simpl.
  - repeat constructor. apply not_elem_of_nil.
  - destruct (N.eqb_spec c sep) as [->|Hc].
    + constructor; [apply not_elem_of_nil|done].
    + destruct (Str.split_on sep s) as [|p ps]; simpl.
      * repeat constructor. apply not_elem_of_cons.
        split; [done|apply not_elem_of_nil].
      * apply Forall_cons in IH as [Hp Hps]. constructor; [|done].
        by apply not_elem_of_cons.
Qed.

(** The pieces joined by the separator are the string. *)
Lemma join_split_on sep s : Py.join [sep] (Str.split_on sep s) = s.
Proof.
  induction s as [|c s IH]; [done|]. simpl.
  destruct (N.eqb_spec c sep) as [->|Hc].
  - rewrite join_cons by apply split_on_nonempty. by rewrite IH.
  - pose proof (split_on_nonempty sep s) as Hne.
    destruct (Str.split_on sep s) as [|p ps]; [done|].
    destruct ps as [|q ps]; [by rewrite <-IH|].
    rewrite join_cons by done. rewrite join_cons in IH by done.
    by rewrite <-IH.
Qed.

(** ** Replacement *)

Lemma startswith_app old s : Str.startswith (old ++ s) old = true.
Proof.
  unfold Str.startswith. apply bool_decide_eq_true.
  by rewrite take_app_length.
Qed.

Lemma startswith_occurs s old : Str.startswith s old = true → occurs old s.
Proof.
  unfold Str.startswith. intros H%bool_decide_eq_true.
  exists [], (drop (length old) s). simpl.
  by rewrite <-H at 1; rewrite take_drop.
Qed.

Lemma occurs_cons old c s : occurs old s → occurs old (c :: s).
Proof. intros (pre & post & ->). by exists (c :: pre), post. Qed.

(** Without an occurrence, nothing is replaced. *)
Lemma replace_go_id old new s :
  ¬ occurs old s → Str.replace_go old new 0 s = s.
Proof.
  induction s as [|c s IH]; intros Hs; [done|]. simpl.
  destruct (Str.startswith (c :: s) old) eqn:Hst.
  - by apply startswith_occurs in Hst.
  - rewrite IH; [done|]. intros H. by apply Hs, occurs_cons.
Qed.

Lemma replace_go_skip old new p s :
  Str.replace_go old new (length p) (p ++ s) = Str.replace_go old new 0 s.
Proof.
  induction p as [|c p IH]; simpl; [|done].
  destruct s as [|c s]; [done|]. done.
Qed.

(** An occurrence at the start is replaced, and the rest is treated
    alone. *)
Lemma replace_prefix old new s :
  old ≠ [] →
  Str.replace old new (old ++ s) = new ++ Str.replace old new s.
Proof.
  destruct old as [|c old]; [done|]. intros _. unfold Str.replace.
  change ((c :: old) ++ s) with (c :: (old ++ s)).
  cbn [Str.replace_go].
  change (c :: (old ++ s)) with ((c :: old) ++ s).
  rewrite startswith_app.
  replace (length (c :: old) - 1) with (length old) by (simpl; lia).
  by rewrite replace_go_skip.
Qed.

Lemma replace_id old new s :
  old ≠ [] → ¬ occurs old s → Str.replace old new s = s.
Proof.
  destruct old as [|c old]; [done|]. intros _ Hs. by apply replace_go_id.
Qed.

(** ** The URL of a blob *)

Lemma after_container_Some parts rest :
  after_container parts = Some rest →
  ∃ pre, parts = pre ++ Py.lit "evidencefiles" :: rest
         ∧ Py.lit "evidencefiles" ∉ pre.
Proof.
  induction parts as [|part parts IH]; [done|]. simpl.
  case_bool_decide as Hp.
  - intros [= <-]. exists []. split; [by rewrite Hp|apply not_elem_of_nil].
  - intros (pre & -> & Hpre)%IH. exists (part :: pre).
    split; [done|]. by apply not_elem_of_cons.
Qed.

Lemma after_container_app pre rest :
  Py.lit "evidencefiles" ∉ pre →
  after_container (pre ++ Py.lit "evidencefiles" :: rest) = Some rest.
Proof.
  induction pre as [|p pre IH]; intros Hpre; cbn [app after_container].
  - by rewrite bool_decide_eq_true_2.
  - apply not_elem_of_cons in Hpre as [Hp Hpre].
    rewrite bool_decide_eq_false_2 by done. by apply IH.
Qed.

(** X15. A URL that is parsed has a path with a segment [evidencefiles]; the
    container is [evidencefiles], and the name of the blob, not empty, is
    all that follows the first such segment. *)
Theorem parse_blob_url_inv blob_url account container_name blob_name :
  parse_blob_url blob_url = Some (account, container_name, blob_name) →
  container_name = Py.lit "evidencefiles"
  ∧ blob_name ≠ []
  ∧ ∃ pre,
      Forall (λ part, (0x2F%N ∉ part) ∧ part ≠ Py.lit "evidencefiles") pre
      ∧ url_path blob_url
        = Py.join (Py.lit "/") (pre ++ [Py.lit "evidencefiles"; blob_name]).
Proof.
  unfold parse_blob_url.
  pose proof (join_split_on 0x2F (url_path blob_url)) as Hjoin.
  pose proof (split_on_pieces 0x2F (url_path blob_url)) as Hpieces.
  destruct (_ <? _); [done|].
  destruct (after_container _) as [rest|] eqn:Hafter; [|done].
  destruct (Py.join (Py.lit "/") rest) as [|c r] eqn:Hname; [done|].
  intros [= <- <- <-]. split; [done|]. split; [done|].
  apply after_container_Some in Hafter as (pre & Hparts & Hpre).
  exists pre. split.
  - rewrite Hparts in Hpieces. apply Forall_app in Hpieces as [Hpieces _].
    apply Forall_forall. intros part Hin. split.
    + by eapply Forall_forall in Hpieces.
    + by intros ->.
  - rewrite <-Hjoin, Hparts, <-Hname.
    change (pre ++ Py.lit "evidencefiles" :: rest)
      with (pre ++ [Py.lit "evidencefiles"] ++ rest).
    change (pre ++ [Py.lit "evidencefiles"; Py.join (Py.lit "/") rest])
      with (pre ++ [Py.lit "evidencefiles"]
                ++ [Py.join (Py.lit "/") rest]).
    rewrite !app_assoc.
    rewrite (join_flatten (Py.lit "/") _ rest []); [by rewrite app_nil_r|].
    by destruct rest.
Qed.

(** X16. The URL that the pipeline writes for a file is parsed back into the
    account, the container and the name of the file. *)
Theorem parse_storage_url account file_name :
  0x2F%N ∉ account → 0x2E%N ∉ account → file_name ≠ [] →
  ¬ occurs (Py.lit "https://")
      (account ++ Py.lit ".blob.core.windows.net/evidencefiles/"
       ++ file_name) →
  parse_blob_url (storage_url account file_name)
  = Some (account, Py.lit "evidencefiles", file_name).
Proof.
  intros Hslash Hdot Hname Hocc.
  unfold parse_blob_url, url_path, storage_url.
  rewrite replace_prefix, replace_id by done. rewrite app_nil_l.
  change (Py.lit ".blob.core.windows.net/evidencefiles/" ++ file_name)
    with (Py.lit ".blob.core.windows.net"
          ++ 0x2F%N :: Py.lit "evidencefiles" ++ 0x2F%N :: file_name).
  rewrite app_assoc.
  assert (0x2F%N ∉ account ++ Py.lit ".blob.core.windows.net") as Hhost.
  { rewrite elem_of_app. intros [?|H]; [done|].
    by apply (bool_decide_pack _) in H. }
  assert (0x2F%N ∉ Py.lit "evidencefiles") as Hef.
  { intros H. by apply (bool_decide_pack _) in H. }
  rewrite split_on_app, split_on_app by done.
  pose proof (split_on_nonempty 0x2F file_name) as Hne.
  destruct (Str.split_on 0x2F file_name) as [|p ps] eqn:Hsplit; [done|].
  cbn [length Nat.ltb Nat.leb head default id].
  change (Py.lit ".blob.core.windows.net")
    with (0x2E%N :: Py.lit "blob.core.windows.net").
  rewrite split_on_app by done. cbn [head default id].
  assert (after_container
            ((account ++ 0x2E%N :: Py.lit "blob.core.windows.net")
             :: Py.lit "evidencefiles" :: p :: ps) = Some (p :: ps)) as ->.
  { apply (after_container_app [_]). apply not_elem_of_cons.
    split; [|apply not_elem_of_nil].
    intros H. assert (0x2E%N ∈ Py.lit "evidencefiles") as Hin.
    { rewrite H. apply elem_of_app. right. left. }
    by apply (bool_decide_pack _) in Hin. }
  rewrite <-Hsplit. change (Py.lit "/") with [0x2F%N].
  rewrite join_split_on. by destruct file_name.
Qed.

Lemma parse_storage_url_witness :
  (0x2F%N ∉ Py.lit "acct") ∧ (0x2E%N ∉ Py.lit "acct")
  ∧ Sample.file_name ≠ []
  ∧ ¬ occurs (Py.lit "https://")
        (Py.lit "acct" ++ Py.lit ".blob.core.windows.net/evidencefiles/"
         ++ Sample.file_name)
  ∧ parse_blob_url (storage_url (Py.lit "acct") Sample.file_name)
    = Some (Py.lit "acct", Py.lit "evidencefiles", Sample.file_name).
Proof.
  assert (0x2F%N ∉ Py.lit "acct") as H1
    by (intros H; by apply (bool_decide_pack _) in H).
  assert (0x2E%N ∉ Py.lit "acct") as H2
    by (intros H; by apply (bool_decide_pack _) in H).
  assert (Sample.file_name ≠ []) as H3 by done.
  assert (¬ occurs (Py.lit "https://")
            (Py.lit "acct" ++ Py.lit ".blob.core.windows.net/evidencefiles/"
             ++ Sample.file_name)) as H4.
  { intros (pre & post & H).
    assert (0x3A%N ∈ Py.lit "acct"
                     ++ Py.lit ".blob.core.windows.net/evidencefiles/"
                     ++ Sample.file_name) as Hin.
    { rewrite H. apply elem_of_app. right. apply elem_of_app. left.
      by apply (bool_decide_unpack _). }
    by apply (bool_decide_pack _) in Hin. }
  split; [exact H1|]. split; [exact H2|]. split; [exact H3|].
  split; [exact H4|].
  exact (parse_storage_url (Py.lit "acct") Sample.file_name H1 H2 H3 H4).
Defined.

Lemma parse_blob_url_inv_witness :
  parse_blob_url (Py.lit "https://a.example/x/evidencefiles/d/evidencefiles/n.txt")
  = Some (Py.lit "a", Py.lit "evidencefiles", Py.lit "d/evidencefiles/n.txt")
  ∧ Py.lit "evidencefiles" = Py.lit "evidencefiles"
  ∧ Py.lit "d/evidencefiles/n.txt" ≠ []
  ∧ ∃ pre,
      Forall (λ part, (0x2F%N ∉ part) ∧ part ≠ Py.lit "evidencefiles") pre
      ∧ url_path
          (Py.lit "https://a.example/x/evidencefiles/d/evidencefiles/n.txt")
        = Py.join (Py.lit "/")
            (pre ++ [Py.lit "evidencefiles";
                     Py.lit "d/evidencefiles/n.txt"]).
Proof.
  assert (parse_blob_url
            (Py.lit "https://a.example/x/evidencefiles/d/evidencefiles/n.txt")
          = Some (Py.lit "a", Py.lit "evidencefiles",
                  Py.lit "d/evidencefiles/n.txt")) as H by (by vm_compute).
  split; [exact H|]. exact (parse_blob_url_inv _ _ _ _ H).
Defined.

(** ** main *)

Lemma parse_blob_url_container blob_url account container_name blob_name :
  parse_blob_url blob_url = Some (account, container_name, blob_name) →
  container_name = Py.lit "evidencefiles" ∧ blob_name ≠ [].
Proof.
  unfold parse_blob_url. destruct (_ <? _); [done|].
  destruct (after_container _); [|done].
  destruct (Py.join _ _) eqn:Hj; [done|]. by intros [= <- <- <-].
Qed.

Lemma after_container_None parts :
  Py.lit "evidencefiles" ∉ parts → after_container parts = None.
Proof.
  induction parts as [|part parts IH]; [done|].
  intros [Hp Hparts]%not_elem_of_cons. cbn [after_container].
  rewrite bool_decide_eq_false_2 by done. by apply IH.
Qed.

Section TriggerFacts.

Context (unicode_lower : N → list N).
Context (pdf_page_texts : list byte → option (list (list N))).
Context (environ : gmap string (list N)).
Context {World E IndexingResult : Type}.
Context (embeddings_create :
           OpenAIEmbeddings.t → list N → World → option E * World).
Context (upload_documents :
           SearchInfo.t → list (IndexDocument E) → World
           → option (list IndexingResult) * World).
Context (download_blob :
           list N → list N → list N → World
           → (storage_exn + list byte * option (list N)) * World).

Local Abbreviation run :=
  (process_file_and_update_index unicode_lower pdf_page_texts environ
     embeddings_create upload_documents).
Local Abbreviation trigger :=
  (main unicode_lower pdf_page_texts environ embeddings_create
     upload_documents download_blob).

(** What a call of [main] has done, by its events: nothing; or the
    download of the blob that the URL names, and no more; or the download
    and a run of the pipeline on the content, under the name of the blob. *)
Lemma main_inv event (w : World) r w' t :
  trigger event w = (r, w', t) →
  (t = []
   ∧ (r = inr PyNone ∧ w' = w
      ∨ r = inl (EnvironKeyError "AzureWebJobsStorage")
        ∧ environ !! "AzureWebJobsStorage" = None))
  ∨ ∃ url account blob_name,
      event_type event = Py.lit "Microsoft.Storage.BlobCreated"
      ∧ data_url event = Some url
      ∧ parse_blob_url url
        = Some (account, Py.lit "evidencefiles", blob_name)
      ∧ ((t = [DownloadBlob (Py.lit "evidencefiles") blob_name]
          ∧ (r = inr PyNone
             ∨ r = inl StorageError
             ∨ ∃ key, r = inl (EnvironKeyError key)
                      ∧ environ !! key = None
                      ∧ key ∈ ["AZURE_SEARCH_SERVICE_ENDPOINT";
                               "AZURE_SEARCH_ADMIN_KEY";
                               "AZURE_SEARCH_INDEX_NAME"]))
         ∨ ∃ content ct si w1 rr t2,
             content ≠ []
             ∧ run content ct blob_name si w1 = (rr, w', t2)
             ∧ t = DownloadBlob (Py.lit "evidencefiles") blob_name
                   :: (Pipeline <$> t2)
             ∧ r = match rr with
                   | inl e => inl (PipelineError e)
                   | inr _ => inr PyNone
                   end).
Proof.
  unfold main, get_blob_content, search_info_of_environ.
  destruct event as [ty url len ect]. simpl.
  case_bool_decide as Hty; simpl; [|intros [= <- <- <-]; left; eauto].
  destruct url as [[|c u]|]; simpl; try (intros [= <- <- <-]; left; eauto).
  destruct (_ =? _)%Z; [intros [= <- <- <-]; left; eauto|].
  destruct (parse_blob_url (c :: u)) as [[[account cn] bn]|] eqn:Hparse;
    [|intros [= <- <- <-]; left; eauto].
  destruct (parse_blob_url_container _ _ _ _ Hparse) as [-> Hbn].
  destruct (environ !! "AzureWebJobsStorage") as [conn|] eqn:Hconn;
    [|intros [= <- <- <-]; left; eauto].
  intros Hmain. right. exists (c :: u), account, bn.
  split; [done|]. split; [done|]. split; [done|].
  destruct (download_blob conn _ bn w) as [[[]|[content bct]] w1].
  { injection Hmain as <- <- <-. left. eauto. }
  { injection Hmain as <- <- <-. left. eauto. }
  destruct content as [|b content].
  { injection Hmain as <- <- <-. left. eauto. }
  destruct (environ !! "AZURE_SEARCH_SERVICE_ENDPOINT") eqn:H1.
  2:{ injection Hmain as <- <- <-. left. split; [done|]. right. right.
      eexists. split; [done|]. split; [done|]. set_solver. }
  destruct (environ !! "AZURE_SEARCH_ADMIN_KEY") eqn:H2.
  2:{ injection Hmain as <- <- <-. left. split; [done|]. right. right.
      eexists. split; [done|]. split; [done|]. set_solver. }
  destruct (environ !! "AZURE_SEARCH_INDEX_NAME") eqn:H3.
  2:{ injection Hmain as <- <- <-. left. split; [done|]. right. right.
      eexists. split; [done|]. split; [done|]. set_solver. }
  right.
  match type of Hmain with
  | context [run ?content ?ct _ ?si ?w1] =>
      exists content, ct, si, w1;
      destruct (run content ct bn si w1) as [[rr w2] t2] eqn:Hrun
  end.
  exists rr, t2. destruct rr; injection Hmain as <- <- <-; eauto.
Qed.

(** X17. A call of [main] downloads at most one blob, from the container
    [evidencefiles] and under the name that the URL of the event gives,
    before anything else; what follows are the events of one run of the
    pipeline under that name. *)
Theorem main_events event (w : World) :
  (trigger event w).2 = []
  ∨ ∃ url account blob_name,
      data_url event = Some url
      ∧ parse_blob_url url
        = Some (account, Py.lit "evidencefiles", blob_name)
      ∧ ((trigger event w).2 = [DownloadBlob (Py.lit "evidencefiles") blob_name]
         ∨ ∃ content ct si w1,
             content ≠ []
             ∧ (trigger event w).2
               = DownloadBlob (Py.lit "evidencefiles") blob_name
                 :: (Pipeline <$> (run content ct blob_name si w1).2)).
Proof.
  destruct (trigger event w) as [[r w'] t] eqn:Hmain.
  apply main_inv in Hmain
    as [[-> _]|(url & account & bn & _ & Hurl & Hparse
                & [[-> _]|(content & ct & si & w1 & rr & t2
                           & Hne & Hrun & -> & _)])];
    [by left|right; exists url, account, bn; eauto..|].
  right. exists url, account, bn. split; [done|]. split; [done|].
  right. exists content, ct, si, w1. by rewrite Hrun.
Qed.

(** X18. The ways [main] fails: a setting is missing; the storage client fails
    with another exception than [ValueError]; or the pipeline raises, and
    [main] raises the same after the same events.  A [ValueError] of
    [get_blob_content] is not one of them. *)
Theorem main_failures event (w : World) e w' t :
  trigger event w = (inl e, w', t) →
  (∃ key, e = EnvironKeyError key
          ∧ environ !! key = None
          ∧ key ∈ ["AzureWebJobsStorage"; "AZURE_SEARCH_SERVICE_ENDPOINT";
                   "AZURE_SEARCH_ADMIN_KEY"; "AZURE_SEARCH_INDEX_NAME"])
  ∨ e = StorageError
  ∨ ∃ pe content ct blob_name si w1 t2 download,
      e = PipelineError pe
      ∧ run content ct blob_name si w1 = (inl pe, w', t2)
      ∧ t = download :: (Pipeline <$> t2).
Proof.
  intros [[_ [[[=] _]|[[= ->] Hkey]]]
         |(url & account & bn & _ & _ & _
           & [[_ [[=]|[[= ->]|(key & [= ->] & Hkey & Hin)]]]
             |(content & ct & si & w1 & rr & t2
               & _ & Hrun & -> & Hr)])]%main_inv.
  - left. eexists. split; [done|]. split; [done|]. left.
  - by right; left.
  - left. eexists. split; [done|]. split; [done|]. by right.
  - destruct rr as [pe|v]; [|done]. injection Hr as ->.
    right; right.
    by exists pe, content, ct, bn, si, w1, t2,
         (DownloadBlob (Py.lit "evidencefiles") bn).
Qed.

(** X19. The documents that a call of [main] uploads are those of a file named
    as the blob of the URL of the event: each of them has this name as its
    source file, and as its storage URL the one of this name in the
    container [evidencefiles] of the configured storage account. *)
Theorem main_documents event (w : World) docs d :
  Pipeline (UploadDocuments docs) ∈ (trigger event w).2 →
  d ∈ docs →
  ∃ url account blob_name storage_account,
    data_url event = Some url
    ∧ parse_blob_url url = Some (account, Py.lit "evidencefiles", blob_name)
    ∧ environ !! "AZURE_STORAGE_ACCOUNT_NAME" = Some storage_account
    ∧ doc_sourcefile d = blob_name
    ∧ doc_storageUrl d = storage_url storage_account blob_name.
Proof.
  intros Hin Hd.
  destruct (trigger event w) as [[r w'] t] eqn:Hmain. simpl in Hin.
  apply main_inv in Hmain
    as [[-> _]|(url & account & bn & _ & Hurl & Hparse
                & [[-> _]|(content & ct & si & w1 & rr & t2
                           & Hne & Hrun & -> & _)])].
  - by apply elem_of_nil in Hin.
  - by apply list_elem_of_singleton in Hin.
  - apply elem_of_cons in Hin as [[=]|Hin].
    apply list_elem_of_fmap in Hin as (ev & [= <-] & Hin).
    assert (UploadDocuments docs ∈ (run content ct bn si w1).2) as Hup
      by by rewrite Hrun.
    destruct (run_trace_shape unicode_lower pdf_page_texts environ
                embeddings_create upload_documents content ct bn si w1)
      as [Hno|(txt & self & embs & w2 & t1 & sa & tail
               & _ & Hembed & Ha & Ht & Htail)].
    { by destruct (no_upload_elem _ _ Hno Hup). }
    pose proof (embed_no_upload embeddings_create self
                  (text <$> split_text default_max_tokens txt) w1) as Hno.
    rewrite Hembed in Hno. simpl in Hno.
    apply list_elem_of_split in Hup as (l1 & l2 & Hup).
    rewrite Hup in Ht.
    apply split_at_upload in Ht as (_ & -> & _);
      [|done|by destruct Htail as [->|[n ->]]; repeat constructor].
    apply list_elem_of_lookup in Hd as [i Hd].
    apply documents_of_lookup in Hd as (s & e & Hs & _ & ->).
    unfold sections_of in Hs. rewrite list_lookup_fmap in Hs.
    destruct (split_text _ _ !! i) as [page|]; simpl in Hs; [|done].
    injection Hs as <-. by exists url, account, bn, sa.
Qed.

(** X20. Events that [main] passes over, without a call and without an error:
    those of another type than the creation of a blob, those without a URL
    or with an empty one, those without a length or of length 0, and those
    whose URL has no path segment [evidencefiles]. *)
Theorem main_skips event (w : World) :
  event_type event ≠ Py.lit "Microsoft.Storage.BlobCreated"
  ∨ default [] (data_url event) = []
  ∨ default 0%Z (data_contentLength event) = 0%Z
  ∨ (∃ url, data_url event = Some url
            ∧ Py.lit "evidencefiles" ∉ Str.split_on 0x2F (url_path url)) →
  trigger event w = (inr PyNone, w, []).
Proof.
  unfold main, get_blob_content.
  destruct event as [ty url len ect]. simpl.
  intros H. case_bool_decide as Hty; simpl; [|done].
  destruct H as [?|H]; [done|].
  destruct (default [] url) as [|c u] eqn:Hurl; [done|].
  destruct H as [?|H]; [done|].
  destruct (Z.eqb_spec (default 0%Z len) 0) as [|Hlen]; [done|].
  destruct H as [?|(url' & -> & Hseg)]; [done|].
  simpl in Hurl. subst url'.
  assert (parse_blob_url (c :: u) = None) as ->; [|done].
  unfold parse_blob_url. destruct (_ <? _); [done|].
  by rewrite after_container_None.
Qed.

(** X21. When the guards of [main] pass, the blob is there and the settings
    too, [main] is a run of the pipeline on the content of the blob, under
    its name and after its download: with the events and the final state
    of the run, raising when the run raises.  The content type of the run
    is the one of the event; the one of the blob is used when the event has
    an empty one, and [application/octet-stream] when it has none. *)
Theorem main_runs_pipeline event (w : World) url account blob_name
    connection_string content blob_content_type w1 search_info :
  event_type event = Py.lit "Microsoft.Storage.BlobCreated" →
  data_url event = Some url →
  default 0%Z (data_contentLength event) ≠ 0%Z →
  parse_blob_url url = Some (account, Py.lit "evidencefiles", blob_name) →
  environ !! "AzureWebJobsStorage" = Some connection_string →
  download_blob connection_string (Py.lit "evidencefiles") blob_name w
  = (inr (content, blob_content_type), w1) →
  content ≠ [] →
  search_info_of_environ environ = inr search_info →
  let content_type :=
    match data_contentType event, blob_content_type with
    | None, _ => Py.lit "application/octet-stream"
    | Some (c :: r), _ => c :: r
    | Some [], Some (c :: r) => c :: r
    | Some [], _ => Py.lit "application/octet-stream"
    end in
  trigger event w
  = match run content content_type blob_name search_info w1 with
    | (inl e, w2, t2) =>
        (inl (PipelineError e), w2,
         DownloadBlob (Py.lit "evidencefiles") blob_name
         :: (Pipeline <$> t2))
    | (inr _, w2, t2) =>
        (inr PyNone, w2,
         DownloadBlob (Py.lit "evidencefiles") blob_name
         :: (Pipeline <$> t2))
    end.
Proof.
  unfold main, get_blob_content.
  destruct event as [ty url' len ect]. simpl.
  intros -> -> Hlen Hparse Hconn Hdown Hcontent Hsi.
  rewrite bool_decide_eq_true_2 by done. simpl.
  destruct url as [|c u]; [done|].
  destruct (Z.eqb_spec (default 0%Z len) 0) as [|_]; [done|].
  rewrite Hparse, Hconn, Hdown, Hsi.
  destruct content as [|b content]; [done|].
  by destruct ect as [[|??]|], blob_content_type as [[|??]|].
Qed.

End TriggerFacts.

Lemma main_skips_witness :
  (event_type (mkEvent (Py.lit "Microsoft.Storage.BlobDeleted")
                 (Some sample_url) (Some 15%Z) None)
   ≠ Py.lit "Microsoft.Storage.BlobCreated"
   ∨ default [] (data_url (mkEvent (Py.lit "Microsoft.Storage.BlobDeleted")
                             (Some sample_url) (Some 15%Z) None)) = []
   ∨ default 0%Z
       (data_contentLength (mkEvent (Py.lit "Microsoft.Storage.BlobDeleted")
                              (Some sample_url) (Some 15%Z) None)) = 0%Z
   ∨ (∃ url,
        data_url (mkEvent (Py.lit "Microsoft.Storage.BlobDeleted")
                    (Some sample_url) (Some 15%Z) None) = Some url
        ∧ Py.lit "evidencefiles" ∉ Str.split_on 0x2F (url_path url)))
  ∧ sample_main (mkEvent (Py.lit "Microsoft.Storage.BlobDeleted")
                   (Some sample_url) (Some 15%Z) None) 0
    = (inr PyNone, 0, []).
Proof.
  assert (event_type (mkEvent (Py.lit "Microsoft.Storage.BlobDeleted")
                        (Some sample_url) (Some 15%Z) None)
          ≠ Py.lit "Microsoft.Storage.BlobCreated") as H by done.
  split; [left; exact H|].
  exact (main_skips Sample.unicode_lower Sample.pdf_page_texts
           sample_trigger_environ Sample.embeddings_create
           Sample.upload_documents sample_download_blob _ 0
           (or_introl H)).
Defined.

Lemma main_failures_witness :
  main Sample.unicode_lower Sample.pdf_page_texts Sample.environ
    Sample.embeddings_create Sample.upload_documents sample_download_blob
    sample_event 0
  = (inl (EnvironKeyError "AzureWebJobsStorage"), 0, [])
  ∧ ((∃ key, EnvironKeyError "AzureWebJobsStorage" = EnvironKeyError key
             ∧ Sample.environ !! key = None
             ∧ key ∈ ["AzureWebJobsStorage"; "AZURE_SEARCH_SERVICE_ENDPOINT";
                      "AZURE_SEARCH_ADMIN_KEY"; "AZURE_SEARCH_INDEX_NAME"])
     ∨ EnvironKeyError "AzureWebJobsStorage" = StorageError
     ∨ ∃ pe content ct blob_name si w1 t2 download,
         EnvironKeyError "AzureWebJobsStorage" = PipelineError pe
         ∧ process_file_and_update_index Sample.unicode_lower
             Sample.pdf_page_texts Sample.environ Sample.embeddings_create
             Sample.upload_documents content ct blob_name si w1
           = (inl pe, 0, t2)
         ∧ [] = download :: (Pipeline <$> t2)).
Proof.
  assert (main Sample.unicode_lower Sample.pdf_page_texts
            Sample.environ Sample.embeddings_create Sample.upload_documents
            sample_download_blob sample_event 0
          = (inl (EnvironKeyError "AzureWebJobsStorage"), 0, [])) as H
    by (by vm_compute).
  split; [exact H|].
  exact (main_failures Sample.unicode_lower Sample.pdf_page_texts
           Sample.environ Sample.embeddings_create Sample.upload_documents
           sample_download_blob sample_event 0 _ _ _ H).
Defined.

Lemma main_documents_witness :
  Pipeline (UploadDocuments (Sample.documents 0))
    ∈ (sample_main sample_event 0).2
  ∧ sample_document Sample.file_name 0 ∈ Sample.documents 0
  ∧ ∃ url account blob_name storage_account,
      data_url sample_event = Some url
      ∧ parse_blob_url url
        = Some (account, Py.lit "evidencefiles", blob_name)
      ∧ sample_trigger_environ !! "AZURE_STORAGE_ACCOUNT_NAME"
        = Some storage_account
      ∧ doc_sourcefile (sample_document Sample.file_name 0) = blob_name
      ∧ doc_storageUrl (sample_document Sample.file_name 0)
        = storage_url storage_account blob_name.
Proof.
  assert (Pipeline (UploadDocuments (Sample.documents 0))
            ∈ (sample_main sample_event 0).2) as H.
  { vm_compute. right. right. left. }
  assert (sample_document Sample.file_name 0 ∈ Sample.documents 0) as Hd.
  { vm_compute. left. }
  split; [exact H|]. split; [exact Hd|].
  exact (main_documents Sample.unicode_lower Sample.pdf_page_texts
           sample_trigger_environ Sample.embeddings_create
           Sample.upload_documents sample_download_blob sample_event 0
           _ _ H Hd).
Defined.

Lemma main_runs_pipeline_witness :
  event_type sample_event = Py.lit "Microsoft.Storage.BlobCreated"
  ∧ data_url sample_event = Some sample_url
  ∧ default 0%Z (data_contentLength sample_event) ≠ 0%Z
  ∧ parse_blob_url sample_url
    = Some (Py.lit "acct", Py.lit "evidencefiles", Sample.file_name)
  ∧ sample_trigger_environ !! "AzureWebJobsStorage"
    = Some (Py.lit "UseDevelopmentStorage=true")
  ∧ sample_download_blob (Py.lit "UseDevelopmentStorage=true")
      (Py.lit "evidencefiles") Sample.file_name 0
    = (inr (Sample.blob, None), 0)
  ∧ Sample.blob ≠ []
  ∧ search_info_of_environ sample_trigger_environ = inr Sample.search_info
  ∧ sample_main sample_event 0
    = match
        process_file_and_update_index Sample.unicode_lower
          Sample.pdf_page_texts sample_trigger_environ
          Sample.embeddings_create Sample.upload_documents Sample.blob
          (Py.lit "text/plain") Sample.file_name Sample.search_info 0
      with
      | (inl e, w2, t2) =>
          (inl (PipelineError e), w2,
           DownloadBlob (Py.lit "evidencefiles") Sample.file_name
           :: (Pipeline <$> t2))
      | (inr _, w2, t2) =>
          (inr PyNone, w2,
           DownloadBlob (Py.lit "evidencefiles") Sample.file_name
           :: (Pipeline <$> t2))
      end.
Proof.
  assert (event_type sample_event = Py.lit "Microsoft.Storage.BlobCreated")
    as H1 by done.
  assert (data_url sample_event = Some sample_url) as H2 by done.
  assert (default 0%Z (data_contentLength sample_event) ≠ 0%Z) as H3
    by done.
  assert (parse_blob_url sample_url
          = Some (Py.lit "acct", Py.lit "evidencefiles", Sample.file_name))
    as H4 by (by vm_compute).
  assert (sample_trigger_environ !! "AzureWebJobsStorage"
          = Some (Py.lit "UseDevelopmentStorage=true")) as H5
    by (by vm_compute).
  assert (sample_download_blob (Py.lit "UseDevelopmentStorage=true")
            (Py.lit "evidencefiles") Sample.file_name 0
          = (inr (Sample.blob, None), 0)) as H6 by done.
  assert (Sample.blob ≠ []) as H7 by done.
  assert (search_info_of_environ sample_trigger_environ
          = inr Sample.search_info) as H8 by (by vm_compute).
  split; [exact H1|]. split; [exact H2|]. split; [exact H3|].
  split; [exact H4|]. split; [exact H5|]. split; [exact H6|].
  split; [exact H7|]. split; [exact H8|].
  exact (main_runs_pipeline Sample.unicode_lower Sample.pdf_page_texts
           sample_trigger_environ Sample.embeddings_create
           Sample.upload_documents sample_download_blob sample_event 0
           _ _ _ _ _ _ _ _ H1 H2 H3 H4 H5 H6 H7 H8).
Defined.
